(** * eSTOL sizing: a shallow embedding of the hybrid-electric sizing closure

    The Python program sizes a hybrid-electric aircraft by a fixed-point
    iteration over the takeoff gross weight (TOGW).  This file embeds the
    program function by function (config_loader.py, powertrain.py,
    dual_motor_powertrain.py, atmosphere.py, constraints.py, mission.py,
    aircraft.py) and proves properties of the embedding.

    Conventions of the embedding.
    - Numbers.  The code computes with Python floats.  Every definition is
      written over an arithmetic interface [Arith] (and [Libm] for the
      transcendental functions), with two instances: binary64 ([float], the
      kernel's IEEE 754 doubles, on which definitions evaluate), and the real
      numbers ([R], exact arithmetic, on which the algebraic laws hold).
      Division is the total operation of the instance.  Where the divisor
      is zero the code behaves by the type of its operands: a division of
      two Python numbers raises ZeroDivisionError, a division that involves
      a numpy float (the result of [np.sqrt] or [np.exp], and whatever is
      computed from one) gives inf or NaN.  The embedding does not tell the
      two kinds of float apart and raises nothing at a division, so a
      statement that a call returns, or about the value it returns, carries
      the hypothesis that the divisors it meets are not zero, or is made of
      a run that returned.  Likewise the exact instance has no NaN
      (there 0 * t = 0 and the square root of a negative number is 0): what
      is stated of every input is proved in any arithmetic, or from laws
      that binary64 satisfies ([zero_laws]), and the statements proved over
      [R] alone concern inputs on which the code computes finite numbers.
    - Dynamic values.  A configuration leaf is a [pyval]; a missing leaf is
      [VNone].  Arithmetic on a leaf goes through [num], which raises
      [TypeError] on anything that is not a number, as Python does on None.
    - Effects.  Exceptions are the [result] monad; the mutated objects (the
      aircraft and its powertrain) are passed and returned explicitly.
      Console output is not modelled, except where formatting a value can
      raise. *)

From Stdlib Require Import ZArith List String Bool Reals Lra Lia Floats.
Import ListNotations.

Set Implicit Arguments.

(** ** Decimal literals

    A literal of the source, such as [2.20462], is kept as the pair of its
    digits and the number of digits after the point. *)

Record dec := Dec { dec_num : Z; dec_exp : nat }.

Definition dec_of_number (n : Number.number) : option dec :=
  match n with
  | Number.Decimal (Decimal.Decimal i f) =>
      Some (Dec (Z.of_int (Decimal.app_int i f)) (Decimal.nb_digits f))
  | Number.Decimal (Decimal.DecimalExp _ _ _) => None
  | Number.Hexadecimal _ => None
  end.

Definition dec_to_number (d : dec) : option Number.number := None.

Declare Scope dec_scope.
Delimit Scope dec_scope with dec.
Number Notation dec dec_of_number dec_to_number : dec_scope.

(** ** Arithmetic interface *)

Class Arith (F : Type) := {
  of_Z : Z -> F;
  add : F -> F -> F;
  sub : F -> F -> F;
  mul : F -> F -> F;
  div : F -> F -> F;
  opp : F -> F;
  py_abs : F -> F;
  np_sqrt : F -> F;
  ltb : F -> F -> bool;
  leb : F -> F -> bool;
}.

(** The functions the code takes from numpy's libm, and Python's [**] with a
    non-integer exponent. *)
Class Libm (F : Type) := {
  py_pow : F -> F -> F;
  np_exp : F -> F;
  np_arctan : F -> F;
  np_cos : F -> F;
  np_sin : F -> F;
  np_tan : F -> F;
}.

(** The value of a literal: its digits over a power of ten.  On binary64 the
    division is correctly rounded, so this is the double the Python parser
    yields for the literals of the source (digits below 2^53, at most 22
    digits after the point). *)
Definition lit {F} `{Arith F} (d : dec) : F :=
  match dec_exp d with
  | O => of_Z (dec_num d)
  | S _ => div (of_Z (dec_num d)) (of_Z (10 ^ Z.of_nat (dec_exp d)))
  end.

Declare Scope py_scope.
Delimit Scope py_scope with py.
Notation "# d" := (lit d%dec) (at level 1, d constr at level 0, format "# d") : py_scope.
Infix "+" := add : py_scope.
Infix "-" := sub : py_scope.
Infix "*" := mul : py_scope.
Infix "/" := div : py_scope.
Notation "- x" := (opp x) : py_scope.
Notation "x <? y" := (ltb x y) : py_scope.
Notation "x >? y" := (ltb y x) : py_scope.
Notation "x <=? y" := (leb x y) : py_scope.

Section Builtins.
Context {F : Type} `{Arith F}.
Local Open Scope py_scope.

(** [x ** 2].  Python computes it with the C library's [pow]; the product
    is the same real number, and on binary64 the same double up to the last
    place of [pow]'s result. *)
Definition sqr (x : F) : F := x * x.

(** Python's [max(a, b)]: the first maximal argument. *)
Definition py_max (a b : F) : F := if b >? a then b else a.

(** Python's [min(a, b)]: the first minimal argument. *)
Definition py_min (a b : F) : F := if b <? a then b else a.
End Builtins.

(** Binary64. *)
Definition float_of_Z (z : Z) : float :=
  match z with
  | Z0 => PrimFloat.zero
  | Zpos _ => PrimFloat.of_uint63 (Uint63.of_Z z)
  | Zneg p => PrimFloat.opp (PrimFloat.of_uint63 (Uint63.of_Z (Zpos p)))
  end.

#[export] Instance float_arith : Arith float := {|
  of_Z := float_of_Z;
  add := PrimFloat.add;
  sub := PrimFloat.sub;
  mul := PrimFloat.mul;
  div := PrimFloat.div;
  opp := PrimFloat.opp;
  py_abs := PrimFloat.abs;
  np_sqrt := PrimFloat.sqrt;
  ltb := PrimFloat.ltb;
  leb := PrimFloat.leb;
|}.

(** Exact real arithmetic, with the decimal value of every literal.  It has
    no NaN and no rounding: [0 * t = 0] and [0 / x = 0] for every [t] and
    [x], the square root of a negative number is 0, and
    288.15 - 0.0065 * 11000 is 216.65 (in binary64 it is the double
    below). *)
Definition Rltb (x y : R) : bool := if Rlt_dec x y then true else false.
Definition Rleb (x y : R) : bool := if Rle_dec x y then true else false.

#[export] Instance R_arith : Arith R := {|
  of_Z := IZR;
  add := Rplus;
  sub := Rminus;
  mul := Rmult;
  div := Rdiv;
  opp := Ropp;
  py_abs := Rabs;
  np_sqrt := R_sqrt.sqrt;
  ltb := Rltb;
  leb := Rleb;
|}.

(** On the reals [**] is [Rpower] (the code raises positive bases only). *)
#[export] Instance R_libm : Libm R := {|
  py_pow := Rpower;
  np_exp := Rtrigo_def.exp;
  np_arctan := Ratan.atan;
  np_cos := Rtrigo_def.cos;
  np_sin := Rtrigo_def.sin;
  np_tan := Rtrigo1.tan;
|}.

(** ** Exceptions *)

Inductive exn : Type :=
| TypeError
| ValueError (msg : string)
| KeyError (key : string)
| AttributeError
| UnboundLocalError (var : string).

Inductive result (A : Type) : Type :=
| Ok (a : A)
| Raise (e : exn).
Arguments Raise {A} e.

Definition bind {A B} (m : result A) (k : A -> result B) : result B :=
  match m with
  | Ok a => k a
  | Raise e => Raise e
  end.

Declare Scope result_scope.
Delimit Scope result_scope with result.
Notation "x <- m ;; k" := (bind m (fun x => k))
  (at level 100, m at next level, right associativity) : result_scope.
Notation "' p <- m ;; k" := (bind m (fun x => let p := x in k))
  (at level 100, p pattern, m at next level, right associativity) : result_scope.
Notation "m ;;; k" := (bind m (fun _ => k))
  (at level 100, right associativity) : result_scope.
Open Scope result_scope.
Open Scope string_scope.

(** ** Python values *)

#[local] Unset Elimination Schemes.
Inductive pyval (F : Type) : Type :=
| VNone
| VBool (b : bool)
| VNum (x : F)
| VStr (s : string)
| VList (l : list (pyval F))
| VDict (d : list (string * pyval F)).
#[local] Set Elimination Schemes.
Arguments VNone {F}.
Arguments VBool {F} b.
Arguments VStr {F} s.

(** A dict with string keys, as a list of its items without repeated keys. *)
Fixpoint assoc {A} (k : string) (d : list (string * A)) : option A :=
  match d with
  | [] => None
  | (k', v) :: d' => if String.eqb k k' then Some v else assoc k d'
  end.

Section Values.
Context {F : Type} `{Arith F}.
Local Open Scope py_scope.

(** The number an arithmetic operator takes from a value; a value that is
    not a number (None above all) makes the operator raise TypeError.
    (bool is a subclass of int.) *)
Definition num (v : pyval F) : result F :=
  match v with
  | VNum x => Ok x
  | VBool true => Ok #1
  | VBool false => Ok #0
  | _ => Raise TypeError
  end.

(** Truth value, as tested by [if], [not], [and]. *)
Definition truthy (v : pyval F) : bool :=
  match v with
  | VNone => false
  | VBool b => b
  | VNum x => negb ((x <=? #0) && (#0 <=? x))
  | VStr s => negb (String.eqb s "")
  | VList l => match l with [] => false | _ => true end
  | VDict d => match d with [] => false | _ => true end
  end.

(** [f"{v:.0f}"]: a float format code is unknown to [str] (ValueError) and
    unsupported by None, lists and dicts (TypeError). *)
Definition format_float (v : pyval F) : result unit :=
  match v with
  | VStr _ =>
      Raise (ValueError "Unknown format code 'f' for object of type 'str'")
  | _ => x <- num v ;; Ok tt
  end.

(** [v[k]] on a value read from JSON. *)
Definition subscript (v : pyval F) (k : string) : result (pyval F) :=
  match v with
  | VDict d => match assoc k d with
               | Some x => Ok x
               | None => Raise (KeyError k)
               end
  | _ => Raise TypeError
  end.

(** [v.get(k, default)]: a method of dict only. *)
Definition dict_get (v : pyval F) (k : string) (default : pyval F)
  : result (pyval F) :=
  match v with
  | VDict d => match assoc k d with
               | Some x => Ok x
               | None => Ok default
               end
  | _ => Raise AttributeError
  end.
End Values.

(** ** config_loader.py *)

(** [ConfigLoader]: the JSON document read from the configuration file.
    Reading and parsing the file is input to the model. *)
Record ConfigLoader (F : Type) := { config : pyval F }.

Section config_loader.
Context {F : Type}.

(** [ConfigLoader.get] with its keys, called without [default] (so None). *)
Fixpoint get_from (value : pyval F) (keys : list string) : pyval F :=
  match keys with
  | [] => value
  | key :: keys' =>
      match value with
      | VDict d => match assoc key d with
                   | Some v => get_from v keys'
                   | None => VNone
                   end
      | _ => VNone
      end
  end.

Definition get (self : ConfigLoader F) (keys : list string) : pyval F :=
  get_from (config self) keys.
End config_loader.

(** ** config_loader.py: the other methods of [ConfigLoader] *)

(** [d[k] = v] on a dict: the value of an existing key is replaced where it
    stands, a new key goes to the end. *)
Fixpoint dict_set {A} (k : string) (v : A) (d : list (string * A))
  : list (string * A) :=
  match d with
  | [] => [(k, v)]
  | (k', v') :: d' =>
      if String.eqb k k' then (k, v) :: d' else (k', v') :: dict_set k v d'
  end.

Section config_loader_methods.
Context {F : Type}.

(** [ConfigLoader.get] with its [default]. *)
Fixpoint get_from_default (value : pyval F) (keys : list string)
  (default : pyval F) : pyval F :=
  match keys with
  | [] => value
  | key :: keys' =>
      match value with
      | VDict d => match assoc key d with
                   | Some v => get_from_default v keys' default
                   | None => default
                   end
      | _ => default
      end
  end.

Definition get_default (self : ConfigLoader F) (keys : list string)
  (default : pyval F) : pyval F :=
  get_from_default (config self) keys default.

(** The body of [ConfigLoader.update] on the dict [d]: [keys] are
    [keys[:-1]], walked with [setdefault(key, {})], and [last] is [keys[-1]],
    assigned at the end.  [setdefault] is a method of dict only
    (AttributeError), and only a dict takes an item with a string key
    (TypeError). *)
Fixpoint update_in (d : pyval F) (keys : list string) (last : string)
  (value : pyval F) : result (pyval F) :=
  match keys with
  | [] =>
      match d with
      | VDict items => Ok (VDict (dict_set last value items))
      | _ => Raise TypeError
      end
  | key :: keys' =>
      match d with
      | VDict items =>
          let child :=
            match assoc key items with
            | Some c => c
            | None => VDict []
            end in
          child' <- update_in child keys' last value ;;
          Ok (VDict (dict_set key child' items))
      | _ => Raise AttributeError
      end
  end.

(** [ConfigLoader.update], called with at least one key:
    [keys] and [last] are the keys but the last, and the last.  (With no
    key the code raises IndexError at [keys[-1]].)  The dict is updated in
    place; the model returns the loader after the call, and nothing when
    the call raises.  The configuration is a tree of values here: this
    describes a configuration none of whose sections is shared between two
    paths, as the parser builds it.  The code stores [value] by reference,
    so a section obtained from [get] and written back under a second path
    is one object under both, and a later write through one path shows
    under the other; no statement below is about such a configuration. *)
Definition update (self : ConfigLoader F) (keys : list string) (last : string)
  (value : pyval F) : result (ConfigLoader F) :=
  c <- update_in (config self) keys last value ;;
  Ok {| config := c |}.
End config_loader_methods.

(** ** powertrain.py *)

Record TechnologySpec (F : Type) := {
  GT_specific_power_kW_kg : pyval F;
  GT_efficiency : pyval F;
  GT_BSFC_kg_kWh : pyval F;
  EM_specific_power_kW_kg : pyval F;
  EM_efficiency : pyval F;
  GEN_specific_power_kW_kg : pyval F;
  GEN_efficiency : pyval F;
  battery_specific_energy_Wh_kg : pyval F;
  battery_specific_power_kW_kg : pyval F;
  battery_SOC_margin : pyval F;
  battery_DOD : pyval F;
  prop_efficiency : pyval F;
}.

(** The attributes [PowertrainBase.__init__] sets. *)
Record PowertrainBase (F : Type) := {
  name : string;
  tech : TechnologySpec F;
  m_GT_lb : F;
  m_EM_lb : F;
  m_GEN_lb : F;
  m_battery_lb : F;
  m_fuel_lb : F;
  P_GT_kW : F;
  P_EM_kW : F;
  P_GEN_kW : F;
}.

(** The dict [get_power_split] returns.  (MultiEngine adds four keys that
    nothing reads: num_operating_engines, P_per_engine_kW,
    P_GT_per_engine_kW, P_EM_per_engine_kW.) *)
Record PowerSplit (F : Type) := {
  split_P_GT_kW : F;
  split_P_EM_kW : F;
  fuel_rate_kg_s : F;
  battery_power_W : F;
}.

(** What [MultiEnginePowertrain] adds to the base. *)
Record MultiEngineExt (F : Type) := {
  num_engines : pyval F;
  P_GT_per_engine_kW : F;
  P_EM_per_engine_kW : F;
  m_GT_per_engine_lb : F;
  m_EM_per_engine_lb : F;
}.

Section powertrain.
Context {F : Type} `{Arith F}.
Local Open Scope py_scope.

(** [TechnologySpec.from_config] *)
Definition from_config (cfg : ConfigLoader F) : result (TechnologySpec F) :=
  let gt_sp := get cfg ["hybrid_system"; "gas_turbine"; "specific_power_kW_kg"] in
  let gt_eff := get cfg ["hybrid_system"; "gas_turbine"; "efficiency"] in
  let gt_bsfc := get cfg ["hybrid_system"; "gas_turbine"; "BSFC_kg_kWh"] in
  let em_sp := get cfg ["hybrid_system"; "electric_motor"; "specific_power_kW_kg"] in
  let em_eff := get cfg ["hybrid_system"; "electric_motor"; "efficiency"] in
  let gen_sp := get cfg ["hybrid_system"; "generator"; "specific_power_kW_kg"] in
  let gen_eff := get cfg ["hybrid_system"; "generator"; "efficiency"] in
  let b_se := get cfg ["hybrid_system"; "battery"; "specific_energy_Wh_kg"] in
  let b_sp := get cfg ["hybrid_system"; "battery"; "specific_power_kW_kg"] in
  soc <- num (get cfg ["hybrid_system"; "battery"; "SOC_margin_percent"]) ;;
  dod <- num (get cfg ["hybrid_system"; "battery"; "depth_of_discharge_percent"]) ;;
  Ok {| GT_specific_power_kW_kg := gt_sp;
        GT_efficiency := gt_eff;
        GT_BSFC_kg_kWh := gt_bsfc;
        EM_specific_power_kW_kg := em_sp;
        EM_efficiency := em_eff;
        GEN_specific_power_kW_kg := gen_sp;
        GEN_efficiency := gen_eff;
        battery_specific_energy_Wh_kg := b_se;
        battery_specific_power_kW_kg := b_sp;
        battery_SOC_margin := VNum (soc / #100);
        battery_DOD := VNum (dod / #100);
        prop_efficiency := get cfg ["propulsion"; "propeller_efficiency"] |}.

(** [PowertrainBase.__init__] *)
Definition PowertrainBase_init (name : string) (tech : TechnologySpec F)
  : PowertrainBase F :=
  {| name := name; tech := tech;
     m_GT_lb := #0.0; m_EM_lb := #0.0; m_GEN_lb := #0.0;
     m_battery_lb := #0.0; m_fuel_lb := #0.0;
     P_GT_kW := #0.0; P_EM_kW := #0.0; P_GEN_kW := #0.0 |}.

(** [PowertrainBase.get_total_propulsion_weight] *)
Definition Base_get_total_propulsion_weight (self : PowertrainBase F) : F :=
  m_GT_lb self + m_EM_lb self + m_GEN_lb self.

(** *** ConventionalPowertrain *)

Definition ConventionalPowertrain (tech : TechnologySpec F) :=
  PowertrainBase_init "Conventional" tech.

Definition Conventional_size_components (self : PowertrainBase F)
  (P_shaft_kW Hp : F) : result (PowertrainBase F) :=
  gt_sp <- num (GT_specific_power_kW_kg (tech self)) ;;
  Ok {| name := name self; tech := tech self;
        m_GT_lb := (P_shaft_kW / gt_sp) * #2.20462;
        m_EM_lb := #0.0;
        m_GEN_lb := #0.0;
        m_battery_lb := m_battery_lb self; m_fuel_lb := m_fuel_lb self;
        P_GT_kW := P_shaft_kW;
        P_EM_kW := P_EM_kW self; P_GEN_kW := P_GEN_kW self |}.

Definition Conventional_get_power_split (self : PowertrainBase F)
  (P_required_kW Hp : F) : result (PowerSplit F) :=
  bsfc <- num (GT_BSFC_kg_kWh (tech self)) ;;
  let fuel_rate_kg_s := (P_required_kW * bsfc) / #3600 in
  Ok {| split_P_GT_kW := P_required_kW;
        split_P_EM_kW := #0.0;
        fuel_rate_kg_s := fuel_rate_kg_s;
        battery_power_W := #0.0 |}.

(** *** ParallelHybridPowertrain *)

Definition ParallelHybridPowertrain (tech : TechnologySpec F) :=
  PowertrainBase_init "Parallel Hybrid" tech.

Definition Parallel_size_components (self : PowertrainBase F)
  (P_shaft_kW Hp : F) : result (PowertrainBase F) :=
  let P_EM := P_shaft_kW * Hp in
  let P_GT := P_shaft_kW * (#1 - Hp) in
  em_sp <- num (EM_specific_power_kW_kg (tech self)) ;;
  gt_sp <- num (GT_specific_power_kW_kg (tech self)) ;;
  Ok {| name := name self; tech := tech self;
        m_GT_lb := (P_GT / gt_sp) * #2.20462;
        m_EM_lb := (P_EM / em_sp) * #2.20462;
        m_GEN_lb := #0.0;
        m_battery_lb := m_battery_lb self; m_fuel_lb := m_fuel_lb self;
        P_GT_kW := P_GT;
        P_EM_kW := P_EM;
        P_GEN_kW := P_GEN_kW self |}.

(** The battery power is a quotient by the motor efficiency: at an
    efficiency of zero the code raises ZeroDivisionError (or, for a numpy
    demand, yields inf or NaN), where the quotient here is the instance's. *)
Definition Parallel_get_power_split (self : PowertrainBase F)
  (P_required_kW Hp : F) : result (PowerSplit F) :=
  let P_GT := P_required_kW * (#1 - Hp) in
  let P_EM := P_required_kW * Hp in
  bsfc <- num (GT_BSFC_kg_kWh (tech self)) ;;
  let fuel_rate_kg_s := (P_GT * bsfc) / #3600 in
  em_eff <- num (EM_efficiency (tech self)) ;;
  let battery_power_W := (P_EM * #1000) / em_eff in
  Ok {| split_P_GT_kW := P_GT;
        split_P_EM_kW := P_EM;
        fuel_rate_kg_s := fuel_rate_kg_s;
        battery_power_W := battery_power_W |}.

(** *** SerialHybridPowertrain *)

Definition SerialHybridPowertrain (tech : TechnologySpec F) :=
  PowertrainBase_init "Serial Hybrid" tech.

Definition Serial_size_components (self : PowertrainBase F)
  (P_shaft_kW Hp : F) : result (PowertrainBase F) :=
  let P_EM := P_shaft_kW * (#1 + Hp) in
  em_eff <- num (EM_efficiency (tech self)) ;;
  let P_electric_cruise_kW := P_shaft_kW / em_eff in
  let P_GEN := P_electric_cruise_kW in
  gen_eff <- num (GEN_efficiency (tech self)) ;;
  let P_GT := P_GEN / gen_eff in
  em_sp <- num (EM_specific_power_kW_kg (tech self)) ;;
  gen_sp <- num (GEN_specific_power_kW_kg (tech self)) ;;
  gt_sp <- num (GT_specific_power_kW_kg (tech self)) ;;
  Ok {| name := name self; tech := tech self;
        m_GT_lb := (P_GT / gt_sp) * #2.20462;
        m_EM_lb := (P_EM / em_sp) * #2.20462;
        m_GEN_lb := (P_GEN / gen_sp) * #2.20462;
        m_battery_lb := m_battery_lb self; m_fuel_lb := m_fuel_lb self;
        P_GT_kW := P_GT;
        P_EM_kW := P_EM;
        P_GEN_kW := P_GEN |}.

(** The local [P_generator_kW] of [get_power_split]: the generator's load. *)
Definition Serial_P_generator_kW (self : PowertrainBase F)
  (P_required_kW : F) : result F :=
  let P_EM := P_required_kW in
  em_eff <- num (EM_efficiency (tech self)) ;;
  let P_electric_kW := P_EM / em_eff in
  Ok (py_min P_electric_kW (P_GEN_kW self)).

Definition Serial_get_power_split (self : PowertrainBase F)
  (P_required_kW Hp : F) : result (PowerSplit F) :=
  let P_EM := P_required_kW in
  em_eff <- num (EM_efficiency (tech self)) ;;
  let P_electric_kW := P_EM / em_eff in
  let P_generator_kW := py_min P_electric_kW (P_GEN_kW self) in
  let P_battery_kW := py_max #0 (P_electric_kW - P_generator_kW) in
  gen_eff <- num (GEN_efficiency (tech self)) ;;
  let P_GT := P_generator_kW / gen_eff in
  bsfc <- num (GT_BSFC_kg_kWh (tech self)) ;;
  let fuel_rate_kg_s := (P_GT * bsfc) / #3600 in
  let battery_power_W := P_battery_kW * #1000 in
  Ok {| split_P_GT_kW := P_GT;
        split_P_EM_kW := P_EM;
        fuel_rate_kg_s := fuel_rate_kg_s;
        battery_power_W := battery_power_W |}.

(** *** FullyElectricPowertrain *)

Definition FullyElectricPowertrain (tech : TechnologySpec F) :=
  PowertrainBase_init "Fully Electric" tech.

Definition Electric_size_components (self : PowertrainBase F)
  (P_shaft_kW Hp : F) : result (PowertrainBase F) :=
  em_sp <- num (EM_specific_power_kW_kg (tech self)) ;;
  Ok {| name := name self; tech := tech self;
        m_GT_lb := #0.0;
        m_EM_lb := (P_shaft_kW / em_sp) * #2.20462;
        m_GEN_lb := #0.0;
        m_battery_lb := m_battery_lb self; m_fuel_lb := m_fuel_lb self;
        P_GT_kW := P_GT_kW self;
        P_EM_kW := P_shaft_kW;
        P_GEN_kW := P_GEN_kW self |}.

Definition Electric_get_power_split (self : PowertrainBase F)
  (P_required_kW Hp : F) : result (PowerSplit F) :=
  em_eff <- num (EM_efficiency (tech self)) ;;
  let battery_power_W := (P_required_kW * #1000) / em_eff in
  Ok {| split_P_GT_kW := #0.0;
        split_P_EM_kW := P_required_kW;
        fuel_rate_kg_s := #0.0;
        battery_power_W := battery_power_W |}.

(** *** MultiEnginePowertrain *)

(** The name in the code is the f-string "Multi-Engine (n engines)" with
    the value of [num_engines] formatted into it; the model keeps its
    constant part.  The name is only printed. *)
Definition MultiEnginePowertrain (tech : TechnologySpec F) (num_engines : pyval F)
  : PowertrainBase F * MultiEngineExt F :=
  (PowertrainBase_init "Multi-Engine" tech,
   {| num_engines := num_engines;
      P_GT_per_engine_kW := #0.0; P_EM_per_engine_kW := #0.0;
      m_GT_per_engine_lb := #0.0; m_EM_per_engine_lb := #0.0 |}).

Definition Multi_size_components (self : PowertrainBase F * MultiEngineExt F)
  (P_shaft_kW Hp : F) : result (PowertrainBase F * MultiEngineExt F) :=
  let '(b, x) := self in
  n <- num (num_engines x) ;;
  let P_per_engine_kW := P_shaft_kW / n in
  let P_GT_pe := P_per_engine_kW * (#1 - Hp) in
  let P_EM_pe := P_per_engine_kW * Hp in
  let P_GT := P_GT_pe * n in
  let P_EM := P_EM_pe * n in
  gt_sp <- num (GT_specific_power_kW_kg (tech b)) ;;
  let m_GT_pe := (P_GT_pe / gt_sp) * #2.20462 in
  em_sp <- num (EM_specific_power_kW_kg (tech b)) ;;
  let m_EM_pe := (P_EM_pe / em_sp) * #2.20462 in
  Ok ({| name := name b; tech := tech b;
         m_GT_lb := m_GT_pe * n;
         m_EM_lb := m_EM_pe * n;
         m_GEN_lb := #0.0;
         m_battery_lb := m_battery_lb b; m_fuel_lb := m_fuel_lb b;
         P_GT_kW := P_GT;
         P_EM_kW := P_EM;
         P_GEN_kW := P_GEN_kW b |},
      {| num_engines := num_engines x;
         P_GT_per_engine_kW := P_GT_pe; P_EM_per_engine_kW := P_EM_pe;
         m_GT_per_engine_lb := m_GT_pe; m_EM_per_engine_lb := m_EM_pe |}).

Definition Multi_get_power_split (self : PowertrainBase F * MultiEngineExt F)
  (P_required_kW Hp : F) (oei_mode : bool) : result (PowerSplit F) :=
  let '(b, x) := self in
  '(num_operating_engines, P_per_engine_kW) <-
    (if oei_mode then Ok (#1, P_required_kW)
     else n <- num (num_engines x) ;; Ok (n, P_required_kW / n)) ;;
  let P_GT_pe := P_per_engine_kW * (#1 - Hp) in
  let P_EM_pe := P_per_engine_kW * Hp in
  let P_GT_total_kW := P_GT_pe * num_operating_engines in
  let P_EM_total_kW := P_EM_pe * num_operating_engines in
  bsfc <- num (GT_BSFC_kg_kWh (tech b)) ;;
  let fuel_rate_kg_s := (P_GT_total_kW * bsfc) / #3600 in
  em_eff <- num (EM_efficiency (tech b)) ;;
  let battery_power_W := (P_EM_total_kW * #1000) / em_eff in
  Ok {| split_P_GT_kW := P_GT_total_kW;
        split_P_EM_kW := P_EM_total_kW;
        fuel_rate_kg_s := fuel_rate_kg_s;
        battery_power_W := battery_power_W |}.
End powertrain.

(** ** dual_motor_powertrain.py *)

Record MotorSet (F : Type) := {
  ms_name : string;
  num_motors : pyval F;
  power_per_motor_kW : pyval F;
  weight_per_motor_lb : pyval F;
  efficiency : pyval F;
  active_phases : pyval F;
  can_fold : pyval F;
  folded_drag_cd : pyval F;
}.

Record DualMotorDEP (F : Type) := {
  dm_name : string;
  dm_tech : TechnologySpec F;
  dm_config : pyval F;
  highlift_motors : MotorSet F;
  cruise_motors : option (MotorSet F);
  num_cruise_motors : pyval F;
  cruise_architecture : pyval F;
  power_architecture : pyval F;
  dm_battery_specific_energy_Wh_kg : pyval F;
  dm_battery_DOD : pyval F;
  dm_m_battery_lb : F;
  m_highlift_lb : F;
  m_cruise_motors_lb : F;
  m_wiring_lb : F;
  m_controllers_lb : F;
  dm_P_GT_kW : F;
  dm_P_EM_kW : F;
  dm_P_GEN_kW : F;
  dm_m_GT_lb : F;
  dm_m_EM_lb : F;
  dm_m_GEN_lb : F;
}.

Section dual_motor_powertrain.
Context {F : Type} `{Arith F}.
Local Open Scope py_scope.

(** [MotorSet.total_power_kW] *)
Definition total_power_kW (self : MotorSet F) : result F :=
  n <- num (num_motors self) ;;
  p <- num (power_per_motor_kW self) ;;
  Ok (n * p).

(** [MotorSet.total_weight_lb] *)
Definition total_weight_lb (self : MotorSet F) : result F :=
  n <- num (num_motors self) ;;
  w <- num (weight_per_motor_lb self) ;;
  Ok (n * w).

(** [v == 'text'] *)
Definition is_str (v : pyval F) (s : string) : bool :=
  match v with
  | VStr s' => String.eqb s' s
  | _ => false
  end.

(** [DualMotorDEPPowertrain.__init__] *)
Definition DualMotorDEPPowertrain (tech_spec : TechnologySpec F)
  (config : pyval F) : result (DualMotorDEP F) :=
  dep <- subscript config "dep_system" ;;
  hl_config <- subscript dep "highlift_motors" ;;
  hl_n <- subscript hl_config "number_of_motors" ;;
  hl_p <- subscript hl_config "power_per_motor_kW" ;;
  hl_w <- subscript hl_config "weight_per_motor_lb" ;;
  hl_eff <- subscript hl_config "efficiency" ;;
  hl_phases <- subscript hl_config "active_phases" ;;
  hl_folding <- subscript hl_config "folding" ;;
  hl_can_fold <- subscript hl_folding "can_fold" ;;
  hl_folding' <- subscript hl_config "folding" ;;
  hl_cd <- subscript hl_folding' "folded_drag_coefficient_increment" ;;
  let highlift :=
    {| ms_name := "High-Lift Motors";
       num_motors := hl_n;
       power_per_motor_kW := hl_p;
       weight_per_motor_lb := hl_w;
       efficiency := hl_eff;
       active_phases := hl_phases;
       can_fold := hl_can_fold;
       folded_drag_cd := hl_cd |} in
  cruise_config <- subscript dep "cruise_motors" ;;
  n_cruise <- subscript cruise_config "number_of_motors" ;;
  architecture <- dict_get cruise_config "architecture" (VStr "pure_electric") ;;
  let name :=
    if is_str architecture "parallel_hybrid"
    then "Dual Motor DEP (Parallel Hybrid)"
    else "Dual Motor DEP (Pure Electric)" in
  pa <- subscript dep "power_architecture" ;;
  pa_type <- subscript pa "type" ;;
  hl_total_weight <- total_weight_lb highlift ;;
  Ok {| dm_name := name;
        dm_tech := tech_spec;
        dm_config := config;
        highlift_motors := highlift;
        cruise_motors := None;
        num_cruise_motors := n_cruise;
        cruise_architecture := architecture;
        power_architecture := pa_type;
        dm_battery_specific_energy_Wh_kg := battery_specific_energy_Wh_kg tech_spec;
        dm_battery_DOD := battery_DOD tech_spec;
        dm_m_battery_lb := #0.0;
        m_highlift_lb := hl_total_weight;
        m_cruise_motors_lb := #0.0;
        m_wiring_lb := #0.0;
        m_controllers_lb := #0.0;
        dm_P_GT_kW := #0.0;
        dm_P_EM_kW := #0.0;
        dm_P_GEN_kW := #0.0;
        dm_m_GT_lb := #0.0;
        dm_m_EM_lb := #0.0;
        dm_m_GEN_lb := #0.0 |}.

(** [DualMotorDEPPowertrain.size_cruise_motors] *)
Definition size_cruise_motors (self : DualMotorDEP F) (P_cruise_kW Hp : F)
  : result (DualMotorDEP F) :=
  dep <- subscript (dm_config self) "dep_system" ;;
  cr_config <- subscript dep "cruise_motors" ;;
  num_motors_v <- subscript cr_config "number_of_motors" ;;
  n <- num num_motors_v ;;
  let power_per_motor := P_cruise_kW / n in
  '(motors, P_GT, P_EM, m_GT, m_EM, m_cruise) <-
    (if is_str (cruise_architecture self) "parallel_hybrid" then
       let P_EM_per_motor := power_per_motor * Hp in
       let P_EM_total := P_EM_per_motor * n in
       let P_GT_per_motor := power_per_motor * (#1 - Hp) in
       let P_GT_total := P_GT_per_motor * n in
       EM_specific_power_v <- subscript cr_config "specific_power_kW_kg" ;;
       EM_specific_power <- num EM_specific_power_v ;;
       let m_EM_per_motor_kg := P_EM_per_motor / EM_specific_power in
       let m_EM_per_motor_lb := m_EM_per_motor_kg * #2.20462 in
       GT_specific_power <- num (GT_specific_power_kW_kg (dm_tech self)) ;;
       let m_GT_per_motor_kg := P_GT_per_motor / GT_specific_power in
       let m_GT_per_motor_lb := m_GT_per_motor_kg * #2.20462 in
       let weight_per_motor := m_GT_per_motor_lb + m_EM_per_motor_lb in
       eff <- subscript cr_config "efficiency" ;;
       let motors :=
         {| ms_name := "Cruise Motors (Parallel Hybrid)";
            num_motors := num_motors_v;
            power_per_motor_kW := VNum power_per_motor;
            weight_per_motor_lb := VNum weight_per_motor;
            efficiency := eff;
            active_phases := VList [VStr "all"];
            can_fold := VBool false;
            folded_drag_cd := VNum #0.001 |} in
       m_cruise <- total_weight_lb motors ;;
       Ok (motors, P_GT_total, P_EM_total,
           m_GT_per_motor_lb * n, m_EM_per_motor_lb * n, m_cruise)
     else
       specific_power_v <- subscript cr_config "specific_power_kW_kg" ;;
       specific_power <- num specific_power_v ;;
       let weight_per_motor_kg := power_per_motor / specific_power in
       let weight_per_motor := weight_per_motor_kg * #2.20462 in
       eff <- subscript cr_config "efficiency" ;;
       let motors :=
         {| ms_name := "Cruise Motors (Pure Electric)";
            num_motors := num_motors_v;
            power_per_motor_kW := VNum power_per_motor;
            weight_per_motor_lb := VNum weight_per_motor;
            efficiency := eff;
            active_phases := VList [VStr "all"];
            can_fold := VBool false;
            folded_drag_cd := VNum #0.001 |} in
       m_cruise <- total_weight_lb motors ;;
       P_EM <- total_power_kW motors ;;
       Ok (motors, #0.0, P_EM, #0.0, m_cruise, m_cruise)) ;;
  hl_power <- total_power_kW (highlift_motors self) ;;
  let total_power := P_cruise_kW + hl_power in
  dep' <- subscript (dm_config self) "dep_system" ;;
  wc <- subscript dep' "wiring_and_controls" ;;
  wiring_factor_v <- subscript wc "wiring_weight_factor" ;;
  wiring_factor <- num wiring_factor_v ;;
  dep'' <- subscript (dm_config self) "dep_system" ;;
  wc' <- subscript dep'' "wiring_and_controls" ;;
  controller_factor_v <- subscript wc' "controller_weight_per_kW" ;;
  controller_factor <- num controller_factor_v ;;
  Ok {| dm_name := dm_name self;
        dm_tech := dm_tech self;
        dm_config := dm_config self;
        highlift_motors := highlift_motors self;
        cruise_motors := Some motors;
        num_cruise_motors := num_cruise_motors self;
        cruise_architecture := cruise_architecture self;
        power_architecture := power_architecture self;
        dm_battery_specific_energy_Wh_kg := dm_battery_specific_energy_Wh_kg self;
        dm_battery_DOD := dm_battery_DOD self;
        dm_m_battery_lb := dm_m_battery_lb self;
        m_highlift_lb := m_highlift_lb self;
        m_cruise_motors_lb := m_cruise;
        m_wiring_lb := total_power * wiring_factor;
        m_controllers_lb := total_power * controller_factor;
        dm_P_GT_kW := P_GT;
        dm_P_EM_kW := P_EM;
        dm_P_GEN_kW := dm_P_GEN_kW self;
        dm_m_GT_lb := m_GT;
        dm_m_EM_lb := m_EM;
        dm_m_GEN_lb := dm_m_GEN_lb self |}.

(** [DualMotorDEPPowertrain.size_components] *)
Definition Dual_size_components (self : DualMotorDEP F) (P_shaft_kW Hp : F)
  : result (DualMotorDEP F) :=
  size_cruise_motors self P_shaft_kW Hp.

(** [DualMotorDEPPowertrain.get_power_split] *)
Definition Dual_get_power_split (self : DualMotorDEP F)
  (P_required_kW Hp : F) : result (PowerSplit F) :=
  match cruise_motors self with
  | None =>
      Ok {| split_P_GT_kW := #0.0;
            split_P_EM_kW := #0.0;
            fuel_rate_kg_s := #0.0;
            battery_power_W := #0.0 |}
  | Some motors =>
      let P_cruise_shaft_kW := P_required_kW in
      if is_str (cruise_architecture self) "parallel_hybrid" then
        let P_EM_shaft_kW := P_cruise_shaft_kW * Hp in
        let P_GT_shaft_kW := P_cruise_shaft_kW * (#1 - Hp) in
        cr_efficiency <- num (efficiency motors) ;;
        let P_elec_cruise_kW := P_EM_shaft_kW / cr_efficiency in
        BSFC <- num (GT_BSFC_kg_kWh (dm_tech self)) ;;
        let fuel_rate := (P_GT_shaft_kW * BSFC) / #3600.0 in
        let battery_power := P_elec_cruise_kW * #1000.0 in
        Ok {| split_P_GT_kW := P_GT_shaft_kW;
              split_P_EM_kW := P_EM_shaft_kW;
              fuel_rate_kg_s := fuel_rate;
              battery_power_W := battery_power |}
      else
        cr_efficiency <- num (efficiency motors) ;;
        let P_elec_cruise_kW := P_cruise_shaft_kW / cr_efficiency in
        let battery_power := P_elec_cruise_kW * #1000.0 in
        Ok {| split_P_GT_kW := #0.0;
              split_P_EM_kW := P_cruise_shaft_kW;
              fuel_rate_kg_s := #0.0;
              battery_power_W := battery_power |}
  end.

(** [DualMotorDEPPowertrain.get_total_propulsion_weight] *)
Definition Dual_get_total_propulsion_weight (self : DualMotorDEP F) : F :=
  dm_m_battery_lb self + m_highlift_lb self + m_cruise_motors_lb self
  + m_wiring_lb self + m_controllers_lb self.
End dual_motor_powertrain.

(** ** dual_motor_powertrain.py: the other methods *)

(** [sub in s] on strings. *)
Fixpoint contains (sub s : string) : bool :=
  String.prefix sub s
  || match s with
     | EmptyString => false
     | String _ s' => contains sub s'
     end.

Section dual_motor_methods.
Context {F : Type} `{Arith F}.
Local Open Scope py_scope.

(** ['text' in v]: membership in a list, key of a dict, substring of a
    string; TypeError on a value that is not iterable. *)
Definition py_in (s : string) (v : pyval F) : result bool :=
  match v with
  | VList l => Ok (existsb (fun e => is_str e s) l)
  | VDict d => Ok (match assoc s d with Some _ => true | None => false end)
  | VStr t => Ok (contains s t)
  | _ => Raise TypeError
  end.

(** [MotorSet.is_active] *)
Definition is_active (self : MotorSet F) (flight_phase : string) : result bool :=
  all <- py_in "all" (active_phases self) ;;
  if all : bool then Ok true else py_in flight_phase (active_phases self).

(** Assignment to [self.m_battery_lb]. *)
Definition assign_m_battery_lb (self : DualMotorDEP F) (m : F) : DualMotorDEP F :=
  {| dm_name := dm_name self;
     dm_tech := dm_tech self;
     dm_config := dm_config self;
     highlift_motors := highlift_motors self;
     cruise_motors := cruise_motors self;
     num_cruise_motors := num_cruise_motors self;
     cruise_architecture := cruise_architecture self;
     power_architecture := power_architecture self;
     dm_battery_specific_energy_Wh_kg := dm_battery_specific_energy_Wh_kg self;
     dm_battery_DOD := dm_battery_DOD self;
     dm_m_battery_lb := m;
     m_highlift_lb := m_highlift_lb self;
     m_cruise_motors_lb := m_cruise_motors_lb self;
     m_wiring_lb := m_wiring_lb self;
     m_controllers_lb := m_controllers_lb self;
     dm_P_GT_kW := dm_P_GT_kW self;
     dm_P_EM_kW := dm_P_EM_kW self;
     dm_P_GEN_kW := dm_P_GEN_kW self;
     dm_m_GT_lb := dm_m_GT_lb self;
     dm_m_EM_lb := dm_m_EM_lb self;
     dm_m_GEN_lb := dm_m_GEN_lb self |}.

(** [DualMotorDEPPowertrain.size_battery] *)
Definition size_battery (self : DualMotorDEP F) (mission_energy_Wh : F)
  : result (DualMotorDEP F) :=
  dod <- num (dm_battery_DOD self) ;;
  let energy_with_reserve := mission_energy_Wh / dod in
  se <- num (dm_battery_specific_energy_Wh_kg self) ;;
  let energy_kg := energy_with_reserve / se in
  Ok (assign_m_battery_lb self (energy_kg * #2.20462)).

(** [DualMotorDEPPowertrain.get_weight_breakdown] *)
Definition get_weight_breakdown (self : DualMotorDEP F) : list (string * F) :=
  [("battery", dm_m_battery_lb self);
   ("highlift_motors", m_highlift_lb self);
   ("cruise_motors", m_cruise_motors_lb self);
   ("wiring", m_wiring_lb self);
   ("controllers", m_controllers_lb self);
   ("total", Dual_get_total_propulsion_weight self)].

(** [DualMotorDEPPowertrain.get_drag_increment] *)
Definition get_drag_increment (self : DualMotorDEP F) (flight_phase : string)
  (S_wing_ft2 : F) : result F :=
  active <- is_active (highlift_motors self) flight_phase ;;
  if negb active && truthy (can_fold (highlift_motors self)) then
    delta_CD <- num (folded_drag_cd (highlift_motors self)) ;;
    Ok (delta_CD * S_wing_ft2)
  else Ok #0.0.
End dual_motor_methods.

(** ** The powertrain an aircraft holds: one of the six classes *)

Inductive Powertrain (F : Type) : Type :=
| Conventional (b : PowertrainBase F)
| ParallelHybrid (b : PowertrainBase F)
| SerialHybrid (b : PowertrainBase F)
| FullyElectric (b : PowertrainBase F)
| MultiEngine (b : PowertrainBase F) (x : MultiEngineExt F)
| DualMotor (d : DualMotorDEP F).

Section dispatch.
Context {F : Type} `{Arith F}.
Local Open Scope py_scope.

(** [self.powertrain.size_components(P_shaft_kW, Hp)] *)
Definition size_components (self : Powertrain F) (P_shaft_kW Hp : F)
  : result (Powertrain F) :=
  match self with
  | Conventional b =>
      b' <- Conventional_size_components b P_shaft_kW Hp ;; Ok (Conventional b')
  | ParallelHybrid b =>
      b' <- Parallel_size_components b P_shaft_kW Hp ;; Ok (ParallelHybrid b')
  | SerialHybrid b =>
      b' <- Serial_size_components b P_shaft_kW Hp ;; Ok (SerialHybrid b')
  | FullyElectric b =>
      b' <- Electric_size_components b P_shaft_kW Hp ;; Ok (FullyElectric b')
  | MultiEngine b x =>
      s <- Multi_size_components (b, x) P_shaft_kW Hp ;;
      Ok (MultiEngine (fst s) (snd s))
  | DualMotor d =>
      d' <- Dual_size_components d P_shaft_kW Hp ;; Ok (DualMotor d')
  end.

(** [self.powertrain.get_power_split(P_required_kW, Hp)] *)
Definition get_power_split (self : Powertrain F) (P_required_kW Hp : F)
  : result (PowerSplit F) :=
  match self with
  | Conventional b => Conventional_get_power_split b P_required_kW Hp
  | ParallelHybrid b => Parallel_get_power_split b P_required_kW Hp
  | SerialHybrid b => Serial_get_power_split b P_required_kW Hp
  | FullyElectric b => Electric_get_power_split b P_required_kW Hp
  | MultiEngine b x => Multi_get_power_split (b, x) P_required_kW Hp false
  | DualMotor d => Dual_get_power_split d P_required_kW Hp
  end.

(** [self.powertrain.get_total_propulsion_weight()] *)
Definition get_total_propulsion_weight (self : Powertrain F) : F :=
  match self with
  | Conventional b | ParallelHybrid b | SerialHybrid b | FullyElectric b
  | MultiEngine b _ => Base_get_total_propulsion_weight b
  | DualMotor d => Dual_get_total_propulsion_weight d
  end.

(** [self.powertrain.P_GT_kW] *)
Definition pt_P_GT_kW (self : Powertrain F) : F :=
  match self with
  | Conventional b | ParallelHybrid b | SerialHybrid b | FullyElectric b
  | MultiEngine b _ => P_GT_kW b
  | DualMotor d => dm_P_GT_kW d
  end.

(** [self.powertrain.P_EM_kW] (every class has the attribute) *)
Definition pt_P_EM_kW (self : Powertrain F) : F :=
  match self with
  | Conventional b | ParallelHybrid b | SerialHybrid b | FullyElectric b
  | MultiEngine b _ => P_EM_kW b
  | DualMotor d => dm_P_EM_kW d
  end.
End dispatch.

(** ** atmosphere.py *)

Section atmosphere.
Context {F : Type} `{Arith F} `{Libm F}.
Local Open Scope py_scope.

(** [atmosisa(altitude_m)]: (T, P, rho, a). *)
Definition atmosisa (altitude_m : F) : F * F * F * F :=
  let T0 := #288.15 in
  let P0 := #101325 in
  let g := #9.80665 in
  let R := #287.05 in
  let '(T, P) :=
    if altitude_m <=? #11000 then
      let L := - #0.0065 in
      let T := T0 + L * altitude_m in
      let P := P0 * py_pow (T / T0) (- g / (L * R)) in
      (T, P)
    else
      let T11 := #216.65 in
      let P11 := #22632.1 in
      let T := T11 in
      let P := P11 * np_exp (- g * (altitude_m - #11000) / (R * T)) in
      (T, P) in
  let rho := P / (R * T) in
  let a := np_sqrt (#1.4 * R * T) in
  (T, P, rho, a).

(** The third component, the only one the callers keep. *)
Definition atmosisa_rho (altitude_m : F) : F :=
  let '(_, _, rho, _) := atmosisa altitude_m in rho.
End atmosphere.

(** ** constraints.py *)

Section constraints.
Context {F : Type} `{Arith F} `{Libm F}.
Local Open Scope py_scope.

(** [perform_constraint_analysis]: (WS_design, P_shaft_kW).  The quotients
    are the instance's: for a number of engines of 1 the code raises
    ZeroDivisionError at [N_engines / (N_engines - 1)], and so it does at any
    other quotient of Python floats whose divisor is zero (a lift
    coefficient, a field length or a propeller efficiency of zero). *)
Definition perform_constraint_analysis
  (TOGW_lb : F)
  (V_stall_kts BFL_ft LFL_ft CLmax_clean CLmax_TO CLmax_land CD0 : pyval F)
  (K1 : F)
  (cruise_speed_kts cruise_alt_ft prop_efficiency : pyval F)
  (config : ConfigLoader F)
  (blown_lift_augmentation : F)
  (use_blown_lift_sizing : bool) : result (F * F) :=
  '(CLmax_clean_eff, CLmax_TO_eff, CLmax_land_eff) <-
    (if use_blown_lift_sizing then
       c <- num CLmax_clean ;;
       t <- num CLmax_TO ;;
       l <- num CLmax_land ;;
       Ok (VNum (c * blown_lift_augmentation),
           VNum (t * blown_lift_augmentation),
           VNum (l * blown_lift_augmentation))
     else Ok (CLmax_clean, CLmax_TO, CLmax_land)) ;;
  let rho_SL := #0.002377 in
  V_stall <- num V_stall_kts ;;
  let V_stall_fps := V_stall * #1.688 in
  let N_engines_v := get config ["propulsion"; "number_of_engines"] in
  (* 1. Stall speed constraint *)
  CLclean <- num CLmax_clean_eff ;;
  let WS_stall_max := #0.5 * rho_SL * sqr V_stall_fps * CLclean in
  (* 2. Landing constraint *)
  let W_land_ratio := #0.95 in
  let sigma_SL := #1.0 in
  LFL <- num LFL_ft ;;
  CLland <- num CLmax_land_eff ;;
  let WS_landing_max := (LFL - #600) * sigma_SL * CLland / #80 in
  let WS_landing_max_TO := WS_landing_max / W_land_ratio in
  (* 3. Takeoff constraint *)
  BFL <- num BFL_ft ;;
  let TOP := BFL / #37.5 in
  (* 4. Climb constraints *)
  let ks_climb := #1.2 in
  let CL_climb := CLclean / sqr ks_climb in
  cd0 <- num CD0 ;;
  let CD_climb := cd0 + K1 * sqr CL_climb in
  let gamma_climb_OEI := #0.024 in
  let T_W_climb_OEI_req := (sqr ks_climb / CLclean) * CD_climb + gamma_climb_OEI in
  N_engines <- num N_engines_v ;;
  let OEI_factor := N_engines / (N_engines - #1) in
  let TW_climb_OEI := OEI_factor * T_W_climb_OEI_req in
  let gamma_climb_AEO := #0.05 in
  let T_W_climb_AEO_req := (sqr ks_climb / CLclean) * CD_climb + gamma_climb_AEO in
  let TW_climb_AEO := T_W_climb_AEO_req in
  (* 5. Service ceiling constraint *)
  ROC_ceiling_fpm <-
    num (get config ["performance_requirements"; "rate_of_climb_ceiling_fpm"]) ;;
  let ROC_ceiling_fps := ROC_ceiling_fpm / #60 in
  ceiling_ft <- num (get config ["mission_requirements"; "service_ceiling_ft"]) ;;
  let h_ceiling_m := ceiling_ft * #0.3048 in
  let rho_ceiling_kg_m3 := atmosisa_rho h_ceiling_m in
  let rho_ceiling_slug := rho_ceiling_kg_m3 / #515.379 in
  let alpha_ceiling := #0.50 in
  let V_climb_ceiling := np_sqrt (#2 * #60 / (rho_ceiling_slug * CLclean)) in
  let T_W_ceiling_req := ROC_ceiling_fps / V_climb_ceiling + #2 * np_sqrt (cd0 * K1) in
  let TW_ceiling := (#1.0 / alpha_ceiling) * T_W_ceiling_req in
  (* 6. Cruise constraint *)
  cruise_alt <- num cruise_alt_ft ;;
  let h_cruise_m := cruise_alt * #0.3048 in
  let rho_cruise_kg_m3 := atmosisa_rho h_cruise_m in
  let rho_cruise_slug := rho_cruise_kg_m3 / #515.379 in
  cruise_speed <- num cruise_speed_kts ;;
  let V_cruise_fps := cruise_speed * #1.688 in
  let alpha_cruise := #0.75 in
  let beta_cruise := #1.0 in
  let q_cruise := #0.5 * rho_cruise_slug * sqr V_cruise_fps in
  (* Design WS from stall and landing *)
  let WS_design := py_min WS_stall_max WS_landing_max_TO in
  CLto <- num CLmax_TO_eff ;;
  let TW_takeoff := WS_design / (sigma_SL * CLto * TOP) in
  let CL_cruise := TOGW_lb / (q_cruise * (TOGW_lb / WS_design)) in
  let CD_cruise := cd0 + K1 * sqr CL_cruise in
  let L_D_cruise := CL_cruise / CD_cruise in
  let TW_cruise := (beta_cruise / alpha_cruise) * (#1.0 / L_D_cruise) in
  let TW_required :=
    py_max (py_max (py_max (py_max TW_takeoff TW_climb_OEI) TW_climb_AEO)
              TW_ceiling) TW_cruise in
  (* Convert T/W to power *)
  let V_climb_fps := ks_climb * V_stall_fps in
  let T_total_lb := TW_required * TOGW_lb in
  prop <- num prop_efficiency ;;
  let P_takeoff_HP := (TW_takeoff * TOGW_lb) * #1.15 * V_stall_fps / (#550 * prop) in
  let P_climb_OEI_HP := (TW_climb_OEI * TOGW_lb) * V_climb_fps / (#550 * prop) in
  let P_climb_AEO_HP := (TW_climb_AEO * TOGW_lb) * V_climb_fps / (#550 * prop) in
  let P_ceiling_HP := (TW_ceiling * TOGW_lb) * V_climb_ceiling / (#550 * prop) in
  let P_cruise_HP := (TW_cruise * TOGW_lb) * V_cruise_fps / (#550 * prop) in
  let P_shaft_HP :=
    py_max (py_max (py_max (py_max P_takeoff_HP P_climb_OEI_HP) P_climb_AEO_HP)
              P_ceiling_HP) P_cruise_HP in
  let P_shaft_kW := P_shaft_HP * #0.7457 in
  Ok (WS_design, P_shaft_kW).
End constraints.

(** ** The aircraft object (aircraft.py) and a mission segment (mission.py) *)

Record MissionSegment (F : Type) := {
  seg_name : string;
  altitude_start_ft : pyval F;
  altitude_end_ft : pyval F;
  Hp : F;
  blown_lift_active : bool;
  time_sec : F;
  fuel_lb : F;
  battery_Wh : F;
  distance_nm : pyval F;
}.

(** The attributes [HybridElectricAircraft.__init__] sets.  Those read from
    the configuration hold whatever [ConfigLoader.get] returned. *)
Record HybridElectricAircraft (F : Type) := {
  ac_name : string;
  ac_config : ConfigLoader F;
  W_payload_lb : pyval F;
  range_nm : pyval F;
  cruise_speed_kts : pyval F;
  cruise_alt_ft : pyval F;
  AR : pyval F;
  e : pyval F;
  CD0 : pyval F;
  K1 : F;
  CLmax_clean : pyval F;
  CLmax_TO : pyval F;
  CLmax_land : pyval F;
  dep_enabled : pyval F;
  dep_lift_aug_max : pyval F;
  dep_blown_span_fraction : pyval F;
  dep_num_motors : pyval F;
  dep_use_for_wing_sizing : pyval F;
  V_stall_kts : pyval F;
  BFL_ft : pyval F;
  LFL_ft : pyval F;
  ROC_fpm : pyval F;
  ac_tech : TechnologySpec F;
  TOGW_lb : pyval F;
  OEW_lb : F;
  W_fuel_lb : F;
  W_battery_lb : F;
  S_wing_ft2 : F;
  WS_psf : F;
  PW_hp_lb : F;
  weight_breakdown : list (string * F);
  powertrain : option (Powertrain F);
  Hp_design : F;
  hybridization_profile : option (list (string * F));
}.

(** The dict [simulate_mission] returns. *)
Record MissionResults (F : Type) := {
  total_fuel_lb : F;
  total_battery_Wh : F;
  total_time_sec : F;
  segments : list (MissionSegment F);
}.

Section aircraft_methods.
Context {F : Type} `{Arith F} `{Libm F}.
Local Open Scope py_scope.

(** [HybridElectricAircraft.__init__], from the configuration loaded.
    [K1] is a quotient of Python floats: for an aspect ratio or an Oswald
    efficiency of zero the code raises ZeroDivisionError there, before
    [from_config] is called, where the quotient here is the instance's. *)
Definition HybridElectricAircraft_init (name : string) (config : ConfigLoader F)
  : result (HybridElectricAircraft F) :=
  let AR_v := get config ["aerodynamics"; "aspect_ratio"] in
  let e_v := get config ["aerodynamics"; "oswald_efficiency"] in
  ar <- num AR_v ;;
  osw <- num e_v ;;
  let K1 := #1 / (#3.141592653589793 * ar * osw) in
  tech <- from_config config ;;
  Ok {| ac_name := name;
        ac_config := config;
        W_payload_lb := get config ["mission_requirements"; "payload_weight_lb"];
        range_nm := get config ["mission_requirements"; "design_range_nm"];
        cruise_speed_kts := get config ["mission_requirements"; "cruise_speed_kts"];
        cruise_alt_ft := get config ["mission_requirements"; "cruise_altitude_ft"];
        AR := AR_v;
        e := e_v;
        CD0 := get config ["aerodynamics"; "zero_lift_drag_coefficient"];
        K1 := K1;
        CLmax_clean := get config ["aerodynamics"; "CLmax_clean"];
        CLmax_TO := get config ["aerodynamics"; "CLmax_takeoff"];
        CLmax_land := get config ["aerodynamics"; "CLmax_landing"];
        dep_enabled := get config ["dep_system"; "enabled"];
        dep_lift_aug_max := get config ["dep_system"; "lift_augmentation_factor_max"];
        dep_blown_span_fraction := get config ["dep_system"; "blown_span_fraction"];
        dep_num_motors := get config ["dep_system"; "number_of_highlift_motors"];
        dep_use_for_wing_sizing := get config ["dep_system"; "use_for_wing_sizing"];
        V_stall_kts := get config ["performance_requirements"; "stall_speed_requirement_kts"];
        BFL_ft := get config ["performance_requirements"; "balanced_field_length_ft"];
        LFL_ft := get config ["performance_requirements"; "landing_field_length_ft"];
        ROC_fpm := get config ["performance_requirements"; "rate_of_climb_sea_level_fpm"];
        ac_tech := tech;
        TOGW_lb := get config ["weight_iteration"; "initial_TOGW_guess_lb"];
        OEW_lb := #0.0;
        W_fuel_lb := #0.0;
        W_battery_lb := #0.0;
        S_wing_ft2 := #0.0;
        WS_psf := #0.0;
        PW_hp_lb := #0.0;
        weight_breakdown := [];
        powertrain := None;
        Hp_design := #0.0;
        hybridization_profile := None |}.

(** Assignment to [self.powertrain], [self.Hp_design] and
    [self.hybridization_profile]. *)
Definition assign_powertrain (self : HybridElectricAircraft F)
  (pt : option (Powertrain F)) (hp : F) (profile : option (list (string * F)))
  : HybridElectricAircraft F :=
  {| ac_name := ac_name self; ac_config := ac_config self;
     W_payload_lb := W_payload_lb self; range_nm := range_nm self;
     cruise_speed_kts := cruise_speed_kts self; cruise_alt_ft := cruise_alt_ft self;
     AR := AR self; e := e self; CD0 := CD0 self; K1 := K1 self;
     CLmax_clean := CLmax_clean self; CLmax_TO := CLmax_TO self;
     CLmax_land := CLmax_land self; dep_enabled := dep_enabled self;
     dep_lift_aug_max := dep_lift_aug_max self;
     dep_blown_span_fraction := dep_blown_span_fraction self;
     dep_num_motors := dep_num_motors self;
     dep_use_for_wing_sizing := dep_use_for_wing_sizing self;
     V_stall_kts := V_stall_kts self; BFL_ft := BFL_ft self; LFL_ft := LFL_ft self;
     ROC_fpm := ROC_fpm self; ac_tech := ac_tech self; TOGW_lb := TOGW_lb self;
     OEW_lb := OEW_lb self; W_fuel_lb := W_fuel_lb self;
     W_battery_lb := W_battery_lb self; S_wing_ft2 := S_wing_ft2 self;
     WS_psf := WS_psf self; PW_hp_lb := PW_hp_lb self;
     weight_breakdown := weight_breakdown self;
     powertrain := pt;
     Hp_design := hp;
     hybridization_profile := profile |}.

(** Assignment to [self.weight_breakdown]. *)
Definition assign_weight_breakdown (self : HybridElectricAircraft F)
  (breakdown : list (string * F)) : HybridElectricAircraft F :=
  {| ac_name := ac_name self; ac_config := ac_config self;
     W_payload_lb := W_payload_lb self; range_nm := range_nm self;
     cruise_speed_kts := cruise_speed_kts self; cruise_alt_ft := cruise_alt_ft self;
     AR := AR self; e := e self; CD0 := CD0 self; K1 := K1 self;
     CLmax_clean := CLmax_clean self; CLmax_TO := CLmax_TO self;
     CLmax_land := CLmax_land self; dep_enabled := dep_enabled self;
     dep_lift_aug_max := dep_lift_aug_max self;
     dep_blown_span_fraction := dep_blown_span_fraction self;
     dep_num_motors := dep_num_motors self;
     dep_use_for_wing_sizing := dep_use_for_wing_sizing self;
     V_stall_kts := V_stall_kts self; BFL_ft := BFL_ft self; LFL_ft := LFL_ft self;
     ROC_fpm := ROC_fpm self; ac_tech := ac_tech self; TOGW_lb := TOGW_lb self;
     OEW_lb := OEW_lb self; W_fuel_lb := W_fuel_lb self;
     W_battery_lb := W_battery_lb self; S_wing_ft2 := S_wing_ft2 self;
     WS_psf := WS_psf self; PW_hp_lb := PW_hp_lb self;
     weight_breakdown := breakdown;
     powertrain := powertrain self;
     Hp_design := Hp_design self;
     hybridization_profile := hybridization_profile self |}.

(** The assignments to the design variables that end [size_aircraft]. *)
Definition assign_design (self : HybridElectricAircraft F)
  (togw oew w_fuel w_battery s_wing ws : F) : HybridElectricAircraft F :=
  {| ac_name := ac_name self; ac_config := ac_config self;
     W_payload_lb := W_payload_lb self; range_nm := range_nm self;
     cruise_speed_kts := cruise_speed_kts self; cruise_alt_ft := cruise_alt_ft self;
     AR := AR self; e := e self; CD0 := CD0 self; K1 := K1 self;
     CLmax_clean := CLmax_clean self; CLmax_TO := CLmax_TO self;
     CLmax_land := CLmax_land self; dep_enabled := dep_enabled self;
     dep_lift_aug_max := dep_lift_aug_max self;
     dep_blown_span_fraction := dep_blown_span_fraction self;
     dep_num_motors := dep_num_motors self;
     dep_use_for_wing_sizing := dep_use_for_wing_sizing self;
     V_stall_kts := V_stall_kts self; BFL_ft := BFL_ft self; LFL_ft := LFL_ft self;
     ROC_fpm := ROC_fpm self; ac_tech := ac_tech self;
     TOGW_lb := VNum togw;
     OEW_lb := oew; W_fuel_lb := w_fuel;
     W_battery_lb := w_battery; S_wing_ft2 := s_wing;
     WS_psf := ws; PW_hp_lb := PW_hp_lb self;
     weight_breakdown := weight_breakdown self;
     powertrain := powertrain self;
     Hp_design := Hp_design self;
     hybridization_profile := hybridization_profile self |}.

(** [str.lower], on ASCII. *)
Definition lower_ascii (c : Ascii.ascii) : Ascii.ascii :=
  let n := Ascii.nat_of_ascii c in
  if (Nat.leb 65 n && Nat.leb n 90)%bool then Ascii.ascii_of_nat (n + 32) else c.

Fixpoint lower (s : string) : string :=
  match s with
  | EmptyString => EmptyString
  | String c s' => String (lower_ascii c) (lower s')
  end.

(** [max(values)] of a non-empty sequence; ValueError on an empty one. *)
Definition max_of (l : list F) : result F :=
  match l with
  | [] => Raise (ValueError "max() arg is an empty sequence")
  | x :: l' => Ok (fold_left py_max l' x)
  end.

(** [HybridElectricAircraft.set_powertrain] *)
Definition set_powertrain (self : HybridElectricAircraft F)
  (architecture : string) (Hp_design : F)
  (hybridization_profile : option (list (string * F)))
  : result (HybridElectricAircraft F) :=
  let arch := lower architecture in
  pt <-
    (if String.eqb arch "dual_motor_dep" then
       d <- DualMotorDEPPowertrain (ac_tech self) (config (ac_config self)) ;;
       Ok (DualMotor d)
     else if String.eqb arch "multi_engine" then
       let n := get (ac_config self) ["propulsion"; "number_of_engines"] in
       let m := MultiEnginePowertrain (ac_tech self) n in
       Ok (MultiEngine (fst m) (snd m))
     else if String.eqb arch "conventional" then
       Ok (Conventional (ConventionalPowertrain (ac_tech self)))
     else if String.eqb arch "parallel" then
       Ok (ParallelHybrid (ParallelHybridPowertrain (ac_tech self)))
     else if String.eqb arch "serial" then
       Ok (SerialHybrid (SerialHybridPowertrain (ac_tech self)))
     else if String.eqb arch "electric" then
       Ok (FullyElectric (FullyElectricPowertrain (ac_tech self)))
     else Raise (ValueError ("Unknown architecture: " ++ architecture))) ;;
  match hybridization_profile with
  | Some profile =>
      max_Hp <- max_of (map snd profile) ;;
      Ok (assign_powertrain self (Some pt) max_Hp (Some profile))
  | None =>
      Ok (assign_powertrain self (Some pt) Hp_design None)
  end.

(** [HybridElectricAircraft.get_lift_augmentation_factor] *)
Definition get_lift_augmentation_factor (self : HybridElectricAircraft F)
  (blown_lift_active : bool) : result F :=
  if negb blown_lift_active || negb (truthy (dep_enabled self)) then
    Ok #1.0
  else
    aug_max <- num (dep_lift_aug_max self) ;;
    span <- num (dep_blown_span_fraction self) ;;
    let augmentation_factor := #1.0 + (aug_max - #1.0) * span in
    Ok augmentation_factor.

(** [dict.get(key, default)] on a profile. *)
Definition profile_get {A} (profile : list (string * A)) (key : string)
  (default : A) : A :=
  match assoc key profile with
  | Some v => v
  | None => default
  end.

Definition MissionSegment_new (name : string) (alt_start alt_end : pyval F)
  (Hp : F) (blown : bool) : MissionSegment F :=
  {| seg_name := name;
     altitude_start_ft := alt_start;
     altitude_end_ft := alt_end;
     Hp := Hp;
     blown_lift_active := blown;
     time_sec := #0.0;
     fuel_lb := #0.0;
     battery_Wh := #0.0;
     distance_nm := VNum #0.0 |}.

(** [HybridElectricAircraft.create_mission] (mission.py repeats it as a
    function that nothing calls). *)
Definition create_mission (self : HybridElectricAircraft F)
  (hybridization_profile : list (string * F))
  (blown_lift_profile : option (list (string * bool)))
  : list (MissionSegment F) :=
  let blown_lift_profile :=
    match blown_lift_profile with
    | Some p => p
    | None => [("takeoff", true); ("climb", true); ("cruise", false);
               ("descent", false); ("loiter", false); ("landing", true)]
    end in
  [ MissionSegment_new "takeoff" (VNum #0) (VNum #35)
      (profile_get hybridization_profile "takeoff" #0.0)
      (profile_get blown_lift_profile "takeoff" false);
    MissionSegment_new "climb" (VNum #35) (cruise_alt_ft self)
      (profile_get hybridization_profile "climb" #0.0)
      (profile_get blown_lift_profile "climb" false);
    MissionSegment_new "cruise" (cruise_alt_ft self) (cruise_alt_ft self)
      (profile_get hybridization_profile "cruise" #0.0)
      (profile_get blown_lift_profile "cruise" false);
    MissionSegment_new "descent" (cruise_alt_ft self) (VNum #450)
      (profile_get hybridization_profile "descent" #0.0)
      (profile_get blown_lift_profile "descent" false);
    MissionSegment_new "loiter" (VNum #450) (VNum #450)
      (profile_get hybridization_profile "loiter" #0.0)
      (profile_get blown_lift_profile "loiter" false);
    MissionSegment_new "landing" (VNum #450) (VNum #0)
      (profile_get hybridization_profile "landing" #0.0)
      (profile_get blown_lift_profile "landing" false) ].

(** [HybridElectricAircraft.constraint_analysis] *)
Definition constraint_analysis (self : HybridElectricAircraft F) (TOGW_lb : F)
  : result (F * F) :=
  '(blown_lift_aug, use_blown_sizing) <-
    (if truthy (dep_enabled self) && truthy (dep_use_for_wing_sizing self) then
       aug <- get_lift_augmentation_factor self true ;;
       Ok (aug, true)
     else Ok (#1.0, false)) ;;
  perform_constraint_analysis TOGW_lb
    (V_stall_kts self) (BFL_ft self) (LFL_ft self)
    (CLmax_clean self) (CLmax_TO self) (CLmax_land self)
    (CD0 self) (K1 self)
    (cruise_speed_kts self) (cruise_alt_ft self)
    (prop_efficiency (ac_tech self))
    (ac_config self)
    blown_lift_aug use_blown_sizing.

(** [self.powertrain.…]: an attribute of None raises AttributeError. *)
Definition the_powertrain (self : HybridElectricAircraft F)
  : result (Powertrain F) :=
  match powertrain self with
  | Some pt => Ok pt
  | None => Raise AttributeError
  end.

(** [HybridElectricAircraft.calculate_OEW] *)
Definition calculate_OEW (self : HybridElectricAircraft F)
  (TOGW_lb S_wing_ft2 : F) : result (HybridElectricAircraft F * F) :=
  let N_ult := #3.75 in
  ar <- num (AR self) ;;
  let W_wing_lb :=
    #0.04674 * (py_pow TOGW_lb #0.397) * (py_pow S_wing_ft2 #0.360)
    * (py_pow N_ult #0.397) * (py_pow ar #1.712) in
  let W_fuselage_lb := #0.23 * py_pow TOGW_lb #0.5 * #100 in
  let W_empennage_lb := #0.04 * TOGW_lb in
  let W_gear_lb := #0.02 * TOGW_lb in
  pt <- the_powertrain self ;;
  let W_propulsion_lb := get_total_propulsion_weight pt in
  let W_systems_lb := #0.2 * TOGW_lb in
  let breakdown :=
    [("wing", W_wing_lb); ("fuselage", W_fuselage_lb);
     ("empennage", W_empennage_lb); ("gear", W_gear_lb);
     ("propulsion", W_propulsion_lb); ("systems", W_systems_lb)] in
  let OEW_lb := fold_left add (map snd breakdown) #0 in
  Ok (assign_weight_breakdown self breakdown, OEW_lb).
End aircraft_methods.

(** ** mission.py *)

Section mission.
Context {F : Type} `{Arith F} `{Libm F}.
Local Open Scope py_scope.

(** The module-level [config = load_config()] of mission.py: the default
    configuration file, whatever configuration the aircraft was built
    from. *)
Variable module_config : ConfigLoader F.

(** [get_highlift_motor_power] *)
Definition get_highlift_motor_power (self : HybridElectricAircraft F)
  (blown_lift_active : bool) : result F :=
  if negb blown_lift_active || negb (truthy (dep_enabled self)) then
    Ok #0.0
  else
    n <- num (dep_num_motors self) ;;
    p <- num (get module_config ["dep_system"; "motor_power_kW"]) ;;
    let P_highlift_kW := n * p in
    Ok P_highlift_kW.

(** The lines that end every segment function: the high-lift motor power
    and the consumption over the segment. *)
Definition consumption (self : HybridElectricAircraft F)
  (segment : MissionSegment F) (power_split : PowerSplit F) (time_sec : F)
  : result (F * F) :=
  P_highlift_kW <- get_highlift_motor_power self (blown_lift_active segment) ;;
  let P_highlift_W := P_highlift_kW * #1000.0 in
  let fuel_lb := fuel_rate_kg_s power_split * time_sec * #2.20462 in
  let battery_Wh :=
    (battery_power_W power_split * time_sec) / #3600
    + (P_highlift_W * time_sec) / #3600 in
  Ok (fuel_lb, battery_Wh).

(** Assignment to [segment.distance_nm]. *)
Definition assign_distance_nm (segment : MissionSegment F) (d : pyval F)
  : MissionSegment F :=
  {| seg_name := seg_name segment;
     altitude_start_ft := altitude_start_ft segment;
     altitude_end_ft := altitude_end_ft segment;
     Hp := Hp segment;
     blown_lift_active := blown_lift_active segment;
     time_sec := time_sec segment;
     fuel_lb := fuel_lb segment;
     battery_Wh := battery_Wh segment;
     distance_nm := d |}.

(** Assignment to [segment.time_sec], [segment.fuel_lb] and
    [segment.battery_Wh]. *)
Definition assign_results (segment : MissionSegment F) (t f b : F)
  : MissionSegment F :=
  {| seg_name := seg_name segment;
     altitude_start_ft := altitude_start_ft segment;
     altitude_end_ft := altitude_end_ft segment;
     Hp := Hp segment;
     blown_lift_active := blown_lift_active segment;
     time_sec := t;
     fuel_lb := f;
     battery_Wh := b;
     distance_nm := distance_nm segment |}.

(** Each segment function returns the segment (cruise writes its
    [distance_nm]) and (time_sec, fuel_lb, battery_Wh). *)
Definition seg_out : Type := MissionSegment F * (F * F * F).

(** [simulate_cruise_segment] *)
Definition simulate_cruise_segment (self : HybridElectricAircraft F)
  (segment : MissionSegment F) (W_lb S_ft2 : F) : result seg_out :=
  alt <- num (altitude_start_ft segment) ;;
  let h_m := alt * #0.3048 in
  let rho_kg_m3 := atmosisa_rho h_m in
  let rho_slug_ft3 := rho_kg_m3 / #515.379 in
  speed <- num (cruise_speed_kts self) ;;
  let V_fps := speed * #1.688 in
  lift_aug_factor <- get_lift_augmentation_factor self (blown_lift_active segment) ;;
  let CL_base := W_lb / (#0.5 * rho_slug_ft3 * sqr V_fps * S_ft2) in
  let CL := CL_base * lift_aug_factor in
  cd0 <- num (CD0 self) ;;
  let CD := cd0 + K1 self * sqr CL_base in
  let D_lb := #0.5 * rho_slug_ft3 * sqr V_fps * S_ft2 * CD in
  prop <- num (prop_efficiency (ac_tech self)) ;;
  let P_shaft_HP := D_lb * V_fps / (#550 * prop) in
  let P_shaft_kW := P_shaft_HP * #0.7457 in
  pt <- the_powertrain self ;;
  power_split <- get_power_split pt P_shaft_kW (Hp segment) ;;
  range <- num (range_nm self) ;;
  let distance_ft := range * #6076.12 in
  let time_sec := distance_ft / V_fps in
  '(fuel_lb, battery_Wh) <- consumption self segment power_split time_sec ;;
  Ok (assign_distance_nm segment (range_nm self), (time_sec, fuel_lb, battery_Wh)).

(** [simulate_climb_segment] *)
Definition simulate_climb_segment (self : HybridElectricAircraft F)
  (segment : MissionSegment F) (W_lb S_ft2 : F) : result seg_out :=
  let W_avg := W_lb * #0.99 in
  lift_aug_factor <- get_lift_augmentation_factor self (blown_lift_active segment) ;;
  clean <- num (CLmax_clean self) ;;
  let CLmax_clean_effective := clean * lift_aug_factor in
  let rho_sl := #0.002377 in
  let V_stall_fps := np_sqrt (#2 * W_avg / (rho_sl * S_ft2 * CLmax_clean_effective)) in
  let V_climb_fps := #1.3 * V_stall_fps in
  let gamma := #0.05 in
  let ROC_fps := V_climb_fps * gamma in
  let CL_climb_base := W_avg / (#0.5 * rho_sl * sqr V_climb_fps * S_ft2) in
  let CL_climb := CL_climb_base * lift_aug_factor in
  cd0 <- num (CD0 self) ;;
  let CD_climb := cd0 + K1 self * sqr CL_climb_base in
  let T_lb := W_avg * (#1 / (CL_climb / CD_climb) + gamma) in
  prop <- num (prop_efficiency (ac_tech self)) ;;
  let P_shaft_HP := T_lb * V_climb_fps / (#550 * prop) in
  let P_shaft_kW := P_shaft_HP * #0.7457 in
  pt <- the_powertrain self ;;
  power_split <- get_power_split pt P_shaft_kW (Hp segment) ;;
  alt_end <- num (altitude_end_ft segment) ;;
  alt_start <- num (altitude_start_ft segment) ;;
  let alt_change_ft := alt_end - alt_start in
  let time_sec := if ROC_fps >? #0 then alt_change_ft / ROC_fps else #600 in
  '(fuel_lb, battery_Wh) <- consumption self segment power_split time_sec ;;
  Ok (segment, (time_sec, fuel_lb, battery_Wh)).

(** [simulate_descent_segment] *)
Definition simulate_descent_segment (self : HybridElectricAircraft F)
  (segment : MissionSegment F) (W_lb S_ft2 : F) : result seg_out :=
  alt_start <- num (altitude_start_ft segment) ;;
  alt_end <- num (altitude_end_ft segment) ;;
  let h_avg_ft := (alt_start + alt_end) / #2 in
  let h_avg_m := h_avg_ft * #0.3048 in
  let rho_kg_m3 := atmosisa_rho h_avg_m in
  let rho_slug_ft3 := rho_kg_m3 / #515.379 in
  speed <- num (cruise_speed_kts self) ;;
  let V_descent_kts := speed * #0.9 in
  let V_fps := V_descent_kts * #1.688 in
  let descent_rate_fpm := #600 in
  let descent_rate_fps := descent_rate_fpm / #60 in
  let gamma := np_arctan (descent_rate_fps / V_fps) in
  lift_aug_factor <- get_lift_augmentation_factor self (blown_lift_active segment) ;;
  let W_effective := W_lb * np_cos gamma in
  let CL_base := W_effective / (#0.5 * rho_slug_ft3 * sqr V_fps * S_ft2) in
  let CL := CL_base * lift_aug_factor in
  cd0 <- num (CD0 self) ;;
  let CD := cd0 + K1 self * sqr CL_base in
  let D_lb := #0.5 * rho_slug_ft3 * sqr V_fps * S_ft2 * CD in
  let T_required_lb := D_lb - W_lb * np_sin gamma in
  P_shaft_kW <-
    (if T_required_lb <? #0 then
       pt <- the_powertrain self ;;
       Ok (pt_P_GT_kW pt * #0.07)
     else
       prop <- num (prop_efficiency (ac_tech self)) ;;
       let P_shaft_HP := T_required_lb * V_fps / (#550 * prop) in
       let P_shaft_kW := P_shaft_HP * #0.7457 in
       pt <- the_powertrain self ;;
       Ok (py_max P_shaft_kW (pt_P_GT_kW pt * #0.07))) ;;
  pt <- the_powertrain self ;;
  power_split <- get_power_split pt P_shaft_kW (Hp segment) ;;
  let alt_change_ft := alt_start - alt_end in
  let time_sec :=
    if descent_rate_fps >? #0 then alt_change_ft / descent_rate_fps else #480 in
  '(fuel_lb, battery_Wh) <- consumption self segment power_split time_sec ;;
  Ok (segment, (time_sec, fuel_lb, battery_Wh)).

(** [simulate_takeoff_segment] *)
Definition simulate_takeoff_segment (self : HybridElectricAircraft F)
  (segment : MissionSegment F) (W_lb S_ft2 : F) : result seg_out :=
  let rho_sl := #0.002377 in
  lift_aug_factor <- get_lift_augmentation_factor self (blown_lift_active segment) ;;
  clto <- num (CLmax_TO self) ;;
  let CLmax_TO_effective := clto * lift_aug_factor in
  let V_stall_TO_fps := np_sqrt (#2 * W_lb / (rho_sl * S_ft2 * CLmax_TO_effective)) in
  let V_liftoff_fps := #1.1 * V_stall_TO_fps in
  let t_ground_sec := #30 in
  let V_climb_fps := #1.3 * V_stall_TO_fps in
  let climb_gradient := #0.08 in
  let ROC_fps := V_climb_fps * climb_gradient in
  let t_climb_sec := if ROC_fps >? #0 then #35 / ROC_fps else #20 in
  let time_sec := t_ground_sec + t_climb_sec in
  pt <- the_powertrain self ;;
  let P_takeoff_kW :=
    if pt_P_EM_kW pt >? #0 then pt_P_GT_kW pt + pt_P_EM_kW pt
    else pt_P_GT_kW pt * #0.95 in
  power_split <- get_power_split pt P_takeoff_kW (Hp segment) ;;
  '(fuel_lb, battery_Wh) <- consumption self segment power_split time_sec ;;
  Ok (segment, (time_sec, fuel_lb, battery_Wh)).

(** [simulate_loiter_segment] *)
Definition simulate_loiter_segment (self : HybridElectricAircraft F)
  (segment : MissionSegment F) (W_lb S_ft2 : F) : result seg_out :=
  alt <- num (altitude_start_ft segment) ;;
  let h_m := alt * #0.3048 in
  let rho_kg_m3 := atmosisa_rho h_m in
  let rho_slug_ft3 := rho_kg_m3 / #515.379 in
  lift_aug_factor <- get_lift_augmentation_factor self (blown_lift_active segment) ;;
  clean <- num (CLmax_clean self) ;;
  let CLmax_clean_effective := clean * lift_aug_factor in
  let V_stall_fps :=
    np_sqrt (#2 * W_lb / (rho_slug_ft3 * S_ft2 * CLmax_clean_effective)) in
  let V_loiter_fps := #1.3 * V_stall_fps in
  let CL_base := W_lb / (#0.5 * rho_slug_ft3 * sqr V_loiter_fps * S_ft2) in
  let CL := CL_base * lift_aug_factor in
  cd0 <- num (CD0 self) ;;
  let CD := cd0 + K1 self * sqr CL_base in
  let D_lb := #0.5 * rho_slug_ft3 * sqr V_loiter_fps * S_ft2 * CD in
  prop <- num (prop_efficiency (ac_tech self)) ;;
  let P_shaft_HP := D_lb * V_loiter_fps / (#550 * prop) in
  let P_shaft_kW := P_shaft_HP * #0.7457 in
  pt <- the_powertrain self ;;
  power_split <- get_power_split pt P_shaft_kW (Hp segment) ;;
  let time_sec := #30 * #60 in
  '(fuel_lb, battery_Wh) <- consumption self segment power_split time_sec ;;
  Ok (segment, (time_sec, fuel_lb, battery_Wh)).

(** [simulate_landing_segment] *)
Definition simulate_landing_segment (self : HybridElectricAircraft F)
  (segment : MissionSegment F) (W_lb S_ft2 : F) : result seg_out :=
  alt <- num (altitude_start_ft segment) ;;
  let h_m := alt * #0.3048 in
  let rho_kg_m3 := atmosisa_rho h_m in
  let rho_slug_ft3 := rho_kg_m3 / #515.379 in
  lift_aug_factor <- get_lift_augmentation_factor self (blown_lift_active segment) ;;
  clland <- num (CLmax_land self) ;;
  let CLmax_land_effective := clland * lift_aug_factor in
  let V_stall_land_fps :=
    np_sqrt (#2 * W_lb / (rho_slug_ft3 * S_ft2 * CLmax_land_effective)) in
  let V_approach_fps := #1.3 * V_stall_land_fps in
  let gamma_approach := #3.0 * #3.141592653589793 / #180 in
  let descent_distance_ft := alt / np_tan gamma_approach in
  let t_approach_sec := descent_distance_ft / V_approach_fps in
  let CL_base := W_lb / (#0.5 * rho_slug_ft3 * sqr V_approach_fps * S_ft2) in
  let CL := CL_base * lift_aug_factor in
  cd0 <- num (CD0 self) ;;
  let CD := cd0 + K1 self * sqr CL_base + #0.02 in
  let D_lb := #0.5 * rho_slug_ft3 * sqr V_approach_fps * S_ft2 * CD in
  let T_required_lb := D_lb - W_lb * np_sin gamma_approach in
  prop <- num (prop_efficiency (ac_tech self)) ;;
  let P_shaft_HP := py_max #0 (T_required_lb * V_approach_fps / (#550 * prop)) in
  let P_shaft_kW := P_shaft_HP * #0.7457 in
  let t_flare_rollout_sec := #30 in
  let time_sec := t_approach_sec + t_flare_rollout_sec in
  pt <- the_powertrain self ;;
  power_split <- get_power_split pt P_shaft_kW (Hp segment) ;;
  '(fuel_lb, battery_Wh) <- consumption self segment power_split time_sec ;;
  Ok (segment, (time_sec, fuel_lb, battery_Wh)).

(** The dispatch on [segment.name] inside the loop of [simulate_mission]. *)
Definition simulate_segment (self : HybridElectricAircraft F)
  (segment : MissionSegment F) (W_current_lb S_wing_ft2 : F) : result seg_out :=
  if String.eqb (seg_name segment) "cruise" then
    simulate_cruise_segment self segment W_current_lb S_wing_ft2
  else if String.eqb (seg_name segment) "climb" then
    simulate_climb_segment self segment W_current_lb S_wing_ft2
  else if String.eqb (seg_name segment) "descent" then
    simulate_descent_segment self segment W_current_lb S_wing_ft2
  else if String.eqb (seg_name segment) "takeoff" then
    simulate_takeoff_segment self segment W_current_lb S_wing_ft2
  else if String.eqb (seg_name segment) "loiter" then
    simulate_loiter_segment self segment W_current_lb S_wing_ft2
  else if String.eqb (seg_name segment) "landing" then
    simulate_landing_segment self segment W_current_lb S_wing_ft2
  else Raise (ValueError ("Unknown segment type: " ++ seg_name segment)).

(** The [for segment in segments] loop of [simulate_mission]: the running
    weight and totals are the loop's variables; the segments already
    processed are collected in order. *)
Fixpoint mission_loop (self : HybridElectricAircraft F)
  (todo : list (MissionSegment F)) (S_wing_ft2 : F)
  (W_current_lb total_fuel total_battery total_time : F)
  : result (list (MissionSegment F) * (F * F * F * F)) :=
  match todo with
  | [] => Ok ([], (W_current_lb, total_fuel, total_battery, total_time))
  | segment :: rest =>
      '(segment', (t, f, b)) <-
        simulate_segment self segment W_current_lb S_wing_ft2 ;;
      let W_current_lb := W_current_lb - f in
      let segment'' := assign_results segment' t f b in
      let total_fuel := total_fuel + f in
      let total_battery := total_battery + b in
      let total_time := total_time + t in
      '(done, final) <-
        mission_loop self rest S_wing_ft2
          W_current_lb total_fuel total_battery total_time ;;
      Ok (segment'' :: done, final)
  end.

(** [simulate_mission] *)
Definition simulate_mission (self : HybridElectricAircraft F)
  (segments : list (MissionSegment F)) (TOGW_lb S_wing_ft2 : F)
  : result (MissionResults F) :=
  '(done, (_, total_fuel, total_battery, total_time)) <-
    mission_loop self segments S_wing_ft2 TOGW_lb #0.0 #0.0 #0.0 ;;
  Ok {| total_fuel_lb := total_fuel;
        total_battery_Wh := total_battery;
        total_time_sec := total_time;
        segments := done |}.
End mission.

(** ** The sizing loop (aircraft.py, [size_aircraft]) *)

(** The variables of the battery block of an iteration. *)
Record BatterySizing (F : Type) := {
  bs_W_battery_lb : F;
  bs_W_battery_Wh : F;
  bs_W_battery_kWh : F;
  bs_max_battery_power_kW : F;
  bs_max_power_segment : string;
  bs_c_rate_actual : F;
  bs_c_rate_max : F;
  bs_sizing_constraint : string;
}.

(** The local variables of [size_aircraft] an iteration leaves behind. *)
Record IterationVars (F : Type) := {
  it_TOGW_guess_lb : F;
  it_S_wing_ft2 : F;
  it_OEW_lb : F;
  it_mission_results : MissionResults F;
  it_W_fuel_lb : F;
  it_battery : BatterySizing F;
  it_TOGW_new_lb : F;
  it_error : F;
}.

(** The dict [size_aircraft] returns. *)
Record SizingResult (F : Type) := {
  r_TOGW_lb : F;
  r_OEW_lb : F;
  r_W_fuel_lb : F;
  r_W_battery_lb : F;
  r_W_payload_lb : pyval F;
  r_S_wing_ft2 : F;
  r_WS_psf : F;
  fuel_fraction : F;
  battery_fraction : F;
  payload_fraction : F;
  PREE : F;
  mission_time_min : F;
  converged : bool;
  battery_c_rate : F;
  battery_c_rate_max : F;
  battery_sizing_constraint : string;
  battery_peak_power_kW : F;
  battery_peak_segment : string;
}.

Section sizing.
Context {F : Type} `{Arith F} `{Libm F}.
Local Open Scope py_scope.

Variable module_config : ConfigLoader F.

(** The [for seg in mission_results['segments']] loop of the battery
    block: the peak of the segments' average battery power. *)
Fixpoint peak_battery_power (segs : list (MissionSegment F))
  (max_battery_power_W : F) (max_power_segment : string) : F * string :=
  match segs with
  | [] => (max_battery_power_W, max_power_segment)
  | seg :: rest =>
      if time_sec seg >? #0 then
        let seg_power_W := battery_Wh seg / (time_sec seg / #3600) in
        if seg_power_W >? max_battery_power_W
        then peak_battery_power rest seg_power_W (seg_name seg)
        else peak_battery_power rest max_battery_power_W max_power_segment
      else peak_battery_power rest max_battery_power_W max_power_segment
  end.

(** The battery block of an iteration (BATTERY SIZING WITH C-RATE
    CONSTRAINT). *)
Definition battery_sizing (tech : TechnologySpec F)
  (mission_results : MissionResults F) : result (BatterySizing F) :=
  se <- num (battery_specific_energy_Wh_kg tech) ;;
  has_battery <-
    (if se >? #0 then dod <- num (battery_DOD tech) ;; Ok (dod >? #0)
     else Ok false) ;;
  if has_battery : bool then
    dod <- num (battery_DOD tech) ;;
    let W_battery_Wh := total_battery_Wh mission_results / dod in
    let W_battery_kWh := W_battery_Wh / #1000.0 in
    let m_battery_energy_kg := W_battery_kWh / (se / #1000.0) in
    let '(max_battery_power_W, max_power_segment) :=
      peak_battery_power (segments mission_results) #0.0 "" in
    let max_battery_power_kW := max_battery_power_W / #1000.0 in
    sp <- num (battery_specific_power_kW_kg tech) ;;
    let m_battery_power_kg :=
      if sp >? #0 then max_battery_power_kW / sp else #0.0 in
    let m_battery_kg := py_max m_battery_energy_kg m_battery_power_kg in
    let W_battery_lb := m_battery_kg * #2.20462 in
    let c_rate_actual :=
      if W_battery_kWh >? #0 then max_battery_power_kW / W_battery_kWh else #0.0 in
    let c_rate_max :=
      if se >? #0 then sp / (se / #1000.0) else #0.0 in
    let sizing_constraint :=
      if m_battery_power_kg >? m_battery_energy_kg then "POWER" else "energy" in
    Ok {| bs_W_battery_lb := W_battery_lb;
          bs_W_battery_Wh := W_battery_Wh;
          bs_W_battery_kWh := W_battery_kWh;
          bs_max_battery_power_kW := max_battery_power_kW;
          bs_max_power_segment := max_power_segment;
          bs_c_rate_actual := c_rate_actual;
          bs_c_rate_max := c_rate_max;
          bs_sizing_constraint := sizing_constraint |}
  else
    Ok {| bs_W_battery_lb := #0.0;
          bs_W_battery_Wh := #0.0;
          bs_W_battery_kWh := #0.0;
          bs_max_battery_power_kW := #0.0;
          bs_max_power_segment := "N/A";
          bs_c_rate_actual := #0.0;
          bs_c_rate_max := #0.0;
          bs_sizing_constraint := "N/A" |}.

(** The part of [size_aircraft] before the loop: the powertrain check,
    the choice of the hybridization profile, and the header printed. *)
Definition size_aircraft_header (self : HybridElectricAircraft F)
  (profile_argument : option (list (string * F)))
  : result (list (string * F)) :=
  match powertrain self with
  | None => Raise (ValueError "Must set powertrain before sizing")
  | Some _ =>
      let profile :=
        match profile_argument with
        | Some p => p
        | None =>
            match hybridization_profile self with
            | Some p => p
            | None =>
                [("takeoff", Hp_design self); ("climb", Hp_design self);
                 ("cruise", #0.0); ("descent", #0.0); ("loiter", #0.0);
                 ("landing", Hp_design self)]
            end
        end in
      format_float (W_payload_lb self) ;;;
      format_float (range_nm self) ;;;
      format_float (cruise_speed_kts self) ;;;
      format_float (cruise_alt_ft self) ;;;
      Ok profile
  end.

(** Assignment of the re-sized powertrain object. *)
Definition with_powertrain (self : HybridElectricAircraft F) (pt : Powertrain F)
  : HybridElectricAircraft F :=
  assign_powertrain self (Some pt) (Hp_design self) (hybridization_profile self).

(** The body of the [for iteration in range(max_iterations)] loop, up to
    the computation of [error]. *)
Definition sizing_iteration (self : HybridElectricAircraft F)
  (hybridization_profile : list (string * F)) (TOGW_guess_lb : F)
  : result (HybridElectricAircraft F * IterationVars F) :=
  '(WS_psf, P_shaft_kW) <- constraint_analysis self TOGW_guess_lb ;;
  let S_wing_ft2 := TOGW_guess_lb / WS_psf in
  pt <- the_powertrain self ;;
  pt' <- size_components pt P_shaft_kW (Hp_design self) ;;
  let self := with_powertrain self pt' in
  '(self, OEW_lb) <- calculate_OEW self TOGW_guess_lb S_wing_ft2 ;;
  let segments := create_mission self hybridization_profile None in
  mission_results <-
    simulate_mission module_config self segments TOGW_guess_lb S_wing_ft2 ;;
  let W_fuel_lb := total_fuel_lb mission_results * #1.06 in
  battery <- battery_sizing (ac_tech self) mission_results ;;
  payload <- num (W_payload_lb self) ;;
  let TOGW_new_lb := OEW_lb + payload + W_fuel_lb + bs_W_battery_lb battery in
  let error := py_abs (TOGW_new_lb - TOGW_guess_lb) / TOGW_guess_lb in
  Ok (self,
      {| it_TOGW_guess_lb := TOGW_guess_lb;
         it_S_wing_ft2 := S_wing_ft2;
         it_OEW_lb := OEW_lb;
         it_mission_results := mission_results;
         it_W_fuel_lb := W_fuel_lb;
         it_battery := battery;
         it_TOGW_new_lb := TOGW_new_lb;
         it_error := error |}).

(** The [for] loop with its [break]: [last] holds the variables of the
    last iteration run, None while no iteration has run. *)
Fixpoint sizing_loop (max_iterations : nat) (tolerance : F)
  (hybridization_profile : list (string * F))
  (self : HybridElectricAircraft F) (TOGW_guess_lb : F)
  (last : option (IterationVars F))
  : result (HybridElectricAircraft F * option (IterationVars F)) :=
  match max_iterations with
  | O => Ok (self, last)
  | S n =>
      '(self, vars) <- sizing_iteration self hybridization_profile TOGW_guess_lb ;;
      if it_error vars <? tolerance then Ok (self, Some vars)
      else
        let TOGW_guess_lb := #0.7 * TOGW_guess_lb + #0.3 * it_TOGW_new_lb vars in
        sizing_loop n tolerance hybridization_profile self TOGW_guess_lb (Some vars)
  end.

(** The part of [size_aircraft] after the loop. *)
Definition size_aircraft_results (self : HybridElectricAircraft F)
  (tolerance : F) (vars : IterationVars F)
  : result (HybridElectricAircraft F * SizingResult F) :=
  let TOGW_new_lb := it_TOGW_new_lb vars in
  let W_fuel_lb := it_W_fuel_lb vars in
  let battery := it_battery vars in
  let W_battery_lb := bs_W_battery_lb battery in
  let S_wing_ft2 := it_S_wing_ft2 vars in
  let self :=
    assign_design self TOGW_new_lb (it_OEW_lb vars) W_fuel_lb W_battery_lb
      S_wing_ft2 (TOGW_new_lb / S_wing_ft2) in
  let fuel_fraction := W_fuel_lb / TOGW_new_lb in
  let battery_fraction := W_battery_lb / TOGW_new_lb in
  payload <- num (W_payload_lb self) ;;
  let payload_fraction := payload / TOGW_new_lb in
  let E_fuel_Wh := W_fuel_lb * #0.453592 * #43000 / #3.6 in
  let E_battery_Wh := bs_W_battery_Wh battery in
  let E_total_Wh := E_fuel_Wh + E_battery_Wh in
  range <- num (range_nm self) ;;
  let PREE := (payload * #4.44822) * (range * #1852) / E_total_Wh in
  Ok (self,
      {| r_TOGW_lb := TOGW_new_lb;
         r_OEW_lb := it_OEW_lb vars;
         r_W_fuel_lb := W_fuel_lb;
         r_W_battery_lb := W_battery_lb;
         r_W_payload_lb := W_payload_lb self;
         r_S_wing_ft2 := S_wing_ft2;
         r_WS_psf := WS_psf self;
         fuel_fraction := fuel_fraction;
         battery_fraction := battery_fraction;
         payload_fraction := payload_fraction;
         PREE := PREE;
         mission_time_min := total_time_sec (it_mission_results vars) / #60;
         converged := it_error vars <? tolerance;
         battery_c_rate := bs_c_rate_actual battery;
         battery_c_rate_max := bs_c_rate_max battery;
         battery_sizing_constraint := bs_sizing_constraint battery;
         battery_peak_power_kW := bs_max_battery_power_kW battery;
         battery_peak_segment := bs_max_power_segment battery |}).

(** [HybridElectricAircraft.size_aircraft].  With no iteration run the
    assignments after the loop read variables the loop never bound. *)
Definition size_aircraft (self : HybridElectricAircraft F)
  (max_iterations : nat) (tolerance : F)
  (hybridization_profile : option (list (string * F)))
  : result (HybridElectricAircraft F * SizingResult F) :=
  profile <- size_aircraft_header self hybridization_profile ;;
  let TOGW_guess_lb := #15000 in
  '(self, last) <-
    sizing_loop max_iterations tolerance profile self TOGW_guess_lb None ;;
  match last with
  | None => Raise (UnboundLocalError "TOGW_new_lb")
  | Some vars => size_aircraft_results self tolerance vars
  end.
End sizing.

(** * Example inputs

    A configuration in the shape of the program's config.json: the regional
    mission of the specification (1200 lb over 200 nm at 150 kts and
    8000 ft, AR = 10, e = 0.8, CD0 = 0.025), with the distributed-propulsion
    system switched off. *)

Section examples.
Context {F : Type} `{Arith F}.
Local Open Scope py_scope.

Definition sizing_json (with_bsfc : bool) (specific_energy dod_percent : dec)
  : pyval F :=
  VDict [
    ("mission_requirements", VDict [
       ("payload_weight_lb", VNum #1200); ("design_range_nm", VNum #200);
       ("cruise_speed_kts", VNum #150); ("cruise_altitude_ft", VNum #8000);
       ("service_ceiling_ft", VNum #25000)]);
    ("aerodynamics", VDict [
       ("aspect_ratio", VNum #10); ("oswald_efficiency", VNum #0.8);
       ("zero_lift_drag_coefficient", VNum #0.025);
       ("CLmax_clean", VNum #1.6); ("CLmax_takeoff", VNum #2.0);
       ("CLmax_landing", VNum #2.4)]);
    ("dep_system", VDict [
       ("enabled", VBool false);
       ("lift_augmentation_factor_max", VNum #1.8);
       ("blown_span_fraction", VNum #0.65);
       ("number_of_highlift_motors", VNum #12);
       ("motor_power_kW", VNum #10.5);
       ("use_for_wing_sizing", VBool false)]);
    ("performance_requirements", VDict [
       ("stall_speed_requirement_kts", VNum #60);
       ("balanced_field_length_ft", VNum #1500);
       ("landing_field_length_ft", VNum #1500);
       ("rate_of_climb_sea_level_fpm", VNum #1500);
       ("rate_of_climb_ceiling_fpm", VNum #100)]);
    ("hybrid_system", VDict [
       ("gas_turbine",
        VDict ([("specific_power_kW_kg", VNum #4.0); ("efficiency", VNum #0.3)]
               ++ (if with_bsfc then [("BSFC_kg_kWh", VNum #0.3)] else [])));
       ("electric_motor", VDict [("specific_power_kW_kg", VNum #5.0);
                                 ("efficiency", VNum #0.95)]);
       ("generator", VDict [("specific_power_kW_kg", VNum #5.0);
                            ("efficiency", VNum #0.95)]);
       ("battery", VDict [("specific_energy_Wh_kg", VNum (lit specific_energy));
                          ("specific_power_kW_kg", VNum #1.0);
                          ("SOC_margin_percent", VNum #20);
                          ("depth_of_discharge_percent", VNum (lit dod_percent))])]);
    ("propulsion", VDict [("number_of_engines", VNum #2);
                          ("propeller_efficiency", VNum #0.85)]);
    ("weight_iteration", VDict [("initial_TOGW_guess_lb", VNum #15000)])
  ].

(** The complete configuration. *)
Definition example_config : ConfigLoader F :=
  {| config := sizing_json true 250%dec 80%dec |}.

(** The same without the leaf hybrid_system.gas_turbine.BSFC_kg_kWh. *)
Definition missing_bsfc_config : ConfigLoader F :=
  {| config := sizing_json false 250%dec 80%dec |}.

(** The same with a battery of specific energy zero. *)
Definition no_battery_config : ConfigLoader F :=
  {| config := sizing_json true 0%dec 80%dec |}.



(** The same with the distributed-propulsion system switched on, as the
    lift-augmentation example of the specification has it. *)
Definition blown_config : ConfigLoader F :=
  {| config :=
       VDict [
         ("aerodynamics", VDict [
            ("aspect_ratio", VNum #10); ("oswald_efficiency", VNum #0.8)]);
         ("dep_system", VDict [
            ("enabled", VBool true);
            ("lift_augmentation_factor_max", VNum #1.8);
            ("blown_span_fraction", VNum #0.65)]);
         ("hybrid_system", VDict [
            ("battery", VDict [("SOC_margin_percent", VNum #20);
                               ("depth_of_discharge_percent", VNum #80)])])] |}.

(** A technology specification, as [from_config] builds it from the
    complete configuration. *)
Definition example_tech : TechnologySpec F :=
  {| GT_specific_power_kW_kg := VNum #4.0;
     GT_efficiency := VNum #0.3;
     GT_BSFC_kg_kWh := VNum #0.3;
     EM_specific_power_kW_kg := VNum #5.0;
     EM_efficiency := VNum #0.95;
     GEN_specific_power_kW_kg := VNum #5.0;
     GEN_efficiency := VNum #0.95;
     battery_specific_energy_Wh_kg := VNum #250;
     battery_specific_power_kW_kg := VNum #1.0;
     battery_SOC_margin := VNum (#20 / #100);
     battery_DOD := VNum (#80 / #100);
     prop_efficiency := VNum #0.85 |}.

(** The dep_system section a dual-motor powertrain is built from. *)
Definition dual_motor_json : pyval F :=
  VDict [
    ("dep_system", VDict [
       ("highlift_motors", VDict [
          ("number_of_motors", VNum #12);
          ("power_per_motor_kW", VNum #10.5);
          ("weight_per_motor_lb", VNum #15);
          ("efficiency", VNum #0.95);
          ("active_phases", VList [VStr "takeoff"; VStr "landing"]);
          ("folding", VDict [
             ("can_fold", VBool true);
             ("folded_drag_coefficient_increment", VNum #0.001)])]);
       ("cruise_motors", VDict [
          ("number_of_motors", VNum #2);
          ("specific_power_kW_kg", VNum #5.0);
          ("efficiency", VNum #0.95)]);
       ("power_architecture", VDict [("type", VStr "battery_electric")]);
       ("wiring_and_controls", VDict [
          ("wiring_weight_factor", VNum #0.05);
          ("controller_weight_per_kW", VNum #0.1)])])].

(** A mission result whose takeoff draws 5000 Wh in 40 s and whose cruise
    draws nothing. *)
Definition short_burst_results : MissionResults F :=
  {| total_fuel_lb := #0;
     total_battery_Wh := #5000;
     total_time_sec := #4840;
     segments :=
       [ {| seg_name := "takeoff"; altitude_start_ft := VNum #0;
            altitude_end_ft := VNum #35; Hp := #1; blown_lift_active := false;
            time_sec := #40; fuel_lb := #0; battery_Wh := #5000;
            distance_nm := VNum #0 |};
         {| seg_name := "cruise"; altitude_start_ft := VNum #8000;
            altitude_end_ft := VNum #8000; Hp := #0; blown_lift_active := false;
            time_sec := #4800; fuel_lb := #0; battery_Wh := #0;
            distance_nm := VNum #200 |} ] |}.
End examples.

(** * Vocabulary of the properties *)

Section relations.
Context {F : Type} {AF : Arith F}.

(** [design_only a b]: [b] is [a] after assignments to the weight breakdown
    and the design variables only. *)
Inductive design_only (a : HybridElectricAircraft F) : HybridElectricAircraft F -> Prop :=
| design_only_refl : design_only a a
| design_only_breakdown b bd :
    design_only a b -> design_only a (assign_weight_breakdown b bd)
| design_only_design b togw oew wf wb sw ws :
    design_only a b -> design_only a (assign_design b togw oew wf wb sw ws).

(** [resized a b]: [b] is [a] after such assignments and after the
    powertrain was re-sized by [size_components] any number of times. *)
Inductive resized (a : HybridElectricAircraft F) : HybridElectricAircraft F -> Prop :=
| resized_refl : resized a a
| resized_breakdown b bd :
    resized a b -> resized a (assign_weight_breakdown b bd)
| resized_design b togw oew wf wb sw ws :
    resized a b -> resized a (assign_design b togw oew wf wb sw ws)
| resized_powertrain b pt pt' P Hp :
    resized a b -> powertrain b = Some pt -> size_components pt P Hp = Ok pt' ->
    resized a (with_powertrain b pt').

(** Two powertrain attributes that [size_components] cannot tell apart. *)
Definition same_sizing (p q : option (Powertrain F)) : Prop :=
  match p, q with
  | Some p, Some q => forall P Hp, size_components q P Hp = size_components p P Hp
  | None, None => True
  | _, _ => False
  end.


End relations.

Section readiness.
Context {F : Type} {AF : Arith F}.
Local Open Scope py_scope.

(** A value arithmetic accepts. *)
Definition is_num (v : pyval F) : bool :=
  match v with VNum _ | VBool _ => true | _ => false end.

(** [ready module_config self]: every leaf the sizing loop does arithmetic
    on is a number (those of the distributed-propulsion system only when it
    is enabled). *)
Definition ready (module_config : ConfigLoader F) (self : HybridElectricAircraft F)
  : bool :=
  is_num (W_payload_lb self) && is_num (range_nm self)
  && is_num (cruise_speed_kts self) && is_num (cruise_alt_ft self)
  && is_num (AR self) && is_num (CD0 self)
  && is_num (CLmax_clean self) && is_num (CLmax_TO self) && is_num (CLmax_land self)
  && is_num (V_stall_kts self) && is_num (BFL_ft self) && is_num (LFL_ft self)
  && is_num (prop_efficiency (ac_tech self))
  && is_num (battery_specific_energy_Wh_kg (ac_tech self))
  && is_num (battery_DOD (ac_tech self))
  && is_num (battery_specific_power_kW_kg (ac_tech self))
  && is_num (get (ac_config self) ["propulsion"; "number_of_engines"])
  && is_num (get (ac_config self)
               ["performance_requirements"; "rate_of_climb_ceiling_fpm"])
  && is_num (get (ac_config self) ["mission_requirements"; "service_ceiling_ft"])
  && (negb (truthy (dep_enabled self))
      || (is_num (dep_lift_aug_max self) && is_num (dep_blown_span_fraction self)
          && is_num (dep_num_motors self)
          && is_num (get module_config ["dep_system"; "motor_power_kW"]))).

(** A powertrain that can be sized for any power, and that splits any power
    once sized. *)
Definition usable (pt : Powertrain F) : Prop :=
  (forall P Hp, exists pt', size_components pt P Hp = Ok pt')
  /\ (forall P Hp pt', size_components pt P Hp = Ok pt' ->
      forall P' Hp', exists split, get_power_split pt' P' Hp' = Ok split).

(** A segment with numeric altitudes and one of the six names. *)
Definition good_segment (seg : MissionSegment F) : bool :=
  is_num (altitude_start_ft seg) && is_num (altitude_end_ft seg)
  && existsb (String.eqb (seg_name seg))
       ["takeoff"; "climb"; "cruise"; "descent"; "loiter"; "landing"].
End readiness.

(** Sum of a per-segment value over a list of segments. *)
Definition total_of (f : MissionSegment R -> R) (l : list (MissionSegment R)) : R :=
  fold_right Rplus 0%R (map f l).

(** The six segment names, in the order of the mission. *)
Definition canonical_order : list string :=
  ["takeoff"; "climb"; "cruise"; "descent"; "loiter"; "landing"].

Section relaxation.
Context {F : Type} {AF : Arith F} {LF : Libm F}.
Local Open Scope py_scope.
Variable module_config : ConfigLoader F.

(** The relaxed fixed-point iteration as the specification words it: the
    iteration number [k] (counted from 0) of the sequence that starts at
    [guess] and passes from a guess TOGW_old with outcome TOGW_new to the
    guess 0.7 * TOGW_old + 0.3 * TOGW_new, with no stopping test. *)
Fixpoint relaxed_iteration (profile : list (string * F)) (k : nat)
  (self : HybridElectricAircraft F) (guess : F)
  : result (HybridElectricAircraft F * IterationVars F) :=
  match k with
  | O => sizing_iteration module_config self profile guess
  | S k' =>
      '(self', vars) <- sizing_iteration module_config self profile guess ;;
      relaxed_iteration profile k' self'
        (#0.7 * guess + #0.3 * it_TOGW_new_lb vars)
  end.
End relaxation.

Section battery_vocabulary.
Context {F : Type} {AF : Arith F}.
Local Open Scope py_scope.

(** A technology with no battery: the test
    [battery_specific_energy_Wh_kg > 0 and battery_DOD > 0] of the battery
    block is false, because the specific energy is zero (or anything that is
    not greater than zero), or because the depth of discharge is. *)
Definition no_battery (tech : TechnologySpec F) : Prop :=
  exists se : F,
    num (battery_specific_energy_Wh_kg tech) = Ok se
    /\ ((se >? #0) = false
        \/ exists dod : F,
             num (battery_DOD tech) = Ok dod /\ (dod >? #0) = false).

(** The battery block of the branch of [size_aircraft] that sizes no
    battery. *)
Definition no_battery_block : BatterySizing F :=
  {| bs_W_battery_lb := #0.0;
     bs_W_battery_Wh := #0.0;
     bs_W_battery_kWh := #0.0;
     bs_max_battery_power_kW := #0.0;
     bs_max_power_segment := "N/A";
     bs_c_rate_actual := #0.0;
     bs_c_rate_max := #0.0;
     bs_sizing_constraint := "N/A" |}.

(** [zero_laws zero_like]: the predicate [zero_like] holds of 0, is kept by
    the operations the code applies to a consumption that starts as a
    product with the literal 0.0 (products, quotients and sums), and no two
    values it holds of are in strict order.  Over the reals the predicate
    "is 0" has these laws; over binary64 "is a zero or NaN" has them, and
    "is 0.0" has not, since 0.0 * t is NaN for a [t] that is infinite or
    NaN. *)
Record zero_laws (zero_like : F -> Prop) : Prop := {
  zero_literal : zero_like #0;
  zero_mul_l : forall x c : F, zero_like x -> zero_like (x * c);
  zero_mul_r : forall x c : F, zero_like x -> zero_like (c * x);
  zero_div : forall x d : F, zero_like x -> zero_like (x / d);
  zero_add : forall x y : F, zero_like x -> zero_like y -> zero_like (x + y);
  zero_ltb : forall x y : F, zero_like x -> zero_like y -> (x <? y) = false;
}.
End battery_vocabulary.


(** The names [set_powertrain] knows. *)
Definition architectures : list string :=
  ["conventional"; "parallel"; "serial"; "electric"; "dual_motor_dep";
   "multi_engine"].

Section mission_vocabulary.
Context {F : Type}.

(** The three totals of a mission result, when the simulation returns.  *)
Definition totals (res : result (MissionResults F)) : result (F * F * F) :=
  x <- res ;; Ok (total_fuel_lb x, total_battery_Wh x, total_time_sec x).

(** Two segments that differ at most in the blown-lift flag and in the
    results they hold. *)
Definition same_leg (seg seg' : MissionSegment F) : Prop :=
  seg_name seg = seg_name seg'
  /\ altitude_start_ft seg = altitude_start_ft seg'
  /\ altitude_end_ft seg = altitude_end_ft seg'
  /\ Hp seg = Hp seg'.
End mission_vocabulary.

Section sizing_vocabulary.
Context {F : Type} {AF : Arith F}.

(** Calls of [size_components] one after the other, each on the powertrain
    the call before it left. *)
Fixpoint size_in_turn (pt : Powertrain F) (calls : list (F * F))
  : result (Powertrain F) :=
  match calls with
  | [] => Ok pt
  | (P_shaft_kW, Hp) :: rest =>
      pt' <- size_components pt P_shaft_kW Hp ;;
      size_in_turn pt' rest
  end.
End sizing_vocabulary.

(** * Properties *)

(** ** Proof tools *)

(** Literals and operations of the real instance, unfolded to [R]. *)
Ltac lit_R :=
  repeat match goal with
  | |- context [@lit R ?i ?d] =>
      let d' := eval vm_compute in d in
      lazymatch d' with
      | Dec ?m O => change (@lit R i d) with (IZR m)
      | Dec ?m ?k => let p := eval vm_compute in (10 ^ Z.of_nat k)%Z in
                     change (@lit R i d) with (IZR m / IZR p)%R
      end
  | H : context [@lit R ?i ?d] |- _ =>
      let d' := eval vm_compute in d in
      lazymatch d' with
      | Dec ?m O => change (@lit R i d) with (IZR m) in H
      | Dec ?m ?k => let p := eval vm_compute in (10 ^ Z.of_nat k)%Z in
                     change (@lit R i d) with (IZR m / IZR p)%R in H
      end
  end.

Ltac arith_R :=
  cbn [add sub mul div opp py_abs np_sqrt ltb leb of_Z R_arith] in *; lit_R.

Lemma Rltb_true (x y : R) : (x < y)%R -> Rltb x y = true.
Proof. intros H. unfold Rltb. destruct (Rlt_dec x y); [reflexivity | contradiction]. Qed.

Lemma Rltb_false (x y : R) : (y <= x)%R -> Rltb x y = false.
Proof. intros H. unfold Rltb. destruct (Rlt_dec x y); [lra | reflexivity]. Qed.

Lemma Rltb_spec (x y : R) : BoolSpec (x < y)%R (y <= x)%R (Rltb x y).
Proof. unfold Rltb. destruct (Rlt_dec x y); constructor; lra. Qed.

(** [num] raises nothing but TypeError. *)
Lemma num_raise {F} `{Arith F} (v : pyval F) (err : exn) :
  num v = Raise err -> err = TypeError.
Proof. destruct v as [|[]| | | |]; simpl; congruence. Qed.

(** One step of inversion of a successful [bind]. *)
Lemma bind_ok {A B} (m : result A) (k : A -> result B) (b : B) :
  bind m k = Ok b -> exists a, m = Ok a /\ k a = Ok b.
Proof. destruct m; simpl; [eauto | discriminate]. Qed.

(** Inversion of a chain of binds that succeeded. *)
Ltac inv_ok H :=
  cbn [bind] in H;
  lazymatch type of H with
  | bind ?m _ = Ok _ =>
      let E := fresh "E" in
      destruct m eqn:E; [ | discriminate H];
      inv_ok E; inv_ok H
  | (let (_, _) := ?p in _) = Ok _ =>
      is_var p; destruct p; inv_ok H
  | _ => idtac
  end.

(** Equations between successful results, turned into substitutions. *)
Ltac ok_inj :=
  repeat match goal with
  | H : Ok _ = Ok _ |- _ => injection H; clear H; intros; subst
  end.

(** A value arithmetic accepts has a number. *)
Lemma is_num_num {F} `{Arith F} (v : pyval F) :
  is_num v = true -> exists x, num v = Ok x.
Proof. destruct v as [|[]| | | |]; simpl; try discriminate; eauto. Qed.

(** A number is formatted without error. *)
Lemma format_float_num {F} `{Arith F} (v : pyval F) :
  is_num v = true -> format_float v = Ok tt.
Proof. destruct v as [|[]| | | |]; simpl; try discriminate; reflexivity. Qed.

(** What is formatted without error is a number. *)
Lemma format_float_ok {F} `{Arith F} (v : pyval F) (u : unit) :
  format_float v = Ok u -> exists x, num v = Ok x.
Proof. destruct v as [|[]| | | |]; simpl; try discriminate; eauto. Qed.

(** The conjuncts of [ready], then their numbers, then the binds they
    decide. *)
Ltac split_ready H :=
  unfold ready in H;
  repeat (apply andb_prop in H; let H' := fresh "Hn" in destruct H as [H H']).

Ltac use_nums :=
  repeat match goal with
  | Hn : is_num ?v = true |- _ =>
      let x := fresh "x" in let E := fresh "E" in
      destruct (is_num_num _ Hn) as [x E]; clear Hn
  end.

Ltac run :=
  repeat first
    [ progress cbn [bind]
    | match goal with E : ?m = Ok _ |- context [bind ?m _] => rewrite E end ].

(** Names for the values that calls evaluate to. *)
Ltac name_result H x :=
  match type of H with _ = Ok ?v => set (x := v) in * end.

(** ** Lift augmentation (C9) *)

Local Open Scope py_scope.

(** C9.  With the blown-lift flag active and the distributed-propulsion
    system enabled, [get_lift_augmentation_factor] returns exactly
    1 + (lift_aug_max - 1) * blown_span_fraction, in any arithmetic; for
    lift_aug_max = 1.8 and blown_span_fraction = 0.65 that value is exactly
    1.52, in binary64 as in exact arithmetic; with the flag inactive or the
    system disabled it returns exactly 1.0, whatever the other attributes
    hold. *)
Theorem get_lift_augmentation_factor_exact :
  (forall (F : Type) (AF : Arith F) (self : HybridElectricAircraft F)
          (lift_aug_max blown_span_fraction : F),
      truthy (dep_enabled self) = true ->
      dep_lift_aug_max self = VNum lift_aug_max ->
      dep_blown_span_fraction self = VNum blown_span_fraction ->
      get_lift_augmentation_factor self true
      = Ok (#1.0 + (lift_aug_max - #1.0) * blown_span_fraction))
  /\ (forall self : HybridElectricAircraft float,
      truthy (dep_enabled self) = true ->
      dep_lift_aug_max self = VNum #1.8 ->
      dep_blown_span_fraction self = VNum #0.65 ->
      get_lift_augmentation_factor self true = Ok #1.52)
  /\ (forall self : HybridElectricAircraft R,
      truthy (dep_enabled self) = true ->
      dep_lift_aug_max self = VNum #1.8 ->
      dep_blown_span_fraction self = VNum #0.65 ->
      get_lift_augmentation_factor self true = Ok #1.52)
  /\ (forall (F : Type) (AF : Arith F) (self : HybridElectricAircraft F)
             (blown_lift_active : bool),
      blown_lift_active = false \/ truthy (dep_enabled self) = false ->
      get_lift_augmentation_factor self blown_lift_active = Ok #1.0).
Proof.
  assert (formula : forall (F : Type) (AF : Arith F) (self : HybridElectricAircraft F)
                           (a s : F),
             truthy (dep_enabled self) = true ->
             dep_lift_aug_max self = VNum a ->
             dep_blown_span_fraction self = VNum s ->
             get_lift_augmentation_factor self true = Ok (#1.0 + (a - #1.0) * s)).
  { intros F AF self a s Hen Ha Hs. unfold get_lift_augmentation_factor.
    rewrite Hen, Ha, Hs. reflexivity. }
  repeat split.
  - exact formula.
  - intros self Hen Ha Hs. rewrite (formula _ _ self _ _ Hen Ha Hs).
    apply f_equal. vm_compute. reflexivity.
  - intros self Hen Ha Hs. rewrite (formula _ _ self _ _ Hen Ha Hs).
    apply f_equal. arith_R. lra.
  - intros F AF self blown [-> | Hdis]; unfold get_lift_augmentation_factor.
    + reflexivity.
    + rewrite Hdis. rewrite orb_true_r. reflexivity.
Qed.

(** The aircraft built from [blown_config], in binary64, has the factor 1.52
    with the flag active and 1.0 with the flag inactive. *)
Lemma get_lift_augmentation_factor_exact_witness :
  exists self : HybridElectricAircraft float,
    HybridElectricAircraft_init "eSTOL-19" blown_config = Ok self
    /\ get_lift_augmentation_factor self true = Ok #1.52
    /\ get_lift_augmentation_factor self false = Ok #1.0.
Proof.
  eexists. split; [vm_compute; reflexivity | split].
  - apply (proj1 (proj2 get_lift_augmentation_factor_exact)); reflexivity.
  - apply (proj2 (proj2 (proj2 get_lift_augmentation_factor_exact))).
    left. reflexivity.
Defined.

(** ** Power splits (C4, C5, C10) *)

(** C10.  A dual-motor powertrain as its constructor leaves it, before any
    call of [size_components], answers [get_power_split] without raising:
    the split returned has its four fields zero, whatever the power demand
    and the hybridization ratio. *)
Theorem dual_motor_split_before_sizing :
  forall (F : Type) (AF : Arith F) (tech_spec : TechnologySpec F)
         (config : pyval F) (self : DualMotorDEP F) (P_required_kW Hp : F),
    DualMotorDEPPowertrain tech_spec config = Ok self ->
    get_power_split (DualMotor self) P_required_kW Hp
    = Ok {| split_P_GT_kW := #0.0;
            split_P_EM_kW := #0.0;
            fuel_rate_kg_s := #0.0;
            battery_power_W := #0.0 |}.
Proof.
  intros F AF tech_spec config self P Hp Hinit.
  unfold DualMotorDEPPowertrain in Hinit. inv_ok Hinit.
  injection Hinit as <-. reflexivity.
Qed.

(** A dual-motor powertrain built from [dual_motor_json], asked for 800 kW at
    Hp = 0.5 in binary64. *)
Lemma dual_motor_split_before_sizing_witness :
  exists self : DualMotorDEP float,
    DualMotorDEPPowertrain example_tech dual_motor_json = Ok self
    /\ get_power_split (DualMotor self) #800 #0.5
       = Ok {| split_P_GT_kW := #0.0;
               split_P_EM_kW := #0.0;
               fuel_rate_kg_s := #0.0;
               battery_power_W := #0.0 |}.
Proof.
  eexists. split; [vm_compute; reflexivity | ].
  apply (@dual_motor_split_before_sizing float float_arith example_tech dual_motor_json).
  vm_compute. reflexivity.
Defined.

(** C5.  In exact arithmetic, for every required power P and every Hp in
    [0, 1], the parallel-hybrid split has turbine power + motor power = P;
    at Hp = 0 the motor power and the battery draw are zero, at Hp = 1 the
    turbine power and the fuel rate are zero.  The turbine consumption rate
    and the motor efficiency are numbers, and the motor efficiency, by which
    the battery power is divided, is not zero. *)
Theorem parallel_split_sums_to_demand :
  forall (self : PowertrainBase R) (P_required_kW Hp bsfc em_eff : R),
    num (GT_BSFC_kg_kWh (tech self)) = Ok bsfc ->
    num (EM_efficiency (tech self)) = Ok em_eff ->
    em_eff <> 0%R ->
    (0 <= Hp <= 1)%R ->
    exists split : PowerSplit R,
      get_power_split (ParallelHybrid self) P_required_kW Hp = Ok split
      /\ (split_P_GT_kW split + split_P_EM_kW split)%R = P_required_kW
      /\ (Hp = 0%R -> split_P_EM_kW split = 0%R /\ battery_power_W split = 0%R)
      /\ (Hp = 1%R -> split_P_GT_kW split = 0%R /\ fuel_rate_kg_s split = 0%R).
Proof.
  intros self P Hp bsfc em_eff Hb He _ _.
  unfold get_power_split, Parallel_get_power_split.
  rewrite Hb, He. cbn [bind]. eexists. split; [reflexivity | ].
  cbn [split_P_GT_kW split_P_EM_kW fuel_rate_kg_s battery_power_W].
  arith_R. unfold Rdiv. split; [ring | ].
  split; intros ->; split; ring.
Qed.

(** A parallel hybrid asked for 1000 kW at Hp = 0.3. *)
Lemma parallel_split_sums_to_demand_witness :
  exists split : PowerSplit R,
    get_power_split (ParallelHybrid (ParallelHybridPowertrain example_tech))
      1000%R (3 / 10)%R = Ok split
    /\ (split_P_GT_kW split + split_P_EM_kW split)%R = 1000%R.
Proof.
  destruct (@parallel_split_sums_to_demand (ParallelHybridPowertrain example_tech)
              1000%R (3 / 10)%R (#0.3) (#0.95) eq_refl eq_refl)
    as [split [Hsplit [Hsum _]]].
  - arith_R. lra.
  - lra.
  - exists split. split; assumption.
Defined.

(** C4.  In exact arithmetic, for a serial hybrid that [size_components] has
    sized: for every required power P the generator load is at most the
    rating P_GEN_kW (and is what the turbine is asked to drive); the battery
    supplies exactly the electrical shortfall,
    max(0, P / EM_efficiency - P_GEN_kW) * 1000 W, which is zero whenever
    the electrical demand is at most the rating; and the split is the same
    for every Hp. *)
Theorem serial_split_capacity_limited :
  forall (self sized : PowertrainBase R) (P_shaft_kW Hp_design bsfc : R)
         (P_required_kW Hp : R),
    Serial_size_components self P_shaft_kW Hp_design = Ok sized ->
    num (GT_BSFC_kg_kWh (tech self)) = Ok bsfc ->
    exists (em_eff gen_eff P_generator_kW : R) (split : PowerSplit R),
      num (EM_efficiency (tech sized)) = Ok em_eff
      /\ num (GEN_efficiency (tech sized)) = Ok gen_eff
      /\ Serial_P_generator_kW sized P_required_kW = Ok P_generator_kW
      /\ (P_generator_kW <= P_GEN_kW sized)%R
      /\ get_power_split (SerialHybrid sized) P_required_kW Hp = Ok split
      /\ split_P_GT_kW split = (P_generator_kW / gen_eff)%R
      /\ battery_power_W split
         = (Rmax 0 (P_required_kW / em_eff - P_GEN_kW sized) * 1000)%R
      /\ ((P_required_kW / em_eff <= P_GEN_kW sized)%R ->
          battery_power_W split = 0%R)
      /\ (forall Hp' : R,
            get_power_split (SerialHybrid sized) P_required_kW Hp' = Ok split).
Proof.
  intros self sized P_shaft Hp_d bsfc P Hp Hsize Hb.
  unfold Serial_size_components in Hsize. inv_ok Hsize.
  injection Hsize as <-.
  unfold get_power_split, Serial_get_power_split, Serial_P_generator_kW.
  cbn [tech P_GEN_kW]. rewrite E, E0, Hb. cbn [bind].
  exists a, a0. eexists. eexists.
  do 3 (split; [reflexivity | ]).
  set (rating := (P_shaft / a)%py). set (demand := (P / a)%py).
  assert (Hmin : (py_min demand rating <= rating)%R).
  { unfold py_min. arith_R. destruct (Rltb_spec rating demand); lra. }
  assert (Hbat : (py_max #0 (demand - py_min demand rating) * #1000)%py
                 = (Rmax 0 (demand - rating) * 1000)%R).
  { unfold py_min, py_max. arith_R.
    destruct (Rltb_spec rating demand) as [Hlt | Hle].
    - destruct (Rltb_spec 0 (demand - rating)) as [Hpos | Hneg]; [ | lra].
      rewrite Rmax_right by lra. reflexivity.
    - destruct (Rltb_spec 0 (demand - demand)) as [Hpos | Hneg]; [lra | ].
      rewrite Rmax_left by lra. reflexivity. }
  subst rating demand.
  split; [exact Hmin | ].
  do 2 (split; [reflexivity | ]).
  cbn [battery_power_W]. split; [exact Hbat | ].
  split; [ | reflexivity].
  intros Hle. etransitivity; [exact Hbat | ].
  arith_R. rewrite Rmax_left by lra. lra.
Qed.

(** A serial hybrid sized for 500 kW at Hp = 0.5, asked for 600 kW. *)
Lemma serial_split_capacity_limited_witness :
  exists (sized : PowertrainBase R) (split : PowerSplit R),
    Serial_size_components (SerialHybridPowertrain example_tech) 500%R (1 / 2)%R
    = Ok sized
    /\ get_power_split (SerialHybrid sized) 600%R 0%R = Ok split
    /\ get_power_split (SerialHybrid sized) 600%R 1%R = Ok split.
Proof.
  eexists.
  destruct (@serial_split_capacity_limited (SerialHybridPowertrain example_tech)
              _ 500%R (1 / 2)%R (#0.3) 600%R 0%R eq_refl eq_refl)
    as (em_eff & gen_eff & gen & split & _ & _ & _ & _ & Hsplit & _ & _ & _ & Hany).
  exists split. split; [reflexivity | ]. split; [exact Hsplit | apply Hany].
Defined.

(** ** What a sizing run reads and what it writes *)

Section frame.
Context {F : Type} {AF : Arith F} {LF : Libm F}.
Variable module_config : ConfigLoader F.
Implicit Types a b c : HybridElectricAircraft F.

Lemma size_components_overwrite (pt pt' : Powertrain F) (P Hp : F) :
  size_components pt P Hp = Ok pt' ->
  forall P2 Hp2, size_components pt' P2 Hp2 = size_components pt P2 Hp2.
Proof.
  intros Hs P2 Hp2. destruct pt as [b | b | b | b | b x | d]; cbn [size_components] in Hs.
  - unfold Conventional_size_components in Hs. inv_ok Hs. ok_inj. reflexivity.
  - unfold Parallel_size_components in Hs. inv_ok Hs. ok_inj. reflexivity.
  - unfold Serial_size_components in Hs. inv_ok Hs. ok_inj. reflexivity.
  - unfold Electric_size_components in Hs. inv_ok Hs. ok_inj. reflexivity.
  - unfold Multi_size_components in Hs. inv_ok Hs. ok_inj. reflexivity.
  - unfold Dual_size_components, size_cruise_motors in Hs. inv_ok Hs. ok_inj. reflexivity.
Qed.

Lemma design_only_constraint a b g :
  design_only a b -> constraint_analysis b g = constraint_analysis a g.
Proof. intros D. induction D; [reflexivity | rewrite <- IHD; reflexivity ..]. Qed.

Lemma design_only_fields a b :
  design_only a b ->
  powertrain b = powertrain a /\ ac_tech b = ac_tech a
  /\ W_payload_lb b = W_payload_lb a /\ range_nm b = range_nm a
  /\ Hp_design b = Hp_design a /\ hybridization_profile b = hybridization_profile a.
Proof. intros D. induction D; [repeat split | exact IHD ..]. Qed.

Lemma design_only_create_mission a b p o :
  design_only a b -> create_mission b p o = create_mission a p o.
Proof. intros D. induction D; [reflexivity | rewrite <- IHD; reflexivity ..]. Qed.

Lemma design_only_segment a b seg W S :
  design_only a b ->
  simulate_segment module_config b seg W S = simulate_segment module_config a seg W S.
Proof. intros D. induction D; [reflexivity | rewrite <- IHD; reflexivity ..]. Qed.

Lemma design_only_mission_loop a b todo S W tf tb tt :
  design_only a b ->
  mission_loop module_config b todo S W tf tb tt
  = mission_loop module_config a todo S W tf tb tt.
Proof.
  intros D. revert W tf tb tt.
  induction todo as [ | seg rest IH]; intros W tf tb tt; [reflexivity | ].
  cbn [mission_loop]. rewrite (design_only_segment seg W S D).
  destruct (simulate_segment module_config a seg W S) as [[seg' [[t f] bw]] | err];
    cbn [bind]; [ | reflexivity].
  rewrite IH. reflexivity.
Qed.

Lemma design_only_simulate_mission a b segs W S :
  design_only a b ->
  simulate_mission module_config b segs W S = simulate_mission module_config a segs W S.
Proof.
  intros D. unfold simulate_mission. rewrite (design_only_mission_loop _ _ _ _ _ _ D).
  reflexivity.
Qed.

Lemma design_only_with_powertrain a b pt :
  design_only a b -> design_only (with_powertrain a pt) (with_powertrain b pt).
Proof.
  intros D. induction D.
  - constructor.
  - change (design_only (with_powertrain a pt)
              (assign_weight_breakdown (with_powertrain b pt) bd)).
    constructor. exact IHD.
  - change (design_only (with_powertrain a pt)
              (assign_design (with_powertrain b pt) togw oew wf wb sw ws)).
    constructor. exact IHD.
Qed.

Lemma design_only_assign_breakdown a b bd :
  design_only a b ->
  design_only (assign_weight_breakdown a bd) (assign_weight_breakdown b bd).
Proof.
  intros D. induction D.
  - constructor.
  - exact IHD.
  - change (design_only (assign_weight_breakdown a bd)
              (assign_design (assign_weight_breakdown b bd) togw oew wf wb sw ws)).
    constructor. exact IHD.
Qed.

Lemma design_only_calculate_OEW a b g S a1 oew :
  design_only a b ->
  calculate_OEW a g S = Ok (a1, oew) ->
  exists b1, calculate_OEW b g S = Ok (b1, oew) /\ design_only a1 b1.
Proof.
  intros D H. assert (HAR : AR b = AR a) by (induction D; [reflexivity | exact IHD ..]).
  destruct (design_only_fields D) as (Hpt & _).
  unfold calculate_OEW, the_powertrain in *. rewrite HAR, Hpt.
  inv_ok H. ok_inj. cbn [bind]. eexists. split; [reflexivity | ].
  apply design_only_assign_breakdown. exact D.
Qed.


Lemma design_only_resized a b : design_only a b -> resized a b.
Proof. intros D. induction D; constructor; assumption. Qed.

Lemma resized_trans a b c : resized a b -> resized b c -> resized a c.
Proof.
  intros Hab Hbc. induction Hbc.
  - exact Hab.
  - constructor. exact IHHbc.
  - constructor. exact IHHbc.
  - econstructor; eassumption.
Qed.

Lemma resized_constraint a b g :
  resized a b -> constraint_analysis b g = constraint_analysis a g.
Proof. intros D. induction D; [reflexivity | rewrite <- IHD; reflexivity ..]. Qed.

Lemma resized_fields a b :
  resized a b ->
  ac_tech b = ac_tech a
  /\ W_payload_lb b = W_payload_lb a /\ range_nm b = range_nm a
  /\ cruise_speed_kts b = cruise_speed_kts a /\ cruise_alt_ft b = cruise_alt_ft a
  /\ Hp_design b = Hp_design a /\ hybridization_profile b = hybridization_profile a.
Proof. intros D. induction D; [repeat split | exact IHD ..]. Qed.

Lemma resized_same_sizing a b :
  resized a b -> same_sizing (powertrain a) (powertrain b).
Proof.
  intros D. induction D.
  - unfold same_sizing. destruct (powertrain a); [reflexivity | exact I].
  - exact IHD.
  - exact IHD.
  - cbn [with_powertrain assign_powertrain powertrain].
    rewrite H in IHD. unfold same_sizing in *.
    destruct (powertrain a) as [p | ]; [ | contradiction].
    intros P2 Hp2. rewrite (size_components_overwrite _ _ _ H0). apply IHD.
Qed.

Lemma resized_with_powertrain a b pt :
  resized a b -> design_only (with_powertrain a pt) (with_powertrain b pt).
Proof.
  intros D. induction D.
  - constructor.
  - change (design_only (with_powertrain a pt)
              (assign_weight_breakdown (with_powertrain b pt) bd)).
    constructor. exact IHD.
  - change (design_only (with_powertrain a pt)
              (assign_design (with_powertrain b pt) togw oew wf wb sw ws)).
    constructor. exact IHD.
  - exact IHD.
Qed.

Lemma resized_header a b p :
  resized a b -> size_aircraft_header b p = size_aircraft_header a p.
Proof.
  intros D. pose proof (resized_same_sizing D) as Hpt.
  destruct (resized_fields D) as (_ & Hw & Hr & Hs & Hal & Hhp & Hprof).
  unfold size_aircraft_header. rewrite Hw, Hr, Hs, Hal, Hhp, Hprof.
  unfold same_sizing in Hpt.
  destruct (powertrain a), (powertrain b); try contradiction; reflexivity.
Qed.

Lemma sizing_iteration_resized a prof g a1 v :
  sizing_iteration module_config a prof g = Ok (a1, v) -> resized a a1.
Proof.
  intros H. unfold sizing_iteration in H. inv_ok H. ok_inj.
  unfold calculate_OEW in E2. inv_ok E2. ok_inj.
  unfold the_powertrain in E0. destruct (powertrain a) eqn:Hpt; [ | discriminate].
  ok_inj. constructor. econstructor; [constructor | eassumption | eassumption].
Qed.

Lemma sizing_iteration_frame a b prof g a1 v :
  resized a b ->
  sizing_iteration module_config a prof g = Ok (a1, v) ->
  exists b1, sizing_iteration module_config b prof g = Ok (b1, v)
             /\ design_only a1 b1.
Proof.
  intros D H. pose proof (resized_same_sizing D) as Hpt.
  destruct (resized_fields D) as (_ & _ & _ & _ & _ & Hhp & _).
  unfold sizing_iteration in *. rewrite (resized_constraint g D).
  inv_ok H. ok_inj. cbn [bind].
  unfold the_powertrain in *. unfold same_sizing in Hpt.
  destruct (powertrain a) as [p | ]; [ | discriminate].
  destruct (powertrain b) as [q | ]; [ | contradiction].
  ok_inj. cbn [bind]. rewrite Hhp, Hpt, E1. cbn [bind].
  lazymatch goal with
  | Hoew : calculate_OEW (with_powertrain a ?pt) _ _ = Ok _ |- _ =>
      destruct (design_only_calculate_OEW _ _ (resized_with_powertrain pt D) Hoew)
        as (b1 & Hoew' & D1)
  end.
  rewrite Hoew'. cbn [bind].
  destruct (design_only_fields D1) as (_ & Htech & Hw & _).
  rewrite (design_only_create_mission _ _ D1), (design_only_simulate_mission _ _ _ D1).
  rewrite E3. cbn [bind]. rewrite Htech, E4. cbn [bind]. rewrite Hw, E5. cbn [bind].
  eexists. split; [reflexivity | exact D1].
Qed.

Lemma sizing_loop_resized n tol prof a g last a_n l :
  sizing_loop module_config n tol prof a g last = Ok (a_n, l) -> resized a a_n.
Proof.
  revert a g last. induction n as [ | n IH]; intros a g last H; cbn [sizing_loop] in H.
  - ok_inj. constructor.
  - destruct (sizing_iteration module_config a prof g) as [[a1 v] | err] eqn:E;
      cbn [bind] in H; [ | discriminate].
    pose proof E as R1. apply sizing_iteration_resized in R1.
    destruct (it_error v <? tol).
    + ok_inj. exact R1.
    + apply (resized_trans R1). eapply IH. exact H.
Qed.

Lemma sizing_loop_frame n tol prof a b g last a_n l :
  resized a b ->
  sizing_loop module_config n tol prof a g last = Ok (a_n, l) ->
  exists b_n, sizing_loop module_config n tol prof b g last = Ok (b_n, l)
              /\ resized a_n b_n.
Proof.
  revert a b g last. induction n as [ | n IH]; intros a b g last D H;
    cbn [sizing_loop] in *.
  - ok_inj. exists b. split; [reflexivity | exact D].
  - destruct (sizing_iteration module_config a prof g) as [[a1 v] | err] eqn:E;
      cbn [bind] in H; [ | discriminate].
    destruct (sizing_iteration_frame _ _ D E) as (b1 & Hb & D1).
    rewrite Hb. cbn [bind].
    destruct (it_error v <? tol).
    + ok_inj. exists b1. split; [reflexivity | apply design_only_resized; exact D1].
    + eapply IH; [apply design_only_resized; exact D1 | exact H].
Qed.

Lemma size_aircraft_results_frame a b tol v a2 r :
  resized a b ->
  size_aircraft_results a tol v = Ok (a2, r) ->
  resized a a2
  /\ exists b2, size_aircraft_results b tol v = Ok (b2, r).
Proof.
  intros D H. destruct (resized_fields D) as (_ & Hw & Hr & _).
  unfold size_aircraft_results in *.
  cbn [W_payload_lb range_nm assign_design WS_psf] in *. rewrite Hw, Hr.
  inv_ok H. ok_inj. cbn [bind]. split.
  - constructor. constructor.
  - eexists. reflexivity.
Qed.

Lemma size_aircraft_inv a n tol p a' r :
  size_aircraft module_config a n tol p = Ok (a', r) ->
  exists profile a_n vars,
    size_aircraft_header a p = Ok profile
    /\ sizing_loop module_config n tol profile a #15000 None = Ok (a_n, Some vars)
    /\ size_aircraft_results a_n tol vars = Ok (a', r).
Proof.
  intros H. unfold size_aircraft in H. inv_ok H.
  destruct o as [vars | ]; [ | discriminate].
  eauto 6.
Qed.

Lemma size_aircraft_writes a n tol p a' r :
  size_aircraft module_config a n tol p = Ok (a', r) -> resized a a'.
Proof.
  intros H. apply size_aircraft_inv in H.
  destruct H as (profile & a_n & vars & Hh & Hl & Hr).
  apply sizing_loop_resized in Hl.
  edestruct size_aircraft_results_frame as (R2 & _);
    [apply (resized_refl a_n) | exact Hr | ].
  exact (resized_trans Hl R2).
Qed.

Lemma size_aircraft_frame a b n tol p a' r :
  resized a b ->
  size_aircraft module_config a n tol p = Ok (a', r) ->
  exists b', size_aircraft module_config b n tol p = Ok (b', r).
Proof.
  intros R H. apply size_aircraft_inv in H.
  destruct H as (profile & a_n & vars & Hh & Hl & Hr).
  edestruct sizing_loop_frame as (b_n & Hl' & Rn); [exact R | exact Hl | ].
  edestruct size_aircraft_results_frame as (_ & b2 & Hr'); [exact Rn | exact Hr | ].
  exists b2. unfold size_aircraft.
  rewrite (resized_header p R), Hh. cbn [bind]. rewrite Hl'. cbn [bind]. exact Hr'.
Qed.

(** C8.  Running [size_aircraft] a second time, on the aircraft the first
    run left behind (its powertrain re-sized, its weight breakdown and
    design variables overwritten) and with the same arguments, returns the
    same result dict: nothing the first run wrote is read by the second
    before it is written again. *)
Theorem size_aircraft_deterministic :
  forall (self after : HybridElectricAircraft F) (max_iterations : nat)
         (tolerance : F) (profile : option (list (string * F)))
         (results : SizingResult F),
    size_aircraft module_config self max_iterations tolerance profile
    = Ok (after, results) ->
    exists after' : HybridElectricAircraft F,
      size_aircraft module_config after max_iterations tolerance profile
      = Ok (after', results).
Proof.
  intros a a' n tol p r H.
  eapply size_aircraft_frame; [ | exact H].
  eapply size_aircraft_writes. exact H.
Qed.
End frame.

(** ** The sizing run returns on ready inputs *)

Section totality.
Context {F : Type} {AF : Arith F} {LF : Libm F}.
Variable module_config : ConfigLoader F.
Implicit Types a b : HybridElectricAircraft F.


Lemma get_lift_augmentation_factor_total self blown :
  ready module_config self = true -> exists x, get_lift_augmentation_factor self blown = Ok x.
Proof.
  intros H. split_ready H. unfold get_lift_augmentation_factor.
  destruct (negb blown || negb (truthy (dep_enabled self))) eqn:E; [eauto | ].
  apply orb_false_elim in E. destruct E as [_ E].
  rewrite E in Hn. cbn [orb] in Hn.
  split_ready Hn. use_nums. run. eauto.
Qed.

Lemma get_highlift_motor_power_total self blown :
  ready module_config self = true ->
  exists x, get_highlift_motor_power module_config self blown = Ok x.
Proof.
  intros H. split_ready H. unfold get_highlift_motor_power.
  destruct (negb blown || negb (truthy (dep_enabled self))) eqn:E; [eauto | ].
  apply orb_false_elim in E. destruct E as [_ E].
  rewrite E in Hn. cbn [orb] in Hn.
  split_ready Hn. use_nums. run. eauto.
Qed.

Lemma consumption_total self seg split t :
  ready module_config self = true ->
  exists x, consumption module_config self seg split t = Ok x.
Proof.
  intros H. unfold consumption.
  destruct (@get_highlift_motor_power_total self (blown_lift_active seg) H) as [x ->].
  cbn [bind]. eauto.
Qed.

Lemma constraint_analysis_total self g :
  ready module_config self = true -> exists x, constraint_analysis self g = Ok x.
Proof.
  intros H. unfold constraint_analysis.
  assert (exists aug use,
             (if truthy (dep_enabled self) && truthy (dep_use_for_wing_sizing self)
              then aug <- get_lift_augmentation_factor self true ;; Ok (aug, true)
              else Ok (#1.0, false)) = Ok (aug, use)) as (aug & use & E).
  { destruct (_ && _); [ | eauto].
    destruct (@get_lift_augmentation_factor_total self true H) as [x ->]. cbn [bind]. eauto. }
  rewrite E. cbn [bind]. clear E.
  split_ready H. unfold perform_constraint_analysis.
  use_nums.
  destruct use; run; eexists; reflexivity.
Qed.

Lemma calculate_OEW_total self pt g S :
  ready module_config self = true -> powertrain self = Some pt ->
  exists bd oew, calculate_OEW self g S = Ok (assign_weight_breakdown self bd, oew).
Proof.
  intros H Hpt. split_ready H. unfold calculate_OEW, the_powertrain. rewrite Hpt.
  use_nums. run. eexists. eexists. reflexivity.
Qed.

Lemma simulate_segment_total self pt seg W S :
  ready module_config self = true -> powertrain self = Some pt ->
  (forall P Hp, exists split, get_power_split pt P Hp = Ok split) ->
  good_segment seg = true ->
  exists x, simulate_segment module_config self seg W S = Ok x.
Proof.
  intros H Hpt Hsplit Hseg.
  unfold good_segment in Hseg.
  apply andb_prop in Hseg. destruct Hseg as [Hseg Hname].
  apply andb_prop in Hseg. destruct Hseg as [Hs He].
  pose proof (fun blown => @get_lift_augmentation_factor_total self blown H) as Haug.
  pose proof (fun split t => @consumption_total self seg split t H) as Hcons.
  split_ready H. clear Hn. use_nums.
  unfold simulate_segment.
  repeat match goal with
  | |- context [if String.eqb (seg_name seg) ?s then _ else _] =>
      destruct (String.eqb (seg_name seg) s) eqn:?
  end.
  - unfold simulate_cruise_segment, the_powertrain. rewrite Hpt. run.
    destruct (Haug (blown_lift_active seg)) as [aug ->]. run.
    match goal with |- context [get_power_split pt ?P ?h] =>
      destruct (Hsplit P h) as [split ->] end. run.
    match goal with |- context [consumption _ _ _ ?s ?t] =>
      destruct (Hcons s t) as [[f bw] ->] end. run. eauto.
  - unfold simulate_climb_segment, the_powertrain. rewrite Hpt. run.
    destruct (Haug (blown_lift_active seg)) as [aug ->]. run.
    match goal with |- context [get_power_split pt ?P ?h] =>
      destruct (Hsplit P h) as [split ->] end. run.
    match goal with |- context [consumption _ _ _ ?s ?t] =>
      destruct (Hcons s t) as [[f bw] ->] end. run. eauto.
  - unfold simulate_descent_segment, the_powertrain. rewrite Hpt. run.
    destruct (Haug (blown_lift_active seg)) as [aug ->]. run.
    match goal with |- context [if ?c then _ else _] => destruct c end; run;
    (match goal with |- context [get_power_split pt ?P ?h] =>
      destruct (Hsplit P h) as [split ->] end; run;
    match goal with |- context [consumption _ _ _ ?s ?t] =>
      destruct (Hcons s t) as [[f bw] ->] end; run; eauto).
  - unfold simulate_takeoff_segment, the_powertrain. rewrite Hpt. run.
    destruct (Haug (blown_lift_active seg)) as [aug ->]. run.
    match goal with |- context [get_power_split pt ?P ?h] =>
      destruct (Hsplit P h) as [split ->] end. run.
    match goal with |- context [consumption _ _ _ ?s ?t] =>
      destruct (Hcons s t) as [[f bw] ->] end. run. eauto.
  - unfold simulate_loiter_segment, the_powertrain. rewrite Hpt. run.
    destruct (Haug (blown_lift_active seg)) as [aug ->]. run.
    match goal with |- context [get_power_split pt ?P ?h] =>
      destruct (Hsplit P h) as [split ->] end. run.
    match goal with |- context [consumption _ _ _ ?s ?t] =>
      destruct (Hcons s t) as [[f bw] ->] end. run. eauto.
  - unfold simulate_landing_segment, the_powertrain. rewrite Hpt. run.
    destruct (Haug (blown_lift_active seg)) as [aug ->]. run.
    match goal with |- context [get_power_split pt ?P ?h] =>
      destruct (Hsplit P h) as [split ->] end. run.
    match goal with |- context [consumption _ _ _ ?s ?t] =>
      destruct (Hcons s t) as [[f bw] ->] end. run. eauto.
  - exfalso. cbn [existsb] in Hname.
    repeat match goal with E : String.eqb _ _ = false |- _ => rewrite E in Hname; clear E end.
    discriminate.
Qed.

Lemma ready_resized a b : resized a b -> ready module_config b = ready module_config a.
Proof. intros D. induction D; [reflexivity | rewrite <- IHD; reflexivity ..]. Qed.

Lemma usable_same_sizing (p q : Powertrain F) :
  (forall P Hp, size_components q P Hp = size_components p P Hp) ->
  usable p -> usable q.
Proof.
  intros Hsame [H1 H2]. split.
  - intros P Hp. rewrite Hsame. apply H1.
  - intros P Hp pt' Hs. rewrite Hsame in Hs. eapply H2. exact Hs.
Qed.

Lemma usable_resized a b p :
  resized a b -> powertrain a = Some p -> usable p ->
  exists q, powertrain b = Some q /\ usable q.
Proof.
  intros D Hp Hu. pose proof (resized_same_sizing D) as Hs.
  rewrite Hp in Hs. unfold same_sizing in Hs.
  destruct (powertrain b) as [q | ]; [ | contradiction].
  exists q. split; [reflexivity | ]. eapply usable_same_sizing; eassumption.
Qed.

Lemma mission_loop_total self pt todo S W tf tb tt :
  ready module_config self = true -> powertrain self = Some pt ->
  (forall P Hp, exists split, get_power_split pt P Hp = Ok split) ->
  forallb good_segment todo = true ->
  exists x, mission_loop module_config self todo S W tf tb tt = Ok x.
Proof.
  intros H Hpt Hsplit. revert W tf tb tt.
  induction todo as [ | seg rest IH]; intros W tf tb tt Hgood; cbn [mission_loop].
  - eauto.
  - cbn [forallb] in Hgood. apply andb_prop in Hgood. destruct Hgood as [Hseg Hrest].
    destruct (@simulate_segment_total self pt seg W S H Hpt Hsplit Hseg)
      as [[seg' [[t f] bw]] ->].
    cbn [bind].
    edestruct IH as [[done final] ->]; [exact Hrest | ].
    cbn [bind]. eauto.
Qed.

Lemma create_mission_good self prof :
  ready module_config self = true ->
  forallb good_segment (create_mission self prof None) = true.
Proof.
  intros H. split_ready H. unfold create_mission. cbn [forallb].
  unfold good_segment, MissionSegment_new.
  cbn [altitude_start_ft altitude_end_ft seg_name is_num existsb String.eqb].
  repeat match goal with
  | Hn : is_num ?v = true |- context [is_num ?v] => rewrite Hn
  end.
  reflexivity.
Qed.

Lemma battery_sizing_total self mr :
  ready module_config self = true ->
  exists x, battery_sizing (ac_tech self) mr = Ok x.
Proof.
  intros H. split_ready H. clear Hn. use_nums. unfold battery_sizing. run.
  match goal with |- context [if ?c then _ else Ok false] => destruct c end; run.
  - match goal with |- context [if ?c then _ else _] => destruct c end; run.
    + destruct (peak_battery_power _ _ _). run. eauto.
    + eauto.
  - eauto.
Qed.

Lemma sizing_iteration_total self pt prof g :
  ready module_config self = true -> powertrain self = Some pt -> usable pt ->
  exists a1 v, sizing_iteration module_config self prof g = Ok (a1, v).
Proof.
  intros H Hpt [Hsize Hsplit]. unfold sizing_iteration.
  destruct (@constraint_analysis_total self g H) as [[ws P] ->]. cbn [bind].
  unfold the_powertrain at 1. rewrite Hpt. cbn [bind].
  destruct (Hsize P (Hp_design self)) as [pt' Hpt'].
  rewrite Hpt'. cbn [bind].
  set (self1 := with_powertrain self pt').
  assert (H1 : ready module_config self1 = true) by exact H.
  assert (Hpt1 : powertrain self1 = Some pt') by reflexivity.
  destruct (@calculate_OEW_total self1 pt' g (g / ws) H1 Hpt1) as (bd & oew & ->).
  cbn [bind].
  set (self2 := assign_weight_breakdown self1 bd).
  assert (H2 : ready module_config self2 = true) by exact H.
  assert (Hpt2 : powertrain self2 = Some pt') by reflexivity.
  unfold simulate_mission.
  edestruct (@mission_loop_total self2 pt' (create_mission self2 prof None))
    as [[done [[[Wf tf] tb] tt]] ->];
    [exact H2 | exact Hpt2 | eapply Hsplit; exact Hpt' | apply create_mission_good; exact H2 | ].
  cbn [bind].
  match goal with |- context [battery_sizing _ ?mr] =>
    destruct (@battery_sizing_total self2 mr H2) as [bat ->] end.
  cbn [bind].
  split_ready H2. use_nums. run. eauto.
Qed.

Lemma sizing_loop_total n tol prof self pt g last :
  ready module_config self = true -> powertrain self = Some pt -> usable pt ->
  exists a_n l,
    sizing_loop module_config n tol prof self g last = Ok (a_n, l)
    /\ (l = None -> n = O /\ last = None).
Proof.
  revert self pt g last.
  induction n as [ | n IH]; intros self pt g last H Hpt Hu; cbn [sizing_loop].
  - exists self, last. split; [reflexivity | auto].
  - destruct (@sizing_iteration_total self pt prof g H Hpt Hu) as (a1 & v & E).
    rewrite E. cbn [bind].
    destruct (it_error v <? tol).
    + exists a1, (Some v). split; [reflexivity | discriminate].
    + pose proof E as D. apply sizing_iteration_resized in D.
      destruct (usable_resized D Hpt Hu) as (q & Hq & Huq).
      edestruct (IH a1 q) as (a_n & l & El & Hl);
        [rewrite (ready_resized D); exact H | exact Hq | exact Huq | ].
      exists a_n, l. split; [exact El | ].
      intros ->. destruct (Hl eq_refl) as [_ Hlast]. discriminate.
Qed.

Lemma size_aircraft_header_total self pt p :
  ready module_config self = true -> powertrain self = Some pt ->
  exists profile, size_aircraft_header self p = Ok profile.
Proof.
  intros H Hpt. unfold size_aircraft_header. rewrite Hpt.
  split_ready H.
  repeat match goal with
  | Hn : is_num ?v = true |- context [format_float ?v] =>
      rewrite (format_float_num v Hn)
  end.
  cbn [bind]. eauto.
Qed.

Lemma size_aircraft_total self pt n tol p :
  ready module_config self = true -> powertrain self = Some pt -> usable pt ->
  exists a' r, size_aircraft module_config self (S n) tol p = Ok (a', r).
Proof.
  intros H Hpt Hu. unfold size_aircraft.
  destruct (@size_aircraft_header_total self pt p H Hpt) as [profile ->].
  cbn [bind].
  edestruct (@sizing_loop_total (S n) tol profile self pt) as (a_n & l & El & Hl);
    [exact H | exact Hpt | exact Hu | ].
  rewrite El. cbn [bind].
  destruct l as [v | ]; [ | destruct (Hl eq_refl); discriminate].
  apply sizing_loop_resized in El.
  rewrite <- (ready_resized El) in H.
  unfold size_aircraft_results.
  cbn [W_payload_lb range_nm assign_design].
  split_ready H. clear Hn. use_nums. run. eauto.
Qed.
End totality.

(** ** The mission simulation (C7) *)

Section inversion.
Context {F : Type} {AF : Arith F} {LF : Libm F}.
Variable module_config : ConfigLoader F.
Implicit Types a b : HybridElectricAircraft F.

Lemma consumption_inv a seg split t f bw :
  consumption module_config a seg split t = Ok (f, bw) ->
  f = fuel_rate_kg_s split * t * #2.20462.
Proof. intros H. unfold consumption in H. inv_ok H. ok_inj. reflexivity. Qed.

Ltac segment_inv H :=
  inv_ok H; ok_inj;
  match goal with
  | Hc : consumption _ _ _ _ _ = Ok _ |- _ => apply consumption_inv in Hc
  end;
  match goal with
  | Hp : the_powertrain ?a = Ok ?pt |- _ =>
      unfold the_powertrain in Hp;
      destruct (powertrain a) eqn:?; [ | discriminate Hp]
  end;
  ok_inj;
  split; [reflexivity | ];
  eexists; eexists; split; [reflexivity | ]; split; [eexists; eassumption | ];
  first [assumption | reflexivity].

Lemma simulate_segment_inv a seg W S seg' t f bw :
  simulate_segment module_config a seg W S = Ok (seg', (t, f, bw)) ->
  seg_name seg' = seg_name seg
  /\ exists pt split,
       powertrain a = Some pt
       /\ (exists P, get_power_split pt P (Hp seg) = Ok split)
       /\ f = fuel_rate_kg_s split * t * #2.20462.
Proof.
  intros H. unfold simulate_segment in H.
  repeat match type of H with
  | (if ?c then _ else _) = _ => destruct c
  end.
  - unfold simulate_cruise_segment in H. segment_inv H.
  - unfold simulate_climb_segment in H. segment_inv H.
  - unfold simulate_descent_segment in H. segment_inv H.
  - unfold simulate_takeoff_segment in H. segment_inv H.
  - unfold simulate_loiter_segment in H. segment_inv H.
  - unfold simulate_landing_segment in H. segment_inv H.
  - discriminate.
Qed.
End inversion.


Section mission_facts.
Variable module_config : ConfigLoader R.
Implicit Types self : HybridElectricAircraft R.

Lemma mission_loop_spec self todo S :
  forall W tf tb tt done W' tf' tb' tt',
    mission_loop module_config self todo S W tf tb tt
    = Ok (done, (W', tf', tb', tt')) ->
    map (@seg_name R) done = map (@seg_name R) todo
    /\ W' = (W - total_of (@fuel_lb R) done)%R
    /\ tf' = (tf + total_of (@fuel_lb R) done)%R
    /\ tb' = (tb + total_of (@battery_Wh R) done)%R
    /\ tt' = (tt + total_of (@time_sec R) done)%R
    /\ (forall k seg r,
          nth_error todo k = Some seg -> nth_error done k = Some r ->
          exists seg',
            simulate_segment module_config self seg
              (W - total_of (@fuel_lb R) (firstn k done))%R S
            = Ok (seg', (time_sec r, fuel_lb r, battery_Wh r))).
Proof.
  induction todo as [ | seg rest IH]; intros W tf tb tt done W' tf' tb' tt' H;
    cbn [mission_loop] in H.
  - ok_inj. unfold total_of. cbn. repeat split; try lra.
    intros [ | k] seg r; discriminate.
  - destruct (simulate_segment module_config self seg W S)
      as [[seg' [[t f] bw]] | err] eqn:Eseg; cbn [bind] in H; [ | discriminate].
    destruct (mission_loop module_config self rest S _ _ _ _)
      as [[done' [[[W1 tf1] tb1] tt1]] | err] eqn:Erest; cbn [bind] in H;
      [ | discriminate].
    ok_inj.
    destruct (IH _ _ _ _ _ _ _ _ _ Erest) as (Hn & HW & Hf & Hb & Ht & Hk).
    pose proof Eseg as Hname. apply simulate_segment_inv in Hname.
    destruct Hname as (Hname & _).
    unfold total_of in *. cbn [map fold_right assign_results seg_name fuel_lb battery_Wh time_sec].
    arith_R.
    split; [rewrite Hname, Hn; reflexivity | ].
    do 4 (split; [lra | ]).
    intros [ | k] s r Hs Hr; cbn [nth_error firstn map fold_right] in *.
    + ok_inj. injection Hs as <-. injection Hr as <-.
      cbn [time_sec fuel_lb battery_Wh assign_results].
      exists seg'.
      match goal with |- simulate_segment _ _ _ ?w _ = _ =>
        replace w with W by lra end.
      exact Eseg.
    + destruct (Hk k s r Hs Hr) as [s' Hs'].
      exists s'.
      match goal with
      | Hs' : simulate_segment _ _ _ ?w' _ = _ |- simulate_segment _ _ _ ?w _ = _ =>
          replace w with w' by (cbn [fuel_lb assign_results]; arith_R; lra)
      end.
      exact Hs'.
Qed.
End mission_facts.


(** ** Concrete aircraft *)

Section setups.
Context {F : Type} {AF : Arith F}.
Local Open Scope py_scope.

Lemma conventional_usable (b : PowertrainBase F) :
  is_num (GT_specific_power_kW_kg (tech b)) = true ->
  is_num (GT_BSFC_kg_kWh (tech b)) = true ->
  usable (Conventional b).
Proof.
  intros Hsp Hbsfc. use_nums. split.
  - intros P Hp. cbn [size_components]. unfold Conventional_size_components.
    run. eauto.
  - intros P Hp pt' Hs P' Hp'. cbn [size_components] in Hs.
    unfold Conventional_size_components in Hs. inv_ok Hs. ok_inj.
    cbn [get_power_split]. unfold Conventional_get_power_split. cbn [tech].
    run. eauto.
Qed.


(** The aircraft built from a configuration [sizing_json] with the
    conventional powertrain selected. *)
Lemma conventional_setup (with_bsfc : bool) (se dod : dec) (Hp : F) :
  exists (a a' : HybridElectricAircraft F) (b : PowertrainBase F),
    HybridElectricAircraft_init "eSTOL-19" {| config := sizing_json with_bsfc se dod |}
    = Ok a
    /\ set_powertrain a "conventional" Hp None = Ok a'
    /\ powertrain a' = Some (Conventional b)
    /\ (forall module_config, ready module_config a' = true)
    /\ is_num (GT_specific_power_kW_kg (tech b)) = true
    /\ GT_BSFC_kg_kWh (tech b) = (if with_bsfc then VNum #0.3 else VNone)
    /\ battery_specific_energy_Wh_kg (ac_tech a') = VNum (lit se)
    /\ battery_DOD (ac_tech a') = VNum (lit dod / #100).
Proof.
  do 3 eexists. split; [reflexivity | ]. split; [reflexivity | ].
  split; [reflexivity | ]. split; [intros module_config; reflexivity | ].
  destruct with_bsfc; repeat split; reflexivity.
Qed.

End setups.

(** ** The mission simulation: order, weight and totals (C7) *)

Lemma unknown_segment_raises {F} {AF : Arith F} {LF : Libm F}
  (module_config : ConfigLoader F) (self : HybridElectricAircraft F)
  (seg : MissionSegment F) (W S : F) :
  ~ In (seg_name seg) canonical_order ->
  simulate_segment module_config self seg W S
  = Raise (ValueError ("Unknown segment type: " ++ seg_name seg)).
Proof.
  intros Hname. unfold simulate_segment.
  repeat match goal with
  | |- context [if String.eqb (seg_name seg) ?s then _ else _] =>
      let E := fresh "E" in
      destruct (String.eqb (seg_name seg) s) eqn:E;
      [ exfalso; apply Hname; apply String.eqb_eq in E; rewrite E;
        unfold canonical_order; cbn [In]; tauto | ]
  end.
  reflexivity.
Qed.

Lemma unknown_segment_fails {F} {AF : Arith F} {LF : Libm F}
  (module_config : ConfigLoader F) (self : HybridElectricAircraft F)
  (segs : list (MissionSegment F)) (S : F) :
  Exists (fun seg => ~ In (seg_name seg) canonical_order) segs ->
  forall W tf tb tt,
  exists err, mission_loop module_config self segs S W tf tb tt = Raise err.
Proof.
  intros Hex. induction Hex as [seg rest Hbad | seg rest _ IH]; intros W tf tb tt;
    cbn [mission_loop].
  - rewrite (unknown_segment_raises _ _ _ _ _ Hbad). cbn [bind]. eauto.
  - destruct (simulate_segment module_config self seg W S)
      as [[seg' [[t f] bw]] | err]; cbn [bind]; [ | eauto].
    edestruct IH as [err ->]. cbn [bind]. eauto.
Qed.

(** C7.  [simulate_mission] processes the segments in the order given, and
    [create_mission] gives them in the order takeoff, climb, cruise,
    descent, loiter, landing.  In exact arithmetic, the k-th segment is
    simulated at the weight TOGW minus the fuel burned by the segments
    before it (the battery energy drawn does not enter the weight); the
    totals returned are the sums of the per-segment fuel, battery energy and
    time; and a segment whose name is none of the six raises ValueError, so
    that a mission holding one returns no result. *)
Theorem simulate_mission_carries_weight :
  forall (module_config : ConfigLoader R) (self : HybridElectricAircraft R)
         (segs : list (MissionSegment R)) (TOGW_lb S_wing_ft2 : R)
         (res : MissionResults R),
    simulate_mission module_config self segs TOGW_lb S_wing_ft2 = Ok res ->
    map (@seg_name R) (segments res) = map (@seg_name R) segs
    /\ (forall (k : nat) (seg r : MissionSegment R),
          nth_error segs k = Some seg ->
          nth_error (segments res) k = Some r ->
          exists seg' : MissionSegment R,
            simulate_segment module_config self seg
              (TOGW_lb - total_of (@fuel_lb R) (firstn k (segments res)))%R
              S_wing_ft2
            = Ok (seg', (time_sec r, fuel_lb r, battery_Wh r)))
    /\ total_fuel_lb res = total_of (@fuel_lb R) (segments res)
    /\ total_battery_Wh res = total_of (@battery_Wh R) (segments res)
    /\ total_time_sec res = total_of (@time_sec R) (segments res)
    /\ (forall (profile : list (string * R)) (blown : option (list (string * bool))),
          map (@seg_name R) (create_mission self profile blown) = canonical_order)
    /\ (forall (others : list (MissionSegment R)) (W S : R),
          Exists (fun seg => ~ In (seg_name seg) canonical_order) others ->
          exists err, simulate_mission module_config self others W S = Raise err)
    /\ (forall (seg : MissionSegment R) (W S : R),
          ~ In (seg_name seg) canonical_order ->
          simulate_segment module_config self seg W S
          = Raise (ValueError ("Unknown segment type: " ++ seg_name seg))).
Proof.
  intros m self segs TOGW S res H. unfold simulate_mission in H.
  inv_ok H. ok_inj. cbn [segments total_fuel_lb total_battery_Wh total_time_sec].
  match goal with
  | E : mission_loop _ _ _ _ _ _ _ _ = Ok _ |- _ =>
      apply mission_loop_spec in E; destruct E as (Hn & _ & Hf & Hb & Ht & Hk)
  end.
  arith_R.
  split; [exact Hn | ]. split; [exact Hk | ].
  do 3 (split; [lra | ]).
  split; [reflexivity | ]. split.
  - intros others W S' Hex. unfold simulate_mission.
    destruct (unknown_segment_fails m self S' Hex W #0.0 #0.0 #0.0) as [err ->].
    cbn [bind]. eauto.
  - intros seg W S'. apply unknown_segment_raises.
Qed.

(** The mission of the conventional aircraft built from [example_config]. *)
Lemma simulate_mission_carries_weight_witness :
  exists (a a' : HybridElectricAircraft R) (res : MissionResults R),
    HybridElectricAircraft_init "eSTOL-19" example_config = Ok a
    /\ set_powertrain a "conventional" 0%R None = Ok a'
    /\ simulate_mission example_config a' (create_mission a' [] None) 15000%R 700%R
       = Ok res
    /\ map (@seg_name R) (segments res) = canonical_order
    /\ total_fuel_lb res = total_of (@fuel_lb R) (segments res).
Proof.
  destruct (@conventional_setup R _ true 250%dec 80%dec 0%R)
    as (a & a' & b & Hinit & Hset & Hpt & Hr & Hsp & Hbsfc & _).
  pose proof (Hr example_config) as Hready.
  assert (Hsplit : forall P Hp : R,
             exists split, get_power_split (Conventional b) P Hp = Ok split).
  { intros P Hp. cbn [get_power_split]. unfold Conventional_get_power_split.
    rewrite Hbsfc. cbn [num bind]. eauto. }
  destruct (@mission_loop_total R _ _ example_config a' (Conventional b)
              (create_mission a' [] None) 700%R 15000%R #0.0 #0.0 #0.0
              Hready Hpt Hsplit (create_mission_good example_config a' [] Hready))
    as [[done [[[W tf] tb] tt]] Hloop].
  assert (Hres : simulate_mission example_config a' (create_mission a' [] None)
                   15000%R 700%R
                 = Ok {| total_fuel_lb := tf; total_battery_Wh := tb;
                         total_time_sec := tt; segments := done |}).
  { unfold simulate_mission. rewrite Hloop. reflexivity. }
  destruct (simulate_mission_carries_weight _ _ _ _ _ Hres)
    as (Hnames & _ & Hfuel & _ & _ & Horder & _).
  exists a, a'. eexists. split; [exact Hinit | ]. split; [exact Hset | ].
  split; [exact Hres | ]. split; [ | exact Hfuel].
  rewrite Hnames. apply Horder.
Defined.

(** ** The sizing loop (C6) *)

Section loop_facts.
Context {F : Type} {AF : Arith F} {LF : Libm F}.
Variable module_config : ConfigLoader F.
Implicit Types a b : HybridElectricAircraft F.

Lemma sizing_iteration_inv a prof g a1 v :
  sizing_iteration module_config a prof g = Ok (a1, v) ->
  it_TOGW_guess_lb v = g
  /\ it_error v = py_abs (it_TOGW_new_lb v - g) / g
  /\ it_W_fuel_lb v = total_fuel_lb (it_mission_results v) * #1.06
  /\ simulate_mission module_config a1 (create_mission a1 prof None) g
       (it_S_wing_ft2 v) = Ok (it_mission_results v)
  /\ battery_sizing (ac_tech a1) (it_mission_results v) = Ok (it_battery v)
  /\ exists payload,
       num (W_payload_lb a1) = Ok payload
       /\ it_TOGW_new_lb v
          = it_OEW_lb v + payload + it_W_fuel_lb v + bs_W_battery_lb (it_battery v).
Proof.
  intros H. unfold sizing_iteration in H. inv_ok H. ok_inj.
  cbn [it_TOGW_guess_lb it_error it_W_fuel_lb it_mission_results it_S_wing_ft2
       it_battery it_TOGW_new_lb it_OEW_lb].
  repeat (split; [first [reflexivity | assumption] | ]).
  eexists. split; [eassumption | reflexivity].
Qed.

Lemma sizing_loop_last n tol prof a g last a_n v :
  sizing_loop module_config n tol prof a g last = Ok (a_n, Some v) ->
  (last = Some v /\ a_n = a)
  \/ exists a_k g_k,
       resized a a_k
       /\ sizing_iteration module_config a_k prof g_k = Ok (a_n, v).
Proof.
  revert a g last. induction n as [ | n IH]; intros a g last H;
    cbn [sizing_loop] in H.
  - ok_inj. left. split; reflexivity.
  - destruct (sizing_iteration module_config a prof g) as [[a1 v1] | err] eqn:E;
      cbn [bind] in H; [ | discriminate].
    destruct (it_error v1 <? tol).
    + ok_inj. right. exists a, g. split; [apply resized_refl | exact E].
    + apply IH in H. destruct H as [[H ->] | (a_k & g_k & D & H)].
      * injection H as <-. right. exists a, g. split; [apply resized_refl | exact E].
      * right. exists a_k, g_k. split; [ | exact H].
        eapply resized_trans; [ | exact D].
        eapply sizing_iteration_resized. exact E.
Qed.

Lemma sizing_loop_relaxed prof tol k :
  forall n a g last a_k v_k,
    (k < n)%nat ->
    relaxed_iteration module_config prof k a g = Ok (a_k, v_k) ->
    (forall j a_j v_j,
        (j < k)%nat ->
        relaxed_iteration module_config prof j a g = Ok (a_j, v_j) ->
        (it_error v_j <? tol) = false) ->
    (it_error v_k <? tol) = true \/ S k = n ->
    sizing_loop module_config n tol prof a g last = Ok (a_k, Some v_k).
Proof.
  induction k as [ | k IH]; intros n a g last a_k v_k Hlt Hk Hbefore Hstop;
    (destruct n as [ | n]; [lia | ]); cbn [sizing_loop relaxed_iteration] in *.
  - rewrite Hk. cbn [bind].
    destruct (it_error v_k <? tol) eqn:Herr; [reflexivity | ].
    destruct Hstop as [Hstop | Hstop]; [discriminate | ].
    injection Hstop as <-. reflexivity.
  - destruct (sizing_iteration module_config a prof g) as [[a1 v1] | err] eqn:E;
      cbn [bind] in *; [ | discriminate].
    rewrite (Hbefore O a1 v1 (Nat.lt_0_succ k) E).
    apply IH.
    + lia.
    + exact Hk.
    + intros j a_j v_j Hj Hrel. apply (Hbefore (S j) a_j v_j); [lia | ].
      cbn [relaxed_iteration]. rewrite E. cbn [bind]. exact Hrel.
    + destruct Hstop as [Hstop | Hstop]; [left; exact Hstop | right; lia].
Qed.

Lemma relaxed_iteration_resized prof k :
  forall a g a_k v_k,
    relaxed_iteration module_config prof k a g = Ok (a_k, v_k) -> resized a a_k.
Proof.
  induction k as [ | k IH]; intros a g a_k v_k H; cbn [relaxed_iteration] in H.
  - eapply sizing_iteration_resized. exact H.
  - destruct (sizing_iteration module_config a prof g) as [[a1 v1] | err] eqn:E;
      cbn [bind] in H; [ | discriminate].
    eapply resized_trans; [eapply sizing_iteration_resized; exact E | ].
    eapply IH. exact H.
Qed.

Lemma relaxed_iteration_last prof k :
  forall a g a_k v_k,
    relaxed_iteration module_config prof k a g = Ok (a_k, v_k) ->
    exists a' g', sizing_iteration module_config a' prof g' = Ok (a_k, v_k).
Proof.
  induction k as [ | k IH]; intros a g a_k v_k H; cbn [relaxed_iteration] in H.
  - eauto.
  - destruct (sizing_iteration module_config a prof g) as [[a1 v1] | err] eqn:E;
      cbn [bind] in H; [ | discriminate].
    eapply IH. exact H.
Qed.

(** C6.  The loop of [size_aircraft] is the relaxed iteration from the
    fixed guess 15000: written [relaxed_iteration k] for the iteration
    number k of the sequence that starts at 15000 and passes from TOGW_old
    to 0.7 * TOGW_old + 0.3 * TOGW_new, if the iterations 0..k return, none
    before k meets the tolerance, and iteration k meets it or is the last
    the cap allows, then [size_aircraft] returns (it raises nothing) the
    result of iteration k, with TOGW = TOGW_new, and the flag [converged]
    is the test error < tolerance of that iteration, where error =
    |TOGW_new - TOGW_old| / TOGW_old: false when the cap was reached without
    meeting the tolerance.  The attribute TOGW_lb of the aircraft, which
    holds the configuration's initial guess, changes nothing. *)
Theorem sizing_loop_relaxation :
  forall (self a_k : HybridElectricAircraft F)
         (profile_argument : option (list (string * F)))
         (profile : list (string * F))
         (max_iterations k : nat) (tolerance : F) (vars : IterationVars F),
    size_aircraft_header self profile_argument = Ok profile ->
    (k < max_iterations)%nat ->
    relaxed_iteration module_config profile k self #15000 = Ok (a_k, vars) ->
    (forall j a_j v_j,
        (j < k)%nat ->
        relaxed_iteration module_config profile j self #15000 = Ok (a_j, v_j) ->
        (it_error v_j <? tolerance) = false) ->
    (it_error vars <? tolerance) = true \/ S k = max_iterations ->
    exists (after : HybridElectricAircraft F) (r : SizingResult F),
      size_aircraft module_config self max_iterations tolerance profile_argument
      = Ok (after, r)
      /\ size_aircraft_results a_k tolerance vars = Ok (after, r)
      /\ r_TOGW_lb r = it_TOGW_new_lb vars
      /\ r_OEW_lb r = it_OEW_lb vars
      /\ r_W_fuel_lb r = it_W_fuel_lb vars
      /\ converged r = (it_error vars <? tolerance)
      /\ it_error vars
         = py_abs (it_TOGW_new_lb vars - it_TOGW_guess_lb vars)
           / it_TOGW_guess_lb vars
      /\ (forall initial_TOGW_guess_lb : F,
            exists after' : HybridElectricAircraft F,
              size_aircraft module_config
                (assign_design self initial_TOGW_guess_lb (OEW_lb self)
                   (W_fuel_lb self) (W_battery_lb self) (S_wing_ft2 self)
                   (WS_psf self))
                max_iterations tolerance profile_argument
              = Ok (after', r)).
Proof.
  intros self a_k p profile n k tol vars Hh Hlt Hk Hbefore Hstop.
  pose proof (@sizing_loop_relaxed profile tol k n self _ None a_k vars
                Hlt Hk Hbefore Hstop) as Hloop.
  pose proof Hk as D. apply relaxed_iteration_resized in D.
  destruct (resized_fields D) as (_ & Hw & Hr & _).
  assert (Hres : exists after r, size_aircraft_results a_k tol vars = Ok (after, r)).
  { unfold size_aircraft_header in Hh.
    destruct (powertrain self); [ | discriminate].
    inv_ok Hh.
    repeat match goal with
    | E : format_float _ = Ok _ |- _ =>
        apply format_float_ok in E; destruct E as [? E]
    end.
    unfold size_aircraft_results.
    cbn [W_payload_lb range_nm assign_design]. rewrite Hw, Hr. run. eauto. }
  destruct Hres as (after & r & Hres).
  assert (Hsize : size_aircraft module_config self n tol p = Ok (after, r)).
  { unfold size_aircraft. rewrite Hh. cbn [bind]. rewrite Hloop. cbn [bind].
    exact Hres. }
  exists after, r. split; [exact Hsize | ]. split; [exact Hres | ].
  pose proof Hk as Hit. apply relaxed_iteration_last in Hit.
  destruct Hit as (a' & g' & Hit).
  apply sizing_iteration_inv in Hit. destruct Hit as (Hg & Herr & _).
  rewrite <- Hg in Herr. clear Hg.
  unfold size_aircraft_results in Hres. inv_ok Hres. ok_inj.
  cbn [r_TOGW_lb r_OEW_lb r_W_fuel_lb converged].
  repeat (split; [reflexivity | ]).
  split; [exact Herr | ].
  intros togw. eapply size_aircraft_frame; [ | exact Hsize].
  apply resized_design. apply resized_refl.
Qed.

End loop_facts.

(** The conventional aircraft built from [example_config], sized with a cap
    of one iteration and a tolerance of zero: the cap is reached, the result
    of the only iteration is returned, and [converged] is false. *)
Lemma sizing_loop_relaxation_witness :
  exists (a a' after : HybridElectricAircraft R) (r : SizingResult R),
    HybridElectricAircraft_init "eSTOL-19" example_config = Ok a
    /\ set_powertrain a "conventional" 0%R None = Ok a'
    /\ size_aircraft example_config a' 1 0%R None = Ok (after, r)
    /\ converged r = false.
Proof.
  destruct (@conventional_setup R _ true 250%dec 80%dec 0%R)
    as (a & a' & b & Hinit & Hset & Hpt & Hr & Hsp & Hbsfc & _).
  pose proof (Hr example_config) as Hready.
  assert (Husable : usable (Conventional b)).
  { apply conventional_usable; [exact Hsp | rewrite Hbsfc; reflexivity]. }
  destruct (@size_aircraft_header_total R _ example_config a' _ None Hready Hpt)
    as [profile Hh].
  destruct (@sizing_iteration_total R _ _ example_config a' _ profile #15000
              Hready Hpt Husable) as (a_0 & vars & Hit).
  destruct (@sizing_loop_relaxation R _ _ example_config a' a_0 None profile
              1%nat 0%nat 0%R vars Hh (Nat.lt_0_succ 0) Hit)
    as (after & r & Hsize & _ & _ & _ & _ & Hconv & Herr & _).
  - intros j a_j v_j Hj. inversion Hj.
  - right. reflexivity.
  - exists a, a', after, r.
    split; [exact Hinit | ]. split; [exact Hset | ]. split; [exact Hsize | ].
    rewrite Hconv, Herr.
    apply sizing_iteration_inv in Hit. destruct Hit as (Hg & _).
    rewrite Hg. arith_R. apply Rltb_false.
    apply Rmult_le_pos; [apply Rabs_pos | lra].
Defined.


(** ** Battery outputs and the electric architecture (C2, C3) *)

Section provenance.
Context {F : Type} {AF : Arith F} {LF : Libm F}.
Local Open Scope py_scope.
Variable module_config : ConfigLoader F.
Implicit Types a b : HybridElectricAircraft F.

(** Where the battery and fuel entries of a result come from: the mission
    and the battery block of the last iteration run. *)
Lemma size_aircraft_provenance a n tol p a' r :
  size_aircraft module_config a n tol p = Ok (a', r) ->
  exists a1 prof g S mr bat,
    resized a a1
    /\ simulate_mission module_config a1 (create_mission a1 prof None) g S = Ok mr
    /\ battery_sizing (ac_tech a) mr = Ok bat
    /\ r_W_fuel_lb r = total_fuel_lb mr * #1.06
    /\ fuel_fraction r = r_W_fuel_lb r / r_TOGW_lb r
    /\ r_W_battery_lb r = bs_W_battery_lb bat
    /\ battery_fraction r = r_W_battery_lb r / r_TOGW_lb r
    /\ battery_c_rate r = bs_c_rate_actual bat
    /\ battery_c_rate_max r = bs_c_rate_max bat
    /\ battery_sizing_constraint r = bs_sizing_constraint bat
    /\ battery_peak_power_kW r = bs_max_battery_power_kW bat
    /\ battery_peak_segment r = bs_max_power_segment bat.
Proof.
  intros H. apply size_aircraft_inv in H.
  destruct H as (profile & a_n & vars & Hh & Hl & Hr).
  apply sizing_loop_last in Hl.
  destruct Hl as [[Hl _] | (a_k & g_k & D & Hit)]; [discriminate | ].
  pose proof Hit as D1. apply sizing_iteration_resized in D1.
  pose proof (resized_trans D D1) as Dn.
  apply sizing_iteration_inv in Hit.
  destruct Hit as (_ & _ & Hfuel & Hmission & Hbat & _).
  destruct (resized_fields Dn) as (Htech & _).
  rewrite Htech in Hbat.
  unfold size_aircraft_results in Hr. inv_ok Hr. ok_inj.
  cbn [r_W_fuel_lb fuel_fraction r_TOGW_lb r_W_battery_lb battery_fraction
       battery_c_rate battery_c_rate_max battery_sizing_constraint
       battery_peak_power_kW battery_peak_segment].
  exists a_n, profile, g_k, (it_S_wing_ft2 vars), (it_mission_results vars),
    (it_battery vars).
  repeat (split; [first [assumption | reflexivity] | ]). reflexivity.
Qed.


(** Re-sizing keeps a conventional powertrain conventional, with its
    technology, and leaves the switch of the distributed-propulsion system
    alone. *)
Lemma resized_conventional a b (x : PowertrainBase F) :
  resized a b -> powertrain a = Some (Conventional x) ->
  exists y,
    powertrain b = Some (Conventional y) /\ tech y = tech x
    /\ dep_enabled b = dep_enabled a.
Proof.
  intros D Hx. induction D.
  - eauto.
  - exact IHD.
  - exact IHD.
  - destruct IHD as (y & Hy & Htech & Hdep). rewrite Hy in H. injection H as <-.
    cbn [size_components] in H0. unfold Conventional_size_components in H0.
    inv_ok H0. ok_inj.
    cbn [with_powertrain assign_powertrain powertrain dep_enabled].
    eexists. split; [reflexivity | ]. split; [exact Htech | exact Hdep].
Qed.
End provenance.

Section zero_instances.
Local Open Scope py_scope.

(** Over the reals, "is 0". *)
Lemma exact_zero_laws : zero_laws (fun x : R => x = 0%R).
Proof.
  split.
  - reflexivity.
  - intros x c ->. arith_R. ring.
  - intros x c ->. arith_R. ring.
  - intros x d ->. arith_R. unfold Rdiv. ring.
  - intros x y -> ->. arith_R. ring.
  - intros x y -> ->. arith_R. apply Rltb_false. lra.
Qed.



(** A specific energy or a depth of discharge of zero is no battery, in
    either arithmetic. *)
Lemma zero_is_no_battery_exact (tech : TechnologySpec R) (se : R) :
  num (battery_specific_energy_Wh_kg tech) = Ok se ->
  se = 0%R \/ num (battery_DOD tech) = Ok 0%R ->
  no_battery tech.
Proof.
  intros Hse Hzero. exists se. split; [exact Hse | ].
  destruct Hzero as [-> | Hdod].
  - left. arith_R. apply Rltb_false. lra.
  - right. exists 0%R. split; [exact Hdod | ]. arith_R. apply Rltb_false. lra.
Qed.

Lemma zero_is_no_battery_binary64 (tech : TechnologySpec float) (se : float) :
  num (battery_specific_energy_Wh_kg tech) = Ok se ->
  se = PrimFloat.zero \/ num (battery_DOD tech) = Ok PrimFloat.zero ->
  no_battery tech.
Proof.
  intros Hse Hzero. exists se. split; [exact Hse | ].
  destruct Hzero as [-> | Hdod].
  - left. reflexivity.
  - right. exists PrimFloat.zero. split; [exact Hdod | reflexivity].
Qed.
End zero_instances.

Section battery_facts.
Context {F : Type} {AF : Arith F} {LF : Libm F}.
Variable module_config : ConfigLoader F.
Local Open Scope py_scope.

Lemma battery_sizing_no_battery (tech : TechnologySpec F) mr :
  no_battery tech -> battery_sizing tech mr = Ok no_battery_block.
Proof.
  intros (se & Hse & Hzero). unfold battery_sizing. rewrite Hse. cbn [bind].
  destruct Hzero as [Hneg | (dod & Hdod & Hneg)].
  - rewrite Hneg. reflexivity.
  - destruct (se >? #0); cbn [bind]; [ | reflexivity].
    rewrite Hdod. cbn [bind]. rewrite Hneg. reflexivity.
Qed.


Variable zero_like : F -> Prop.
Hypothesis laws : zero_laws zero_like.

Lemma zero_like_literal : zero_like #0.0.
Proof. apply (zero_div laws). exact (zero_literal laws). Qed.



End battery_facts.

(** C2.  With no battery (the specific energy is zero, or the depth of
    discharge is), the battery block computed from any mission result has
    mass, energy, peak power and both C-rates equal to the literal 0.0,
    whatever battery energy the mission drew, and so has every sizing
    result; the governing constraint reported is the string N/A.  This holds
    in any arithmetic, binary64 included: the values are assigned, not
    computed.  A specific energy or a depth of discharge equal to zero is
    such a technology, in exact arithmetic and in binary64. *)
Theorem no_battery_outputs_zero :
  (forall (F : Type) (AF : Arith F) (tech : TechnologySpec F)
          (mission_results : MissionResults F),
      no_battery tech ->
      exists block : BatterySizing F,
        battery_sizing tech mission_results = Ok block
        /\ bs_W_battery_lb block = #0.0
        /\ bs_W_battery_Wh block = #0.0
        /\ bs_W_battery_kWh block = #0.0
        /\ bs_max_battery_power_kW block = #0.0
        /\ bs_c_rate_actual block = #0.0
        /\ bs_c_rate_max block = #0.0
        /\ bs_sizing_constraint block = "N/A")
  /\ (forall (F : Type) (AF : Arith F) (LF : Libm F)
             (module_config : ConfigLoader F)
             (self after : HybridElectricAircraft F) (max_iterations : nat)
             (tolerance : F) (profile : option (list (string * F)))
             (r : SizingResult F),
        no_battery (ac_tech self) ->
        size_aircraft module_config self max_iterations tolerance profile
        = Ok (after, r) ->
        r_W_battery_lb r = #0.0
        /\ battery_peak_power_kW r = #0.0
        /\ battery_c_rate r = #0.0
        /\ battery_c_rate_max r = #0.0
        /\ battery_sizing_constraint r = "N/A")
  /\ (forall (tech : TechnologySpec R) (se : R),
        num (battery_specific_energy_Wh_kg tech) = Ok se ->
        se = 0%R \/ num (battery_DOD tech) = Ok 0%R ->
        no_battery tech)
  /\ (forall (tech : TechnologySpec float) (se : float),
        num (battery_specific_energy_Wh_kg tech) = Ok se ->
        se = PrimFloat.zero \/ num (battery_DOD tech) = Ok PrimFloat.zero ->
        no_battery tech).
Proof.
  split; [ | split; [ | split]].
  - intros F AF tech mr Hnb. exists no_battery_block.
    split; [apply battery_sizing_no_battery; exact Hnb | ].
    repeat split; reflexivity.
  - intros F AF LF m self after n tol p r Hnb H.
    apply size_aircraft_provenance in H.
    destruct H as (a1 & prof & g & S & mr & bat & _ & _ & Hbat & _ & _
                   & Hw & _ & Hc & Hcm & Hlabel & Hpk & _).
    rewrite (battery_sizing_no_battery mr Hnb) in Hbat. injection Hbat as <-.
    rewrite Hw, Hc, Hcm, Hlabel, Hpk. repeat split; reflexivity.
  - exact zero_is_no_battery_exact.
  - exact zero_is_no_battery_binary64.
Qed.


(** In binary64, the battery block of a technology with a specific energy of
    zero on a mission that drew 5000 Wh; and in exact arithmetic the
    conventional aircraft built from [no_battery_config], sized. *)
Lemma no_battery_outputs_zero_witness :
  (exists (tech : TechnologySpec float) (block : BatterySizing float),
      from_config no_battery_config = Ok tech
      /\ battery_sizing tech short_burst_results = Ok block
      /\ bs_W_battery_lb block = #0.0
      /\ bs_sizing_constraint block = "N/A")
  /\ exists (a a' after : HybridElectricAircraft R) (r : SizingResult R),
       HybridElectricAircraft_init "eSTOL-19" no_battery_config = Ok a
       /\ set_powertrain a "conventional" 0%R None = Ok a'
       /\ size_aircraft example_config a' 1 (1 / 100)%R None = Ok (after, r)
       /\ r_W_battery_lb r = #0.0
       /\ battery_sizing_constraint r = "N/A".
Proof.
  split.
  - eassert (Htech : from_config (@no_battery_config float _) = Ok _)
      by (vm_compute; reflexivity).
    name_result Htech spec.
    assert (Hnb : no_battery spec).
    { apply (proj2 (proj2 (proj2 no_battery_outputs_zero)) spec
               PrimFloat.zero); [reflexivity | left; reflexivity]. }
    destruct (proj1 no_battery_outputs_zero float _ spec short_burst_results Hnb)
      as (block & Hblock & Hw & _ & _ & _ & _ & _ & Hlabel).
    exists spec, block. repeat (split; [assumption | ]). assumption.
  - destruct (@conventional_setup R _ true 0%dec 80%dec 0%R)
      as (a & a' & b & Hinit & Hset & Hpt & Hr & Hsp & Hbsfc & Hse & _).
    pose proof (Hr example_config) as Hready.
    assert (Husable : usable (Conventional b)).
    { apply conventional_usable; [exact Hsp | rewrite Hbsfc; reflexivity]. }
    destruct (@size_aircraft_total R _ _ example_config a' _ 0%nat (1 / 100)%R None
                Hready Hpt Husable) as (after & r & Hsize).
    assert (Hnb : no_battery (ac_tech a')).
    { apply (proj1 (proj2 (proj2 no_battery_outputs_zero)) (ac_tech a') 0%R);
        [rewrite Hse; reflexivity | left; reflexivity]. }
    destruct (proj1 (proj2 no_battery_outputs_zero) R _ _ _ _ _ _ _ _ _ Hnb Hsize)
      as (Hw & _ & _ & _ & Hlabel).
    exists a, a', after, r. repeat (split; [assumption | ]). assumption.
Defined.

(** The same run: the label is not the string none. *)
Lemma no_battery_constraint_label_counterexample :
  exists (a a' after : HybridElectricAircraft R) (r : SizingResult R),
    HybridElectricAircraft_init "eSTOL-19" no_battery_config = Ok a
    /\ set_powertrain a "conventional" 0%R None = Ok a'
    /\ num (battery_specific_energy_Wh_kg (ac_tech a')) = Ok 0%R
    /\ size_aircraft example_config a' 1 (1 / 100)%R None = Ok (after, r)
    /\ battery_sizing_constraint r = "N/A"
    /\ battery_sizing_constraint r <> "none".
Proof.
  destruct (@conventional_setup R _ true 0%dec 80%dec 0%R)
    as (a & a' & b & Hinit & Hset & Hpt & Hr & Hsp & Hbsfc & Hse & _).
  pose proof (Hr example_config) as Hready.
  assert (Husable : usable (Conventional b)).
  { apply conventional_usable; [exact Hsp | rewrite Hbsfc; reflexivity]. }
  destruct (@size_aircraft_total R _ _ example_config a' _ 0%nat (1 / 100)%R None
              Hready Hpt Husable) as (after & r & Hsize).
  assert (Hnb : no_battery (ac_tech a')).
  { apply (@zero_is_no_battery_exact (ac_tech a') 0%R);
      [rewrite Hse; reflexivity | left; reflexivity]. }
  assert (Hlabel : battery_sizing_constraint r = "N/A").
  { pose proof Hsize as H. apply size_aircraft_provenance in H.
    destruct H as (a1 & prof & g & S & mr & bat & _ & _ & Hbat & _ & _
                   & _ & _ & _ & _ & Hlabel & _).
    rewrite (battery_sizing_no_battery mr Hnb) in Hbat. injection Hbat as <-.
    exact Hlabel. }
  exists a, a', after, r.
  split; [exact Hinit | ]. split; [exact Hset | ].
  split; [rewrite Hse; reflexivity | ]. split; [exact Hsize | ].
  split; [exact Hlabel | ]. rewrite Hlabel. discriminate.
Qed.




(** ** Missing configuration leaves (C1) *)

Section missing_leaf.
Context {F : Type} {AF : Arith F} {LF : Libm F}.
Local Open Scope py_scope.
Variable module_config : ConfigLoader F.
Implicit Types a b : HybridElectricAircraft F.

(** With the conventional powertrain and no BSFC, the first use of the
    missing value is the power split of the takeoff segment. *)
Lemma conventional_missing_bsfc_iteration a (pb : PowertrainBase F) prof g :
  ready module_config a = true ->
  powertrain a = Some (Conventional pb) ->
  GT_BSFC_kg_kWh (tech pb) = VNone ->
  sizing_iteration module_config a prof g = Raise TypeError.
Proof.
  intros H Hpt Hbsfc. unfold sizing_iteration.
  destruct (@constraint_analysis_total F _ _ module_config a g H) as [[ws P] ->].
  cbn [bind]. unfold the_powertrain at 1. rewrite Hpt. cbn [bind size_components].
  unfold Conventional_size_components.
  destruct (num (GT_specific_power_kW_kg (tech pb))) as [sp | err] eqn:Esp;
    [ | apply num_raise in Esp; subst err; reflexivity].
  run.
  match goal with |- context [with_powertrain a ?pt] => set (pt' := pt) end.
  set (a1 := with_powertrain a pt').
  assert (H1 : ready module_config a1 = true) by exact H.
  assert (Hpt1 : powertrain a1 = Some pt') by reflexivity.
  destruct (@calculate_OEW_total F _ _ module_config a1 pt' g (g / ws) H1 Hpt1)
    as (bd & oew & ->).
  cbn [bind].
  set (a2 := assign_weight_breakdown a1 bd).
  assert (H2 : ready module_config a2 = true) by exact H.
  unfold simulate_mission, create_mission. cbn [mission_loop].
  unfold simulate_segment at 1.
  cbn [seg_name MissionSegment_new String.eqb Ascii.eqb Bool.eqb].
  unfold simulate_takeoff_segment.
  destruct (@get_lift_augmentation_factor_total F _ module_config a2
              (blown_lift_active (MissionSegment_new "takeoff" (VNum #0) (VNum #35)
                 (profile_get prof "takeoff" #0.0)
                 (profile_get [("takeoff", true); ("climb", true); ("cruise", false);
                               ("descent", false); ("loiter", false); ("landing", true)]
                    "takeoff" false))) H2) as [aug ->].
  cbn [bind].
  split_ready H2. clear Hn. use_nums. run.
  unfold the_powertrain. cbn [powertrain a2 a1 assign_weight_breakdown
                              with_powertrain assign_powertrain bind].
  subst pt'. cbn [get_power_split]. unfold Conventional_get_power_split.
  cbn [tech]. rewrite Hbsfc. reflexivity.
Qed.

(** What the constructor stores for two leaves of the gas turbine. *)
Lemma init_inv name (cfg : ConfigLoader F) a :
  HybridElectricAircraft_init name cfg = Ok a ->
  GT_BSFC_kg_kWh (ac_tech a)
  = get cfg ["hybrid_system"; "gas_turbine"; "BSFC_kg_kWh"].
Proof.
  intros H. unfold HybridElectricAircraft_init in H. inv_ok H. ok_inj.
  match goal with
  | E : from_config _ = Ok _ |- _ => unfold from_config in E; inv_ok E
  end.
  ok_inj. reflexivity.
Qed.

Lemma set_powertrain_conventional a Hp :
  set_powertrain a "conventional" Hp None
  = Ok (assign_powertrain a
          (Some (Conventional (ConventionalPowertrain (ac_tech a)))) Hp None).
Proof. reflexivity. Qed.

(** The whole run: everything before the loop succeeds, the first
    iteration raises. *)
Lemma conventional_missing_bsfc_run name (cfg : ConfigLoader F) a a' Hp n tol :
  get cfg ["hybrid_system"; "gas_turbine"; "BSFC_kg_kWh"] = VNone ->
  HybridElectricAircraft_init name cfg = Ok a ->
  set_powertrain a "conventional" Hp None = Ok a' ->
  ready module_config a' = true ->
  (exists profile,
      size_aircraft_header a' None = Ok profile
      /\ sizing_iteration module_config a' profile #15000 = Raise TypeError)
  /\ size_aircraft module_config a' (S n) tol None = Raise TypeError.
Proof.
  intros Hleaf Hinit Hset Hready.
  apply init_inv in Hinit. rewrite Hleaf in Hinit.
  rewrite set_powertrain_conventional in Hset. injection Hset as <-.
  set (pb := ConventionalPowertrain (ac_tech a)).
  set (a' := assign_powertrain a (Some (Conventional pb)) Hp None) in *.
  assert (Hpt : powertrain a' = Some (Conventional pb)) by reflexivity.
  assert (Hit : forall prof g,
             sizing_iteration module_config a' prof g = Raise TypeError).
  { intros prof g.
    apply (@conventional_missing_bsfc_iteration a' pb prof g Hready Hpt).
    exact Hinit. }
  destruct (@size_aircraft_header_total F _ module_config a' (Conventional pb)
              None Hready Hpt) as [profile Hh].
  split.
  - exists profile. split; [exact Hh | apply Hit].
  - unfold size_aircraft. rewrite Hh. cbn [bind sizing_loop]. rewrite Hit.
    reflexivity.
Qed.

(** The four leaves the constructor does arithmetic on. *)
Lemma init_missing_leaf name (cfg : ConfigLoader F) :
  get cfg ["aerodynamics"; "aspect_ratio"] = VNone
  \/ get cfg ["aerodynamics"; "oswald_efficiency"] = VNone
  \/ get cfg ["hybrid_system"; "battery"; "SOC_margin_percent"] = VNone
  \/ get cfg ["hybrid_system"; "battery"; "depth_of_discharge_percent"] = VNone ->
  HybridElectricAircraft_init name cfg = Raise TypeError.
Proof.
  intros Hleaf. unfold HybridElectricAircraft_init.
  destruct (num (get cfg ["aerodynamics"; "aspect_ratio"])) as [ar | err] eqn:Ear;
    [ | apply num_raise in Ear; subst err; reflexivity].
  destruct (num (get cfg ["aerodynamics"; "oswald_efficiency"])) as [osw | err] eqn:Ee;
    [ | apply num_raise in Ee; subst err; reflexivity].
  cbn [bind]. unfold from_config.
  destruct (num (get cfg ["hybrid_system"; "battery"; "SOC_margin_percent"]))
    as [soc | err] eqn:Esoc; [ | apply num_raise in Esoc; subst err; reflexivity].
  destruct (num (get cfg ["hybrid_system"; "battery"; "depth_of_discharge_percent"]))
    as [dod | err] eqn:Edod; [ | apply num_raise in Edod; subst err; reflexivity].
  exfalso.
  destruct Hleaf as [E | [E | [E | E]]];
    [rewrite E in Ear | rewrite E in Ee | rewrite E in Esoc | rewrite E in Edod];
    discriminate.
Qed.

(** Whatever the other leaves hold, no iteration returns: the power split
    of the takeoff segment, the first of the mission, needs the missing
    value. *)
Lemma conventional_missing_bsfc_never_returns a (pb : PowertrainBase F) prof g :
  powertrain a = Some (Conventional pb) ->
  GT_BSFC_kg_kWh (tech pb) = VNone ->
  exists err, sizing_iteration module_config a prof g = Raise err.
Proof.
  intros Hpt Hbsfc.
  destruct (sizing_iteration module_config a prof g) as [[a1 v] | err] eqn:E;
    [ | eexists; reflexivity].
  exfalso.
  pose proof E as D. apply sizing_iteration_resized in D.
  destruct (resized_conventional D Hpt) as (y & Hy & Htech & _).
  apply sizing_iteration_inv in E. destruct E as (_ & _ & _ & Hmission & _).
  unfold simulate_mission, create_mission in Hmission.
  cbn [mission_loop] in Hmission.
  match type of Hmission with
  | context [simulate_segment ?m ?s ?seg ?W ?S] =>
      destruct (simulate_segment m s seg W S) as [[seg' [[t f] bw]] | err] eqn:Eseg
  end; cbn [bind] in Hmission; [ | discriminate].
  apply simulate_segment_inv in Eseg.
  destruct Eseg as (_ & pt & split & Hpt1 & (P & Hsplit) & _).
  rewrite Hy in Hpt1. injection Hpt1 as <-.
  cbn [get_power_split] in Hsplit. unfold Conventional_get_power_split in Hsplit.
  rewrite Htech, Hbsfc in Hsplit. discriminate.
Qed.

(** The whole run, whatever the other leaves hold. *)
Lemma conventional_missing_bsfc_fails name (cfg : ConfigLoader F) a a' Hp n tol :
  get cfg ["hybrid_system"; "gas_turbine"; "BSFC_kg_kWh"] = VNone ->
  HybridElectricAircraft_init name cfg = Ok a ->
  set_powertrain a "conventional" Hp None = Ok a' ->
  GT_BSFC_kg_kWh (ac_tech a') = VNone
  /\ (forall prof g,
         exists err, sizing_iteration module_config a' prof g = Raise err)
  /\ (exists err, size_aircraft module_config a' (S n) tol None = Raise err)
  /\ (forall profile,
         size_aircraft_header a' None = Ok profile ->
         exists err,
           sizing_iteration module_config a' profile #15000 = Raise err
           /\ size_aircraft module_config a' (S n) tol None = Raise err).
Proof.
  intros Hleaf Hinit Hset.
  apply init_inv in Hinit. rewrite Hleaf in Hinit.
  rewrite set_powertrain_conventional in Hset. injection Hset as <-.
  set (pb := ConventionalPowertrain (ac_tech a)).
  set (a' := assign_powertrain a (Some (Conventional pb)) Hp None) in *.
  assert (Hpt : powertrain a' = Some (Conventional pb)) by reflexivity.
  assert (Hit : forall prof g,
             exists err, sizing_iteration module_config a' prof g = Raise err).
  { intros prof g.
    apply (@conventional_missing_bsfc_never_returns a' pb prof g Hpt).
    exact Hinit. }
  assert (Hfirst : forall profile,
             size_aircraft_header a' None = Ok profile ->
             exists err,
               sizing_iteration module_config a' profile #15000 = Raise err
               /\ size_aircraft module_config a' (S n) tol None = Raise err).
  { intros profile Hh. destruct (Hit profile #15000) as [err Herr].
    exists err. split; [exact Herr | ].
    unfold size_aircraft. rewrite Hh. cbn [bind sizing_loop]. rewrite Herr.
    reflexivity. }
  split; [exact Hinit | ]. split; [exact Hit | ]. split; [ | exact Hfirst].
  destruct (size_aircraft_header a' None) as [profile | err] eqn:Hh.
  - destruct (Hfirst profile eq_refl) as (err & _ & Hsize). eauto.
  - exists err. unfold size_aircraft. rewrite Hh. reflexivity.
Qed.

End missing_leaf.

(** C1.  A missing leaf does not always fail before the sizing loop.  Of
    the five leaves followed here: a missing aspect ratio or Oswald
    efficiency makes the constructor raise TypeError, and a missing
    SOC margin or depth of discharge makes the constructor raise as well,
    all before any sizing.  A missing BSFC, for the conventional
    architecture, is stored by the constructor as it is and
    [set_powertrain] does not read it; then no sizing iteration returns,
    from any guess and with any profile, and [size_aircraft] raises; and
    whenever the header of [size_aircraft] returns, it is the first
    iteration, from the guess of 15000 lb, that raises, and its error is the
    error of [size_aircraft]: the failure surfaces during the iteration,
    not before it. *)
Theorem missing_leaf_fails_at_first_use :
  forall (F : Type) (AF : Arith F) (LF : Libm F)
         (module_config cfg : ConfigLoader F) (name : string),
    (get cfg ["aerodynamics"; "aspect_ratio"] = VNone
     \/ get cfg ["aerodynamics"; "oswald_efficiency"] = VNone ->
     HybridElectricAircraft_init name cfg = Raise TypeError)
    /\ (get cfg ["hybrid_system"; "battery"; "SOC_margin_percent"] = VNone
        \/ get cfg ["hybrid_system"; "battery"; "depth_of_discharge_percent"]
           = VNone ->
        exists err : exn, HybridElectricAircraft_init name cfg = Raise err)
    /\ (forall (self sized : HybridElectricAircraft F) (Hp_design tolerance : F)
               (n : nat),
          get cfg ["hybrid_system"; "gas_turbine"; "BSFC_kg_kWh"] = VNone ->
          HybridElectricAircraft_init name cfg = Ok self ->
          set_powertrain self "conventional" Hp_design None = Ok sized ->
          GT_BSFC_kg_kWh (ac_tech sized) = VNone
          /\ (forall (profile : list (string * F)) (TOGW_guess_lb : F),
                 exists err : exn,
                   sizing_iteration module_config sized profile TOGW_guess_lb
                   = Raise err)
          /\ (exists err : exn,
                 size_aircraft module_config sized (S n) tolerance None
                 = Raise err)
          /\ (forall profile : list (string * F),
                 size_aircraft_header sized None = Ok profile ->
                 exists err : exn,
                   sizing_iteration module_config sized profile #15000
                   = Raise err
                   /\ size_aircraft module_config sized (S n) tolerance None
                      = Raise err)).
Proof.
  intros F AF LF module_config cfg name. split; [ | split].
  - intros Hleaf. apply init_missing_leaf.
    destruct Hleaf as [H | H]; [left | right; left]; exact H.
  - intros Hleaf. exists TypeError. apply init_missing_leaf.
    destruct Hleaf as [H | H]; [right; right; left | right; right; right]; exact H.
  - intros self sized Hp tol n Hleaf Hinit Hset.
    eapply conventional_missing_bsfc_fails; eassumption.
Qed.

(** The configuration without the BSFC leaf, sized with the defaults of
    [size_aircraft]. *)
Lemma missing_leaf_fails_at_first_use_witness :
  exists (a a' : HybridElectricAircraft R) (profile : list (string * R))
         (err : exn),
    HybridElectricAircraft_init "eSTOL-19" missing_bsfc_config = Ok a
    /\ set_powertrain a "conventional" 0%R None = Ok a'
    /\ size_aircraft_header a' None = Ok profile
    /\ sizing_iteration missing_bsfc_config a' profile #15000 = Raise err
    /\ size_aircraft missing_bsfc_config a' 50 (1 / 100)%R None = Raise err.
Proof.
  destruct (@conventional_setup R _ false 250%dec 80%dec 0%R)
    as (a & a' & b & Hinit & Hset & Hpt & Hr & _).
  destruct (@size_aircraft_header_total R _ missing_bsfc_config a' _ None
              (Hr missing_bsfc_config) Hpt) as [profile Hh].
  destruct (@missing_leaf_fails_at_first_use R _ _ missing_bsfc_config
              missing_bsfc_config "eSTOL-19") as (_ & _ & Hrun).
  destruct (Hrun a a' 0%R (1 / 100)%R 49%nat eq_refl Hinit Hset)
    as (_ & _ & _ & Hfirst).
  destruct (Hfirst profile Hh) as (err & Hit & Hsize).
  exists a, a', profile, err.
  repeat (split; [assumption | ]). assumption.
Defined.

(** The same run, step by step: the error is raised by the first
    iteration, after everything that precedes the loop has succeeded. *)
Lemma missing_bsfc_surfaces_in_loop_counterexample :
  exists (a a' : HybridElectricAircraft R) (profile : list (string * R)),
    get (@missing_bsfc_config R _) ["hybrid_system"; "gas_turbine"; "BSFC_kg_kWh"]
    = VNone
    /\ HybridElectricAircraft_init "eSTOL-19" missing_bsfc_config = Ok a
    /\ set_powertrain a "conventional" 0%R None = Ok a'
    /\ size_aircraft_header a' None = Ok profile
    /\ sizing_iteration missing_bsfc_config a' profile #15000 = Raise TypeError
    /\ size_aircraft missing_bsfc_config a' 50 (1 / 100)%R None = Raise TypeError.
Proof.
  destruct (@conventional_setup R _ false 250%dec 80%dec 0%R)
    as (a & a' & b & Hinit & Hset & _ & Hr & _).
  destruct (@conventional_missing_bsfc_run R _ _ missing_bsfc_config "eSTOL-19"
              missing_bsfc_config a a' 0%R 49%nat (1 / 100)%R eq_refl Hinit Hset
              (Hr missing_bsfc_config)) as ((profile & Hh & Hit) & Hsize).
  exists a, a', profile. split; [reflexivity | ].
  repeat (split; [assumption | ]). assumption.
Qed.

(** ** Two runs (C8) *)

(** The conventional aircraft built from [example_config], sized twice. *)
Lemma size_aircraft_deterministic_witness :
  exists (a a' after after' : HybridElectricAircraft R) (r : SizingResult R),
    HybridElectricAircraft_init "eSTOL-19" example_config = Ok a
    /\ set_powertrain a "conventional" 0%R None = Ok a'
    /\ size_aircraft example_config a' 1 (1 / 100)%R None = Ok (after, r)
    /\ size_aircraft example_config after 1 (1 / 100)%R None = Ok (after', r).
Proof.
  destruct (@conventional_setup R _ true 250%dec 80%dec 0%R)
    as (a & a' & b & Hinit & Hset & Hpt & Hr & Hsp & Hbsfc & _).
  pose proof (Hr example_config) as Hready.
  assert (Husable : usable (Conventional b)).
  { apply conventional_usable; [exact Hsp | rewrite Hbsfc; reflexivity]. }
  destruct (@size_aircraft_total R _ _ example_config a' _ 0%nat (1 / 100)%R None
              Hready Hpt Husable) as (after & r & Hsize).
  destruct (@size_aircraft_deterministic R _ _ example_config a' after 1%nat
              (1 / 100)%R None r Hsize) as [after' Hagain].
  exists a, a', after, after', r.
  split; [exact Hinit | ]. split; [exact Hset | ]. split; [exact Hsize | exact Hagain].
Defined.

(** * Further properties *)

(** ** The configuration loader *)

Section config_facts.
Context {F : Type}.
Implicit Types (v value : pyval F) (d : list (string * pyval F)).

Lemma assoc_dict_set_same {A} (k : string) (x : A) (d : list (string * A)) :
  assoc k (dict_set k x d) = Some x.
Proof.
  induction d as [ | [k' x'] d IH]; cbn [dict_set assoc].
  - rewrite String.eqb_refl. reflexivity.
  - destruct (String.eqb k k') eqn:E; cbn [assoc].
    + rewrite String.eqb_refl. reflexivity.
    + rewrite E. exact IH.
Qed.

Lemma get_from_app v (p q : list string) :
  get_from v (p ++ q) = get_from (get_from v p) q.
Proof.
  revert v. induction p as [ | k p IH]; intros v; cbn [app get_from].
  - reflexivity.
  - destruct v as [ | b | x | s | l | d];
      try (destruct q; reflexivity).
    destruct (assoc k d) as [c | ]; [apply IH | destruct q; reflexivity].
Qed.

Lemma update_in_get v keys last value v' :
  update_in v keys last value = Ok v' ->
  get_from v' (keys ++ [last]) = value.
Proof.
  revert v v'. induction keys as [ | k keys IH]; intros v v' H;
    cbn [update_in] in H; destruct v as [ | b | x | s | l | d]; try discriminate.
  - injection H as <-. cbn [app get_from]. rewrite assoc_dict_set_same.
    reflexivity.
  - destruct (update_in _ keys last value) as [c' | err] eqn:E;
      cbn [bind] in H; [ | discriminate].
    injection H as <-. cbn [app get_from]. rewrite assoc_dict_set_same.
    exact (IH _ _ E).
Qed.

End config_facts.

Section config_properties.
Context {F : Type}.

Lemma get_from_none (q : list string) : get_from (@VNone F) q = VNone \/ q = [].
Proof. destruct q; [right | left]; reflexivity. Qed.

Lemma get_from_default_found (v : pyval F) (keys : list string) (default : pyval F) :
  get_from v keys <> VNone -> get_from_default v keys default = get_from v keys.
Proof.
  revert v. induction keys as [ | k keys IH]; intros v Hfound;
    cbn [get_from get_from_default] in *; [reflexivity | ].
  destruct v as [ | b | x | s | l | d]; try (exfalso; apply Hfound; reflexivity).
  destruct (assoc k d) as [c | ]; [apply IH; exact Hfound | ].
  exfalso. apply Hfound. reflexivity.
Qed.

Lemma get_from_default_none (v : pyval F) (keys : list string) :
  get_from_default v keys VNone = get_from v keys.
Proof.
  revert v. induction keys as [ | k keys IH]; intros v;
    cbn [get_from get_from_default]; [reflexivity | ].
  destruct v as [ | b | x | s | l | d]; try reflexivity.
  destruct (assoc k d) as [c | ]; [apply IH | reflexivity].
Qed.

Lemma update_in_scalar (v leaf : pyval F) (pre keys : list string)
  (last : string) (value : pyval F) :
  get_from v pre = leaf ->
  leaf <> VNone -> (forall d, leaf <> VDict d) ->
  update_in v (pre ++ keys) last value
  = Raise (match keys with [] => TypeError | _ :: _ => AttributeError end).
Proof.
  revert v. induction pre as [ | k pre IH]; intros v Hleaf Hsome Hscalar.
  - cbn [get_from] in Hleaf. subst leaf. cbn [app].
    destruct v as [ | b | x | s | l | d];
      try (destruct keys; reflexivity).
    exfalso. exact (Hscalar d eq_refl).
  - cbn [get_from] in Hleaf. cbn [app update_in].
    destruct v as [ | b | x | s | l | d];
      try (exfalso; apply Hsome; symmetry; exact Hleaf).
    destruct (assoc k d) as [c | ];
      [ | exfalso; apply Hsome; symmetry; exact Hleaf].
    rewrite (IH c Hleaf Hsome Hscalar). reflexivity.
Qed.

(** X1.  [get] reads a path step by step, so that a path through a missing
    key or through a value that is no dict gives None at every longer path;
    and the [default] of [get] is returned only where [get] without it
    returns None: a leaf that is found is returned whatever the default. *)
Theorem get_reads_step_by_step :
  forall (self : ConfigLoader F) (p q : list string) (default : pyval F),
    get self (p ++ q) = get_from (get self p) q
    /\ (get self p = VNone -> q <> [] -> get self (p ++ q) = VNone)
    /\ (forall x : F, get self p = VNum x -> q <> [] -> get self (p ++ q) = VNone)
    /\ get_default self p VNone = get self p
    /\ (get self p <> VNone -> get_default self p default = get self p).
Proof.
  intros self p q default. unfold get, get_default.
  split; [apply get_from_app | ].
  split; [ | split].
  - intros Hnone Hq. rewrite get_from_app, Hnone.
    destruct q; [contradiction | reflexivity].
  - intros x Hx Hq. rewrite get_from_app, Hx.
    destruct q; [contradiction | reflexivity].
  - split; [apply get_from_default_none | apply get_from_default_found].
Qed.

(** X2.  When [update] returns, [get] with the same keys returns the value
    written, and [get] with more keys reads inside that value. *)
Theorem update_get_round_trip :
  forall (self self' : ConfigLoader F) (keys : list string) (last : string)
         (value : pyval F),
    update self keys last value = Ok self' ->
    get self' (keys ++ [last]) = value
    /\ forall more : list string,
         get self' (keys ++ last :: more) = get_from value more.
Proof.
  intros self self' keys last value H. unfold update in H.
  destruct (update_in (config self) keys last value) as [c | err] eqn:E;
    cbn [bind] in H; [ | discriminate].
  injection H as <-. unfold get. cbn [config].
  pose proof (update_in_get _ _ _ _ E) as Hget.
  split; [exact Hget | ].
  intros more.
  change (keys ++ last :: more)%list with (keys ++ ([last] ++ more))%list.
  rewrite app_assoc, get_from_app, Hget. reflexivity.
Qed.

(** X4.  [update] never replaces a value that is neither a dict nor None by
    a section: where the path written runs through such a value, the call
    raises AttributeError (at [setdefault]), and where it ends on one,
    TypeError (at the assignment). *)
Theorem update_refuses_scalars :
  forall (self : ConfigLoader F) (pre keys : list string) (last : string)
         (value leaf : pyval F),
    get self pre = leaf ->
    leaf <> VNone ->
    (forall d, leaf <> VDict d) ->
    update self pre last value = Raise TypeError
    /\ (keys <> [] ->
        update self (pre ++ keys) last value = Raise AttributeError).
Proof.
  intros self pre keys last value leaf Hleaf Hsome Hscalar. unfold update. split.
  - pose proof (@update_in_scalar (config self) leaf pre [] last value
                  Hleaf Hsome Hscalar) as E.
    rewrite app_nil_r in E. rewrite E. reflexivity.
  - intros Hkeys.
    rewrite (@update_in_scalar (config self) leaf pre keys last value
               Hleaf Hsome Hscalar).
    destruct keys; [contradiction | reflexivity].
Qed.
End config_properties.

(** The configuration without the BSFC leaf, completed by [update]. *)
Lemma update_get_round_trip_witness :
  exists self' : ConfigLoader float,
    update missing_bsfc_config ["hybrid_system"; "gas_turbine"] "BSFC_kg_kWh"
      (VNum #0.3%py) = Ok self'
    /\ get self' ["hybrid_system"; "gas_turbine"; "BSFC_kg_kWh"] = VNum #0.3%py.
Proof.
  destruct (update (@missing_bsfc_config float _)
              ["hybrid_system"; "gas_turbine"] "BSFC_kg_kWh" (VNum #0.3%py))
    as [self' | err] eqn:E.
  - exists self'. split; [reflexivity | ].
    exact (proj1 (update_get_round_trip _ _ _ _ E)).
  - vm_compute in E. discriminate.
Defined.

(** Writing a section below the aspect ratio, a number. *)
Lemma update_refuses_scalars_witness :
  update (@example_config float _) ["aerodynamics"; "aspect_ratio"] "value"
    (VNum #9%py) = Raise TypeError
  /\ update (@example_config float _) ["aerodynamics"; "aspect_ratio"; "wing"]
       "value" (VNum #9%py) = Raise AttributeError.
Proof.
  destruct (@update_refuses_scalars float example_config
              ["aerodynamics"; "aspect_ratio"] ["wing"] "value" (VNum #9%py)
              (VNum #10%py) eq_refl) as [Hlast Hthrough].
  - discriminate.
  - intros d. discriminate.
  - split; [exact Hlast | ]. apply Hthrough. discriminate.
Defined.

(** The aspect ratio of the example is a number: nothing is read below it,
    and it is returned whatever the default. *)
Lemma get_reads_step_by_step_witness :
  get (@example_config float _) ["aerodynamics"; "aspect_ratio"; "unit"] = VNone
  /\ get_default (@example_config float _) ["aerodynamics"; "aspect_ratio"]
       (VNum #7%py) = VNum #10%py.
Proof.
  destruct (@get_reads_step_by_step float example_config
              ["aerodynamics"; "aspect_ratio"] ["unit"] (VNum #7%py))
    as (_ & _ & Hnum & _ & Hfound).
  split.
  - apply (Hnum #10%py); [reflexivity | discriminate].
  - rewrite Hfound; [reflexivity | discriminate].
Defined.

(** ** Sizing and splitting, architecture by architecture *)

Section powertrain_facts.
Implicit Types (self sized : PowertrainBase R).

(** X5.  A parallel hybrid sized for the shaft power P at the ratio Hp has
    turbine and motor ratings that add up to P, and at the same ratio every
    demand between 0 and P is split within the two ratings. *)
Theorem parallel_sizing_covers_split :
  forall self sized (P_shaft_kW Hp P_required_kW : R) (split : PowerSplit R),
    size_components (ParallelHybrid self) P_shaft_kW Hp
    = Ok (ParallelHybrid sized) ->
    (0 <= Hp <= 1)%R ->
    (0 <= P_required_kW <= P_shaft_kW)%R ->
    get_power_split (ParallelHybrid sized) P_required_kW Hp = Ok split ->
    (P_GT_kW sized + P_EM_kW sized)%R = P_shaft_kW
    /\ (0 <= split_P_GT_kW split <= P_GT_kW sized)%R
    /\ (0 <= split_P_EM_kW split <= P_EM_kW sized)%R.
Proof.
  intros self sized P Hp P' split Hsize HHp HP Hsplit.
  cbn [size_components] in Hsize. unfold Parallel_size_components in Hsize.
  inv_ok Hsize. ok_inj.
  cbn [get_power_split] in Hsplit. unfold Parallel_get_power_split in Hsplit.
  inv_ok Hsplit. ok_inj.
  cbn [P_GT_kW P_EM_kW split_P_GT_kW split_P_EM_kW]. arith_R.
  split; [ring | ]. split; split; nra.
Qed.

(** X6.  A serial hybrid sized for the shaft power P (with positive motor
    and generator efficiencies and a hybridization ratio that is not
    negative) carries every demand between 0 and P on the generator alone:
    no battery power is drawn, and the turbine and the motor stay within
    their ratings.  At the demand P itself the turbine runs at its rating. *)
Theorem serial_sizing_covers_design_power :
  forall self sized (P_shaft_kW Hp_design P_required_kW Hp em_eff gen_eff : R)
         (split : PowerSplit R),
    size_components (SerialHybrid self) P_shaft_kW Hp_design
    = Ok (SerialHybrid sized) ->
    num (EM_efficiency (tech self)) = Ok em_eff ->
    num (GEN_efficiency (tech self)) = Ok gen_eff ->
    (0 < em_eff)%R -> (0 < gen_eff)%R -> (0 <= Hp_design)%R ->
    (0 <= P_required_kW <= P_shaft_kW)%R ->
    get_power_split (SerialHybrid sized) P_required_kW Hp = Ok split ->
    battery_power_W split = 0%R
    /\ (split_P_GT_kW split <= P_GT_kW sized)%R
    /\ (split_P_EM_kW split <= P_EM_kW sized)%R
    /\ (P_required_kW = P_shaft_kW -> split_P_GT_kW split = P_GT_kW sized).
Proof.
  intros self sized P Hpd P' Hp em gen split Hsize Hem Hgen Hempos Hgenpos HHp HP
    Hsplit.
  cbn [size_components] in Hsize. unfold Serial_size_components in Hsize.
  rewrite Hem, Hgen in Hsize. inv_ok Hsize. ok_inj.
  cbn [get_power_split] in Hsplit. unfold Serial_get_power_split in Hsplit.
  cbn [tech P_GEN_kW] in Hsplit. rewrite Hem, Hgen in Hsplit.
  inv_ok Hsplit. ok_inj.
  cbn [battery_power_W split_P_GT_kW split_P_EM_kW P_GT_kW P_EM_kW].
  unfold py_min, py_max. arith_R.
  assert (Hle : (P' / em <= P / em)%R).
  { unfold Rdiv. apply Rmult_le_compat_r; [ | lra].
    apply Rlt_le, Rinv_0_lt_compat. exact Hempos. }
  assert (Hinv : (0 < / gen)%R) by (apply Rinv_0_lt_compat; exact Hgenpos).
  destruct (Rltb_spec (P / em) (P' / em)) as [Hlt | Hge]; [lra | ].
  replace (P' / em - P' / em)%R with 0%R by ring.
  rewrite (@Rltb_false 0 0) by lra.
  split; [ring | ]. split; [ | split].
  - unfold Rdiv. apply Rmult_le_compat_r; [lra | exact Hle].
  - nra.
  - intros ->. reflexivity.
Qed.
End powertrain_facts.

(** A parallel hybrid sized for 1000 kW at the ratio 0.3, asked for 800 kW. *)
Lemma parallel_sizing_covers_split_witness :
  exists (sized : PowertrainBase R) (split : PowerSplit R),
    size_components (ParallelHybrid (ParallelHybridPowertrain example_tech))
      1000%R (3 / 10)%R = Ok (ParallelHybrid sized)
    /\ get_power_split (ParallelHybrid sized) 800%R (3 / 10)%R = Ok split
    /\ (split_P_GT_kW split <= P_GT_kW sized)%R
    /\ (split_P_EM_kW split <= P_EM_kW sized)%R.
Proof.
  assert (HHp : (0 <= 3 / 10 <= 1)%R) by lra.
  assert (HP : (0 <= 800 <= 1000)%R) by lra.
  eexists. eexists. split; [reflexivity | ]. split; [reflexivity | ].
  destruct (@parallel_sizing_covers_split
              (ParallelHybridPowertrain example_tech) _ 1000%R (3 / 10)%R
              800%R _ eq_refl HHp HP eq_refl) as (_ & [_ Hgt] & [_ Hem]).
  split; [exact Hgt | exact Hem].
Defined.

(** A serial hybrid sized for 500 kW, asked for 400 kW. *)
Lemma serial_sizing_covers_design_power_witness :
  exists (sized : PowertrainBase R) (split : PowerSplit R),
    size_components (SerialHybrid (SerialHybridPowertrain example_tech))
      500%R (1 / 2)%R = Ok (SerialHybrid sized)
    /\ get_power_split (SerialHybrid sized) 400%R 0%R = Ok split
    /\ battery_power_W split = 0%R.
Proof.
  assert (Hem : (0 < @lit R _ 0.95%dec)%R) by (arith_R; lra).
  assert (HHp : (0 <= 1 / 2)%R) by lra.
  assert (HP : (0 <= 400 <= 500)%R) by lra.
  eexists. eexists. split; [reflexivity | ]. split; [reflexivity | ].
  exact (proj1 (@serial_sizing_covers_design_power
                  (SerialHybridPowertrain example_tech) _ 500%R (1 / 2)%R
                  400%R 0%R #0.95 #0.95 _ eq_refl eq_refl eq_refl
                  Hem Hem HHp HP eq_refl)).
Defined.

Section multi_engine_facts.
Implicit Types (b sized : PowertrainBase R) (x : MultiEngineExt R).

Lemma per_engine_total (n P q : R) : n <> 0%R -> (P / n * q * n)%R = (P * q)%R.
Proof. intros Hn. field. exact Hn. Qed.

Lemma per_engine_mass (n P q sp c : R) :
  n <> 0%R -> (P / n * q / sp * c * n)%R = (P * q / sp * c)%R.
Proof.
  intros Hn. unfold Rdiv.
  replace (P * / n * q * / sp * c * n)%R with (P * q * / sp * c * (n * / n))%R
    by ring.
  rewrite Rinv_r by exact Hn. ring.
Qed.

(** X7.  With a number of engines that is not zero, the multi-engine
    powertrain is the parallel hybrid in its totals: sized for the same
    power and ratio it gets the same ratings and masses (so the same
    propulsion weight), and it splits every demand as the parallel hybrid
    does, with all engines operating and with one engine inoperative
    alike (the one-engine split does not read the number of engines). *)
Theorem multi_engine_matches_parallel :
  forall b x (n P Hp : R),
    num (num_engines x) = Ok n ->
    n <> 0%R ->
    (forall sized,
        size_components (ParallelHybrid b) P Hp = Ok (ParallelHybrid sized) ->
        exists x',
          size_components (MultiEngine b x) P Hp = Ok (MultiEngine sized x')
          /\ (P_GT_per_engine_kW x' * n)%R = P_GT_kW sized
          /\ (P_EM_per_engine_kW x' * n)%R = P_EM_kW sized
          /\ get_total_propulsion_weight (MultiEngine sized x')
             = get_total_propulsion_weight (ParallelHybrid sized))
    /\ get_power_split (MultiEngine b x) P Hp
       = get_power_split (ParallelHybrid b) P Hp
    /\ (forall x0 : MultiEngineExt R,
          Multi_get_power_split (b, x0) P Hp true
          = get_power_split (ParallelHybrid b) P Hp).
Proof.
  intros b x n P Hp Hnum Hn. split; [ | split].
  - intros sized Hsize. cbn [size_components] in *.
    unfold Parallel_size_components in Hsize. inv_ok Hsize. ok_inj.
    unfold Multi_size_components. rewrite Hnum. run. cbn [fst snd].
    eexists. split.
    + apply f_equal. arith_R.
      rewrite !per_engine_total by exact Hn.
      rewrite !per_engine_mass by exact Hn. reflexivity.
    + cbn [P_GT_per_engine_kW P_EM_per_engine_kW P_GT_kW P_EM_kW
           get_total_propulsion_weight]. arith_R.
      rewrite !per_engine_total by exact Hn. repeat split; reflexivity.
  - cbn [get_power_split]. unfold Multi_get_power_split, Parallel_get_power_split.
    rewrite Hnum. cbn [bind].
    destruct (num (GT_BSFC_kg_kWh (tech b))) as [bsfc | err]; cbn [bind];
      [ | reflexivity].
    destruct (num (EM_efficiency (tech b))) as [eff | err]; cbn [bind];
      [ | reflexivity].
    arith_R. rewrite !per_engine_total by exact Hn. reflexivity.
  - intros x0. cbn [get_power_split].
    unfold Multi_get_power_split, Parallel_get_power_split. cbn [bind].
    destruct (num (GT_BSFC_kg_kWh (tech b))) as [bsfc | err]; cbn [bind];
      [ | reflexivity].
    destruct (num (EM_efficiency (tech b))) as [eff | err]; cbn [bind];
      [ | reflexivity].
    arith_R. rewrite !Rmult_1_r. reflexivity.
Qed.
End multi_engine_facts.

(** Two engines, 1000 kW at the ratio 0.3. *)
Lemma multi_engine_matches_parallel_witness :
  get_power_split
    (MultiEngine (fst (MultiEnginePowertrain example_tech (VNum 2%R)))
       (snd (MultiEnginePowertrain example_tech (VNum 2%R))))
    1000%R (3 / 10)%R
  = get_power_split
      (ParallelHybrid (fst (MultiEnginePowertrain example_tech (VNum 2%R))))
      1000%R (3 / 10)%R.
Proof.
  assert (Hn : 2%R <> 0%R) by lra.
  exact (proj1 (proj2 (@multi_engine_matches_parallel
                         (fst (MultiEnginePowertrain example_tech (VNum 2%R)))
                         (snd (MultiEnginePowertrain example_tech (VNum 2%R)))
                         2%R 1000%R (3 / 10)%R eq_refl Hn))).
Defined.

Section sizing_facts.
Context {F : Type} {AF : Arith F}.

(** X8.  [size_components] overwrites what earlier calls wrote: after any
    number of calls that returned, a further call gives the powertrain
    (ratings, masses, motor sets) that the same call gives on the
    powertrain as it was before them all, for each of the six classes, and
    raises when that raises. *)
Theorem size_components_last_wins :
  forall (calls : list (F * F)) (pt pt' : Powertrain F) (P_shaft_kW Hp : F),
    size_in_turn pt calls = Ok pt' ->
    size_components pt' P_shaft_kW Hp = size_components pt P_shaft_kW Hp.
Proof.
  intros calls. induction calls as [ | [P1 Hp1] rest IH];
    intros pt pt' P Hp H; cbn [size_in_turn] in H.
  - injection H as <-. reflexivity.
  - destruct (size_components pt P1 Hp1) as [pt1 | err] eqn:E;
      cbn [bind] in H; [ | discriminate].
    rewrite (IH _ _ P Hp H).
    apply (size_components_overwrite _ _ _ E).
Qed.
End sizing_facts.

(** A conventional powertrain sized for 900 kW, for 800 kW, and then for
    700 kW. *)
Lemma size_components_last_wins_witness :
  exists pt' : Powertrain float,
    size_in_turn (Conventional (ConventionalPowertrain example_tech))
      [(#900, #0); (#800, #0)] = Ok pt'
    /\ size_components pt' #700 #0
       = size_components (Conventional (ConventionalPowertrain example_tech))
           #700 #0.
Proof.
  eassert (H : size_in_turn
                 (Conventional (ConventionalPowertrain (@example_tech float _)))
                 [(#900, #0); (#800, #0)] = Ok _) by reflexivity.
  name_result H pt'.
  exists pt'. split; [exact H | ].
  exact (@size_components_last_wins float _ _ _ _ #700 #0 H).
Defined.

Section weight_scaling.
Implicit Types (pt : Powertrain R).

(** X9.  For the five classes built on [PowertrainBase], the propulsion
    weight is proportional to the shaft power sized for: sizing for c times
    the power, at the same ratio, gives c times the weight.  (The dual-motor
    powertrain adds the weight of its high-lift motors, which does not
    scale.) *)
Theorem propulsion_weight_scales_with_power :
  forall pt pt1 ptc (P Hp c : R),
    (forall d, pt <> DualMotor d) ->
    size_components pt P Hp = Ok pt1 ->
    size_components pt (c * P)%R Hp = Ok ptc ->
    get_total_propulsion_weight ptc = (c * get_total_propulsion_weight pt1)%R.
Proof.
  intros pt pt1 ptc P Hp c Hbase H1 Hc.
  destruct pt as [b | b | b | b | b x | d];
    [ | | | | | exfalso; exact (Hbase d eq_refl)];
    cbn [size_components] in H1, Hc.
  - unfold Conventional_size_components in *. inv_ok H1. inv_ok Hc. ok_inj.
    cbn [get_total_propulsion_weight Base_get_total_propulsion_weight
         m_GT_lb m_EM_lb m_GEN_lb].
    unfold Base_get_total_propulsion_weight. cbn [m_GT_lb m_EM_lb m_GEN_lb].
    arith_R. unfold Rdiv. ring.
  - unfold Parallel_size_components in *. inv_ok H1. inv_ok Hc. ok_inj.
    cbn [get_total_propulsion_weight].
    unfold Base_get_total_propulsion_weight. cbn [m_GT_lb m_EM_lb m_GEN_lb].
    arith_R. unfold Rdiv. ring.
  - unfold Serial_size_components in *. inv_ok H1. inv_ok Hc. ok_inj.
    cbn [get_total_propulsion_weight].
    unfold Base_get_total_propulsion_weight. cbn [m_GT_lb m_EM_lb m_GEN_lb].
    arith_R. unfold Rdiv. ring.
  - unfold Electric_size_components in *. inv_ok H1. inv_ok Hc. ok_inj.
    cbn [get_total_propulsion_weight].
    unfold Base_get_total_propulsion_weight. cbn [m_GT_lb m_EM_lb m_GEN_lb].
    arith_R. unfold Rdiv. ring.
  - unfold Multi_size_components in *. inv_ok H1. inv_ok Hc. ok_inj.
    cbn [get_total_propulsion_weight fst snd].
    unfold Base_get_total_propulsion_weight. cbn [m_GT_lb m_EM_lb m_GEN_lb].
    arith_R. unfold Rdiv. ring.
Qed.
End weight_scaling.

(** A serial hybrid sized for 500 kW and for twice that. *)
Lemma propulsion_weight_scales_with_power_witness :
  exists pt1 ptc : Powertrain R,
    size_components (SerialHybrid (SerialHybridPowertrain example_tech))
      500%R (1 / 2)%R = Ok pt1
    /\ size_components (SerialHybrid (SerialHybridPowertrain example_tech))
         (2 * 500)%R (1 / 2)%R = Ok ptc
    /\ get_total_propulsion_weight ptc
       = (2 * get_total_propulsion_weight pt1)%R.
Proof.
  assert (Hbase : forall d : DualMotorDEP R,
             SerialHybrid (SerialHybridPowertrain example_tech) <> DualMotor d)
    by (intros d; discriminate).
  eexists. eexists. split; [reflexivity | ]. split; [reflexivity | ].
  exact (@propulsion_weight_scales_with_power _ _ _ 500%R (1 / 2)%R 2%R
           Hbase eq_refl eq_refl).
Defined.

(** ** The dual-motor powertrain *)

Section dual_motor_frame.
Context {F : Type} {AF : Arith F}.
Implicit Types (self sized : DualMotorDEP F).

(** What [size_cruise_motors] leaves untouched. *)
Lemma size_cruise_motors_frame self sized (P Hp : F) :
  size_cruise_motors self P Hp = Ok sized ->
  highlift_motors sized = highlift_motors self
  /\ cruise_architecture sized = cruise_architecture self
  /\ dm_tech sized = dm_tech self
  /\ dm_m_battery_lb sized = dm_m_battery_lb self
  /\ m_highlift_lb sized = m_highlift_lb self
  /\ exists motors, cruise_motors sized = Some motors
                    /\ active_phases motors = VList [VStr "all"]
                    /\ can_fold motors = VBool false.
Proof.
  intros H. unfold size_cruise_motors in H.
  destruct (is_str (cruise_architecture self) "parallel_hybrid");
    inv_ok H; ok_inj;
    cbn [highlift_motors cruise_architecture dm_tech dm_m_battery_lb
         m_highlift_lb cruise_motors];
    repeat split; eexists; repeat split; reflexivity.
Qed.

(** X10.  Sizing builds a set of cruise motors that is active in every
    flight phase, and leaves the high-lift motors as they are: the drag
    increment of the folded high-lift motors is the same before and after
    sizing, and it is 0.0 in every phase in which they are active. *)
Theorem cruise_motors_always_active :
  forall self sized (P_shaft_kW Hp S_wing_ft2 : F) (flight_phase : string),
    size_components (DualMotor self) P_shaft_kW Hp = Ok (DualMotor sized) ->
    (exists motors : MotorSet F,
        cruise_motors sized = Some motors
        /\ is_active motors flight_phase = Ok true)
    /\ get_drag_increment sized flight_phase S_wing_ft2
       = get_drag_increment self flight_phase S_wing_ft2
    /\ (is_active (highlift_motors self) flight_phase = Ok true ->
        get_drag_increment sized flight_phase S_wing_ft2 = Ok #0.0).
Proof.
  intros self sized P Hp S phase Hsize.
  cbn [size_components] in Hsize. unfold Dual_size_components in Hsize.
  destruct (size_cruise_motors self P Hp) as [d | err] eqn:E;
    cbn [bind] in Hsize; [ | discriminate].
  injection Hsize as ->.
  destruct (size_cruise_motors_frame _ _ _ E)
    as (Hhl & _ & _ & _ & _ & motors & Hmotors & Hphases & _).
  split; [ | split].
  - exists motors. split; [exact Hmotors | ].
    unfold is_active. rewrite Hphases. reflexivity.
  - unfold get_drag_increment. rewrite Hhl. reflexivity.
  - intros Hactive. unfold get_drag_increment. rewrite Hhl, Hactive. reflexivity.
Qed.
End dual_motor_frame.

Section dual_motor_facts.
Implicit Types (self sized : DualMotorDEP R).

(** X11.  Once sized, the dual-motor powertrain accounts for the whole
    demand: where [get_power_split] returns, turbine power plus motor power
    is the power required (never the all-zero split of the powertrain that
    was not sized), and unless the cruise architecture is parallel_hybrid
    the turbine power and the fuel rate are 0. *)
Theorem dual_motor_split_after_sizing :
  forall self sized (P_shaft_kW Hp_design P_required_kW Hp : R)
         (split : PowerSplit R),
    size_components (DualMotor self) P_shaft_kW Hp_design
    = Ok (DualMotor sized) ->
    get_power_split (DualMotor sized) P_required_kW Hp = Ok split ->
    (split_P_GT_kW split + split_P_EM_kW split)%R = P_required_kW
    /\ (is_str (cruise_architecture self) "parallel_hybrid" = false ->
        split_P_GT_kW split = 0%R
        /\ split_P_EM_kW split = P_required_kW
        /\ fuel_rate_kg_s split = 0%R).
Proof.
  intros self sized P Hpd P' Hp split Hsize Hsplit.
  cbn [size_components] in Hsize. unfold Dual_size_components in Hsize.
  destruct (size_cruise_motors self P Hpd) as [d | err] eqn:E;
    cbn [bind] in Hsize; [ | discriminate].
  injection Hsize as ->.
  destruct (size_cruise_motors_frame _ _ _ E)
    as (_ & Harch & _ & _ & _ & motors & Hmotors & _).
  cbn [get_power_split] in Hsplit. unfold Dual_get_power_split in Hsplit.
  rewrite Hmotors, Harch in Hsplit.
  destruct (is_str (cruise_architecture self) "parallel_hybrid");
    inv_ok Hsplit; ok_inj; cbn [split_P_GT_kW split_P_EM_kW fuel_rate_kg_s];
    arith_R.
  - split; [lra | discriminate].
  - split; [lra | ]. intros _. repeat split; lra.
Qed.

(** X12.  What sizing writes, for a number of cruise motors that is not
    zero: the turbine and motor ratings add up to the power sized for; the
    weight of the cruise motors is the turbine mass plus the motor mass;
    wiring and controllers weigh the total power (cruise plus high-lift)
    times the sum of their two factors; and the total of the weight
    breakdown is the sum of its five parts, the battery part and the
    high-lift part being those of before the call. *)
Theorem dual_motor_sizing_accounts :
  forall self sized (P_shaft_kW Hp n hl_power wf cf : R)
         (dep cr wc : pyval R),
    size_components (DualMotor self) P_shaft_kW Hp = Ok (DualMotor sized) ->
    subscript (dm_config self) "dep_system" = Ok dep ->
    subscript dep "cruise_motors" = Ok cr ->
    subscript cr "number_of_motors" = Ok (VNum n) ->
    n <> 0%R ->
    total_power_kW (highlift_motors self) = Ok hl_power ->
    subscript dep "wiring_and_controls" = Ok wc ->
    subscript wc "wiring_weight_factor" = Ok (VNum wf) ->
    subscript wc "controller_weight_per_kW" = Ok (VNum cf) ->
    (dm_P_GT_kW sized + dm_P_EM_kW sized)%R = P_shaft_kW
    /\ m_cruise_motors_lb sized = (dm_m_GT_lb sized + dm_m_EM_lb sized)%R
    /\ (m_wiring_lb sized + m_controllers_lb sized)%R
       = ((P_shaft_kW + hl_power) * (wf + cf))%R
    /\ assoc "total" (get_weight_breakdown sized)
       = Some (dm_m_battery_lb self + m_highlift_lb self
               + m_cruise_motors_lb sized + m_wiring_lb sized
               + m_controllers_lb sized)%R.
Proof.
  intros self sized P Hp n hl wf cf dep cr wc Hsize Hdep Hcr Hn Hne Hhl Hwc Hwf Hcf.
  cbn [size_components] in Hsize. unfold Dual_size_components in Hsize.
  destruct (size_cruise_motors self P Hp) as [d | err] eqn:E;
    cbn [bind] in Hsize; [ | discriminate].
  injection Hsize as ->.
  destruct (size_cruise_motors_frame _ _ _ E) as (_ & _ & _ & Hbat & Hhlw & _).
  unfold size_cruise_motors in E.
  rewrite Hdep in E. cbn [bind] in E. rewrite Hcr in E. cbn [bind] in E.
  rewrite Hn in E. cbn [bind num] in E. rewrite Hhl in E.
  rewrite Hwc in E. cbn [bind] in E. rewrite Hwf, Hcf in E. cbn [bind num] in E.
  assert (Hinv : (/ n * n)%R = 1%R) by (field; exact Hne).
  destruct (is_str (cruise_architecture self) "parallel_hybrid");
    unfold total_weight_lb, total_power_kW in E;
    cbn [num_motors weight_per_motor_lb power_per_motor_kW num bind] in E;
    inv_ok E; ok_inj;
    cbn [dm_P_GT_kW dm_P_EM_kW m_cruise_motors_lb dm_m_GT_lb dm_m_EM_lb
         m_wiring_lb m_controllers_lb get_weight_breakdown assoc String.eqb
         Ascii.eqb Bool.eqb dm_m_battery_lb m_highlift_lb];
    unfold Dual_get_total_propulsion_weight;
    cbn [dm_P_GT_kW dm_P_EM_kW m_cruise_motors_lb dm_m_GT_lb dm_m_EM_lb
         m_wiring_lb m_controllers_lb dm_m_battery_lb m_highlift_lb];
    arith_R; unfold Rdiv.
  - split; [ | split; [ring | split; [ring | reflexivity]]].
    replace (P * / n * (1 - Hp) * n + P * / n * Hp * n)%R
      with (P * (/ n * n))%R by ring.
    rewrite Hinv. ring.
  - split; [ | split; [ring | split; [ring | reflexivity]]].
    replace (0 * / 10 + n * (P * / n))%R with (P * (/ n * n))%R by ring.
    rewrite Hinv. ring.
Qed.

(** X13.  For a battery that the sizing loop labels energy (the energy of
    the mission decides its mass, not the peak power), [size_battery] on a
    dual-motor powertrain built from the same technology computes the
    battery weight of the loop's battery block, and adds it to the
    propulsion weight. *)
Theorem size_battery_matches_energy_sizing :
  forall (tech_spec : TechnologySpec R) (config : pyval R) self
         (mission_results : MissionResults R) (block : BatterySizing R),
    DualMotorDEPPowertrain tech_spec config = Ok self ->
    battery_sizing tech_spec mission_results = Ok block ->
    bs_sizing_constraint block = "energy" ->
    exists sized,
      size_battery self (total_battery_Wh mission_results) = Ok sized
      /\ dm_m_battery_lb sized = bs_W_battery_lb block
      /\ get_total_propulsion_weight (DualMotor sized)
         = (get_total_propulsion_weight (DualMotor self)
            + bs_W_battery_lb block)%R.
Proof.
  intros tech_spec config self mr block Hinit Hblock Hlabel.
  unfold DualMotorDEPPowertrain in Hinit. inv_ok Hinit. ok_inj.
  unfold battery_sizing in Hblock.
  destruct (num (battery_specific_energy_Wh_kg tech_spec)) as [se | err] eqn:Hse;
    cbn [bind] in Hblock; [ | discriminate].
  arith_R.
  destruct (Rltb_spec 0 se) as [Hpos | Hneg]; cbn [bind] in Hblock;
    [ | ok_inj; discriminate].
  destruct (num (battery_DOD tech_spec)) as [dod | err] eqn:Hdod;
    cbn [bind] in Hblock; [ | discriminate].
  destruct (Rltb_spec 0 dod) as [Hdpos | Hdneg];
    [ | ok_inj; discriminate].
  cbn [bind] in Hblock.
  destruct (peak_battery_power _ _ _) as [peak segment].
  inv_ok Hblock. ok_inj. cbn [bs_sizing_constraint bs_W_battery_lb] in *.
  unfold size_battery.
  cbn [dm_battery_DOD dm_battery_specific_energy_Wh_kg].
  rewrite Hdod, Hse. cbn [bind]. eexists. split; [reflexivity | ].
  cbn [get_total_propulsion_weight]. unfold Dual_get_total_propulsion_weight.
  cbn [assign_m_battery_lb dm_m_battery_lb m_highlift_lb m_cruise_motors_lb
       m_wiring_lb m_controllers_lb].
  unfold py_max in *. arith_R.
  match type of Hlabel with
  | (if ?c then _ else _) = _ => destruct c; [discriminate | ]
  end.
  assert (Hmass : (total_battery_Wh mr / dod / se * (220462 / 100000))%R
                  = (total_battery_Wh mr / dod / (10000 / 10) / (se / (10000 / 10))
                     * (220462 / 100000))%R).
  { field. lra. }
  split; [exact Hmass | ]. rewrite Hmass. lra.
Qed.
End dual_motor_facts.

(** The powertrain built from [dual_motor_json], sized for 800 kW and
    asked for 600 kW. *)
Lemma dual_motor_split_after_sizing_witness :
  exists (self sized : DualMotorDEP R) (split : PowerSplit R),
    DualMotorDEPPowertrain example_tech dual_motor_json = Ok self
    /\ size_components (DualMotor self) 800%R 0%R = Ok (DualMotor sized)
    /\ get_power_split (DualMotor sized) 600%R 0%R = Ok split
    /\ (split_P_GT_kW split + split_P_EM_kW split)%R = 600%R
    /\ fuel_rate_kg_s split = 0%R.
Proof.
  eassert (Hinit : DualMotorDEPPowertrain example_tech (@dual_motor_json R _)
                   = Ok _) by reflexivity.
  name_result Hinit self.
  eassert (Hsize : size_components (DualMotor self) 800%R 0%R
                   = Ok (DualMotor _)) by reflexivity.
  match type of Hsize with _ = Ok (DualMotor ?v) => set (sized := v) in * end.
  eassert (Hsplit : get_power_split (DualMotor sized) 600%R 0%R = Ok _)
    by reflexivity.
  name_result Hsplit shares.
  destruct (@dual_motor_split_after_sizing self sized _ _ _ _ shares Hsize Hsplit)
    as [Hsum Hpure].
  exists self, sized, shares.
  repeat (split; [assumption | ]).
  destruct (Hpure eq_refl) as (_ & _ & Hfuel). exact Hfuel.
Defined.

(** The same powertrain: two cruise motors, 126 kW of high-lift motors. *)
Lemma dual_motor_sizing_accounts_witness :
  exists self sized : DualMotorDEP R,
    DualMotorDEPPowertrain example_tech dual_motor_json = Ok self
    /\ size_components (DualMotor self) 800%R 0%R = Ok (DualMotor sized)
    /\ (dm_P_GT_kW sized + dm_P_EM_kW sized)%R = 800%R
    /\ m_cruise_motors_lb sized = (dm_m_GT_lb sized + dm_m_EM_lb sized)%R.
Proof.
  assert (Hn : 2%R <> 0%R) by lra.
  eassert (Hinit : DualMotorDEPPowertrain example_tech (@dual_motor_json R _)
                   = Ok _) by reflexivity.
  name_result Hinit self.
  eassert (Hsize : size_components (DualMotor self) 800%R 0%R
                   = Ok (DualMotor _)) by reflexivity.
  match type of Hsize with _ = Ok (DualMotor ?v) => set (sized := v) in * end.
  destruct (@dual_motor_sizing_accounts self sized 800%R 0%R 2%R _ _ _ _ _ _
              Hsize eq_refl eq_refl eq_refl Hn eq_refl eq_refl eq_refl eq_refl)
    as (Hpower & Hcruise & _).
  exists self, sized.
  repeat (split; [assumption | ]). exact Hcruise.
Defined.

(** The same powertrain in the climb, a phase in which its high-lift
    motors are not active. *)
Lemma cruise_motors_always_active_witness :
  exists (self sized : DualMotorDEP R) (motors : MotorSet R),
    DualMotorDEPPowertrain example_tech dual_motor_json = Ok self
    /\ size_components (DualMotor self) 800%R 0%R = Ok (DualMotor sized)
    /\ cruise_motors sized = Some motors
    /\ is_active motors "climb" = Ok true
    /\ is_active (highlift_motors sized) "climb" = Ok false.
Proof.
  eassert (Hinit : DualMotorDEPPowertrain example_tech (@dual_motor_json R _)
                   = Ok _) by reflexivity.
  name_result Hinit self.
  eassert (Hsize : size_components (DualMotor self) 800%R 0%R
                   = Ok (DualMotor _)) by reflexivity.
  match type of Hsize with _ = Ok (DualMotor ?v) => set (sized := v) in * end.
  destruct (@cruise_motors_always_active R _ self sized 800%R 0%R 150%R "climb"
              Hsize) as ((motors & Hmotors & Hactive) & _).
  exists self, sized, motors.
  repeat (split; [assumption | ]). reflexivity.
Defined.

(** A mission that draws 5000 Wh evenly over 80 minutes. *)
Lemma size_battery_matches_energy_sizing_witness :
  exists (self sized : DualMotorDEP R) (block : BatterySizing R),
    DualMotorDEPPowertrain example_tech dual_motor_json = Ok self
    /\ battery_sizing example_tech
         {| total_fuel_lb := 0%R; total_battery_Wh := 5000%R;
            total_time_sec := 4800%R; segments := [] |} = Ok block
    /\ size_battery self 5000%R = Ok sized
    /\ dm_m_battery_lb sized = bs_W_battery_lb block.
Proof.
  set (mr := {| total_fuel_lb := 0%R; total_battery_Wh := 5000%R;
                total_time_sec := 4800%R; segments := [] |}).
  destruct (DualMotorDEPPowertrain example_tech (@dual_motor_json R _))
    as [self | err] eqn:Hinit; [ | discriminate].
  assert (Hblock : exists block,
             battery_sizing example_tech mr = Ok block
             /\ bs_sizing_constraint block = "energy").
  { unfold battery_sizing. cbn [example_tech battery_specific_energy_Wh_kg
      battery_DOD battery_specific_power_kW_kg num bind]. arith_R.
    rewrite (@Rltb_true 0 250) by lra. cbn [bind].
    rewrite (@Rltb_true 0 (80 / 100)) by lra.
    cbn [peak_battery_power segments mr]. eexists. split; [reflexivity | ].
    cbn [bs_sizing_constraint]. unfold py_max. arith_R.
    rewrite (@Rltb_true 0 (10 / 10)) by lra.
    rewrite Rltb_false; [reflexivity | ].
    cbn [total_battery_Wh mr]. lra. }
  destruct Hblock as (block & Hblock & Hlabel).
  destruct (@size_battery_matches_energy_sizing _ _ _ _ _ Hinit Hblock Hlabel)
    as (sized & Hsized & Hmass & _).
  exists self, sized, block.
  split; [reflexivity | ]. split; [exact Hblock | ].
  split; [exact Hsized | exact Hmass].
Defined.

(** ** The standard atmosphere *)

Section atmosphere_facts.

Lemma Rleb_spec (x y : R) : BoolSpec (x <= y)%R (y < x)%R (Rleb x y).
Proof. unfold Rleb. destruct (Rle_dec x y); constructor; lra. Qed.

Lemma exp_le (x y : R) : (x <= y)%R -> (exp x <= exp y)%R.
Proof.
  intros [Hlt | ->]; [ | lra]. apply Rlt_le, exp_increasing. exact Hlt.
Qed.

Lemma Rdiv_ge (a b c : R) : (0 < b)%R -> (c * b <= a)%R -> (c <= a / b)%R.
Proof.
  intros Hb H. replace c with (c * b / b)%R by (field; lra).
  unfold Rdiv. apply Rmult_le_compat_r; [ | exact H].
  apply Rlt_le, Rinv_0_lt_compat. exact Hb.
Qed.

Lemma Rdiv_le (a b c : R) : (0 < b)%R -> (a <= c * b)%R -> (a / b <= c)%R.
Proof.
  intros Hb H. replace c with (c * b / b)%R by (field; lra).
  unfold Rdiv. apply Rmult_le_compat_r; [ | exact H].
  apply Rlt_le, Rinv_0_lt_compat. exact Hb.
Qed.

(** The exponent of the pressure law below 11 km. *)
Lemma troposphere_exponent :
  (0 < - (980665 / 100000) / (- (65 / 10000) * (28705 / 100)))%R.
Proof.
  replace (- (980665 / 100000) / (- (65 / 10000) * (28705 / 100)))%R
    with ((980665 / 100000) / ((65 / 10000) * (28705 / 100)))%R by (field; lra).
  apply Rdiv_lt_0_compat; lra.
Qed.

(** A power with its base between 3/4 and 1 and its exponent between 1
    and 6. *)
Lemma Rpower_between (u c : R) :
  (3 / 4 <= u <= 1)%R -> (1 <= c <= 6)%R ->
  ((3 / 4) ^ 6 <= Rpower u c <= u)%R.
Proof.
  intros [Hu1 Hu2] [Hc1 Hc2].
  assert (Hpos : (0 < u)%R) by lra.
  assert (Hln : (ln u <= 0)%R).
  { rewrite <- ln_1. destruct Hu2 as [Hlt | ->]; [ | lra].
    apply Rlt_le, ln_increasing; lra. }
  split.
  - apply Rle_trans with (Rpower u 6).
    + replace 6%R with (INR 6) by (simpl; lra).
      rewrite Rpower_pow by exact Hpos.
      apply pow_incr. lra.
    + unfold Rpower. apply exp_le. nra.
  - apply Rle_trans with (Rpower u 1).
    + unfold Rpower. apply exp_le. nra.
    + rewrite Rpower_1 by exact Hpos. lra.
Qed.

Lemma exp_INR_le (n : nat) : (exp (INR n) <= 3 ^ n)%R.
Proof.
  induction n as [ | n IH].
  - simpl. rewrite exp_0. lra.
  - rewrite S_INR, exp_plus. simpl pow. rewrite Rmult_comm.
    apply Rmult_le_compat;
      [apply Rlt_le, exp_pos | apply Rlt_le, exp_pos | | exact IH].
    apply exp_le_3.
Qed.

(** The exponential between -15 and 0. *)
Lemma exp_between (x : R) :
  (-15 <= x <= 0)%R -> (1 / 14348907 <= exp x <= 1)%R.
Proof.
  intros [Hlow Hhigh]. split.
  - apply Rle_trans with (exp (-15)); [ | apply exp_le; exact Hlow].
    change (-15)%R with (Ropp 15%R). rewrite exp_Ropp.
    assert (H15 : (exp 15 <= 14348907)%R).
    { replace 15%R with (INR 15) by (simpl; lra).
      eapply Rle_trans; [apply exp_INR_le | ]. simpl. lra. }
    pose proof (exp_pos 15) as Hp.
    unfold Rdiv. rewrite Rmult_1_l.
    apply Rinv_le_contravar; [exact Hp | exact H15].
  - rewrite <- exp_0. apply exp_le. exact Hhigh.
Qed.

(** The range of the values of [atmosisa] between sea level and 100 km. *)
Lemma atmosisa_range :
  forall altitude_m T P rho a : R,
    atmosisa altitude_m = (T, P, rho, a) ->
    (0 <= altitude_m <= 100000)%R ->
    (216.6 <= T <= 288.15)%R
    /\ (0.001 <= P <= 101325)%R
    /\ (0.00000001 <= rho <= 1.226)%R
    /\ (295 <= a <= 341)%R.
Proof.
  intros h T P rho a H [H0 Hmax]. unfold atmosisa in H.
  cbn [py_pow np_exp R_libm] in H. arith_R.
  assert (Hsound : forall t : R,
             (216.6 <= t <= 288.15)%R ->
             (295 <= R_sqrt.sqrt (14 / 10 * (28705 / 100) * t) <= 341)%R).
  { intros t Ht. split.
    - rewrite <- (sqrt_square 295) by lra. apply sqrt_le_1_alt. lra.
    - rewrite <- (sqrt_square 341) by lra. apply sqrt_le_1_alt. lra. }
  destruct (Rleb_spec h 11000) as [Hlow | Hhigh];
    injection H as <- <- <- <-.
  - set (t := (28815 / 100 + - (65 / 10000) * h)%R).
    assert (Ht : (216.65 <= t <= 288.15)%R) by (unfold t; lra).
    assert (Hc : (1 <= - (980665 / 100000) / (- (65 / 10000) * (28705 / 100))
                  <= 6)%R).
    { replace (- (980665 / 100000) / (- (65 / 10000) * (28705 / 100)))%R
        with ((980665 / 100000) / ((65 / 10000) * (28705 / 100)))%R
        by (field; lra).
      split; [apply Rdiv_ge; lra | apply Rdiv_le; lra]. }
    assert (Hu : (3 / 4 <= t / (28815 / 100) <= 1)%R).
    { split; [apply Rdiv_ge; lra | apply Rdiv_le; lra]. }
    destruct (Rpower_between Hu Hc) as [Hp1 Hp2].
    set (p := Rpower (t / (28815 / 100))
                (- (980665 / 100000) / (- (65 / 10000) * (28705 / 100)))) in *.
    assert (Hp3 : (p * (28815 / 100) <= t)%R).
    { apply Rmult_le_compat_r with (r := (28815 / 100)%R) in Hp2; [ | lra].
      replace (t / (28815 / 100) * (28815 / 100))%R with t in Hp2
        by (field; lra).
      exact Hp2. }
    assert (Hp4 : (17 / 100 <= p)%R) by (simpl in Hp1; lra).
    split; [lra | ]. split; [lra | ]. split; [ | apply Hsound; lra].
    split.
    + apply Rdiv_ge; [lra | ]. nra.
    + apply Rdiv_le; [lra | ]. nra.
  - set (x := (- (980665 / 100000) * (h - 11000)
               / (28705 / 100 * (21665 / 100)))%R).
    assert (Hx : (-15 <= x <= 0)%R).
    { unfold x. split; [apply Rdiv_ge; lra | apply Rdiv_le; lra]. }
    destruct (exp_between Hx) as [He1 He2].
    set (E := exp x) in *.
    split; [lra | ]. split; [lra | ]. split; [ | apply Hsound; lra].
    split; [apply Rdiv_ge; lra | apply Rdiv_le; lra].
Qed.


(** X14.  Between sea level and 100 km [atmosisa] returns values within
    their physical range: a temperature between 216.6 and 288.15 K, a
    pressure between 0.001 and 101325 Pa, a density between 1e-8 and
    1.226 kg/m3 and a speed of sound between 295 and 341 m/s; so the
    callers, which divide by the density, do not divide by zero at such an
    altitude.  (The bounds leave room for the rounding of binary64; the
    temperature the code returns at 11000 m is the double below 216.65.) *)
Theorem atmosisa_positive :
  forall altitude_m T P rho a : R,
    atmosisa altitude_m = (T, P, rho, a) ->
    (0 <= altitude_m <= 100000)%R ->
    (216.6 <= T <= 288.15)%R
    /\ (0.001 <= P <= 101325)%R
    /\ (0.00000001 <= rho <= 1.226)%R
    /\ (295 <= a <= 341)%R.
Proof. exact atmosisa_range. Qed.

(** X15.  Inside either layer (both altitudes up to 11000 m, or both above)
    the temperature and the pressure never rise with altitude.  Nothing is
    said across the boundary: there the exact pressure law steps up to the
    constant 22632.1 Pa, and in binary64 the temperature does by one unit
    in the last place. *)
Theorem atmosisa_decreasing :
  forall h1 h2 T1 P1 rho1 a1 T2 P2 rho2 a2 : R,
    atmosisa h1 = (T1, P1, rho1, a1) ->
    atmosisa h2 = (T2, P2, rho2, a2) ->
    (h1 <= h2)%R ->
    (h2 <= 11000 \/ 11000 < h1)%R ->
    (T2 <= T1)%R /\ (P2 <= P1)%R.
Proof.
  intros h1 h2 T1 P1 rho1 a1 T2 P2 rho2 a2 H1 H2 Hle Hlayer.
  unfold atmosisa in H1, H2. cbn [py_pow np_exp R_libm] in H1, H2. arith_R.
  destruct (Rleb_spec h1 11000) as [Hlow1 | Hhigh1];
    destruct (Rleb_spec h2 11000) as [Hlow2 | Hhigh2];
    injection H1 as <- <- <- <-; injection H2 as <- <- <- <-.
  - split; [lra | ].
    apply Rmult_le_compat_l; [lra | ].
    apply Rle_Rpower_l; [apply Rlt_le, troposphere_exponent | ].
    split.
    + apply Rdiv_lt_0_compat; lra.
    + unfold Rdiv. apply Rmult_le_compat_r; lra.
  - exfalso. destruct Hlayer; lra.
  - exfalso. lra.
  - split; [lra | ].
    apply Rmult_le_compat_l; [lra | ].
    apply exp_le. unfold Rdiv. apply Rmult_le_compat_r; [ | nra].
    apply Rlt_le, Rinv_0_lt_compat. lra.
Qed.
End atmosphere_facts.

(** The cruise altitude of the example, 8000 ft. *)
Lemma atmosisa_positive_witness :
  (0 < atmosisa_rho (8000 * 0.3048))%R.
Proof.
  unfold atmosisa_rho.
  destruct (atmosisa (8000 * 0.3048)%R) as [[[T P] rho] a] eqn:E.
  assert (Hrange : (0 <= 8000 * 0.3048 <= 100000)%R) by lra.
  destruct (atmosisa_positive E Hrange) as (_ & _ & Hrho & _). lra.
Defined.

(** 2000 m and 4000 m, both in the lower layer. *)
Lemma atmosisa_decreasing_witness :
  (fst (fst (fst (atmosisa 4000%R))) <= fst (fst (fst (atmosisa 2000%R))))%R.
Proof.
  destruct (atmosisa 2000%R) as [[[T1 P1] rho1] a1] eqn:E1.
  destruct (atmosisa 4000%R) as [[[T2 P2] rho2] a2] eqn:E2.
  assert (Hle : (2000 <= 4000)%R) by lra.
  assert (Hlayer : (4000 <= 11000 \/ 11000 < 2000)%R) by (left; lra).
  exact (proj1 (atmosisa_decreasing E1 E2 Hle Hlayer)).
Defined.

(** ** Constraint analysis *)

Section constraint_facts.
Implicit Types (self : HybridElectricAircraft R).

Lemma py_max_scale (c a b : R) :
  (0 < c)%R -> py_max (c * a)%R (c * b)%R = (c * py_max a b)%R.
Proof.
  intros Hc. unfold py_max. arith_R.
  destruct (Rltb_spec a b) as [H | H].
  - rewrite Rltb_true by nra. reflexivity.
  - rewrite Rltb_false by nra. reflexivity.
Qed.

Lemma lift_ratio_scale (c W q ws : R) :
  c <> 0%R -> (c * W / (q * (c * W / ws)))%R = (W / (q * (W / ws)))%R.
Proof.
  intros Hc. unfold Rdiv. rewrite !Rinv_mult.
  replace (c * W * (/ q * (/ c * / W * / / ws)))%R
    with (W * (/ q * (/ W * / / ws)) * (c * / c))%R by ring.
  rewrite Rinv_r by exact Hc. ring.
Qed.

Lemma power_scale (c x W v d : R) :
  (x * (c * W) * v / d)%R = (c * (x * W * v / d))%R.
Proof. unfold Rdiv. ring. Qed.

Lemma takeoff_power_scale (c x W k v d : R) :
  (x * (c * W) * k * v / d)%R = (c * (x * W * k * v / d))%R.
Proof. unfold Rdiv. ring. Qed.

Lemma perform_constraint_analysis_scales
  (W c : R) (vs bfl lfl clean clto clland cd0 : pyval R) (k1 : R)
  (speed alt prop : pyval R) (cfg : ConfigLoader R) (aug : R) (use : bool)
  (ws P : R) :
  perform_constraint_analysis W vs bfl lfl clean clto clland cd0 k1 speed alt
    prop cfg aug use = Ok (ws, P) ->
  (0 < c)%R ->
  perform_constraint_analysis (c * W)%R vs bfl lfl clean clto clland cd0 k1
    speed alt prop cfg aug use = Ok (ws, (c * P)%R).
Proof.
  intros H Hc. unfold perform_constraint_analysis in *.
  assert (Hne : c <> 0%R) by lra.
  destruct use; inv_ok H; ok_inj; run; unfold sqr; arith_R;
    rewrite lift_ratio_scale by exact Hne;
    rewrite !takeoff_power_scale, !power_scale;
    rewrite !py_max_scale by exact Hc;
    apply f_equal; apply f_equal; ring.
Qed.

(** X16.  The constraint analysis gives a wing loading that does not
    depend on the weight it is run for, and a shaft power proportional to
    that weight: for c times the weight (c positive) it returns the same
    wing loading and c times the power. *)
Theorem constraint_analysis_scales :
  forall self (TOGW_lb c WS_psf P_shaft_kW : R),
    constraint_analysis self TOGW_lb = Ok (WS_psf, P_shaft_kW) ->
    (0 < c)%R ->
    constraint_analysis self (c * TOGW_lb)%R = Ok (WS_psf, (c * P_shaft_kW)%R).
Proof.
  intros self W c ws P H Hc. unfold constraint_analysis in *.
  destruct (truthy (dep_enabled self) && truthy (dep_use_for_wing_sizing self)).
  - destruct (get_lift_augmentation_factor self true) as [aug | err];
      cbn [bind] in *; [ | discriminate].
    apply perform_constraint_analysis_scales; assumption.
  - cbn [bind] in *. apply perform_constraint_analysis_scales; assumption.
Qed.

Lemma py_min_mono (a b a' b' : R) :
  (a <= a')%R -> (b <= b')%R -> (py_min a b <= py_min a' b')%R.
Proof.
  intros Ha Hb. unfold py_min. arith_R.
  destruct (Rltb_spec b a); destruct (Rltb_spec b' a'); lra.
Qed.

(** X17.  Sizing the wing with blown lift (an augmentation factor of at
    least 1 applied to the maximum lift coefficients) never lowers the
    design wing loading, so never enlarges the wing, for lift coefficients
    that are not negative and a landing field length of at least 600 ft;
    with a factor of exactly 1 it changes nothing. *)
Theorem blown_lift_sizing_raises_wing_loading :
  forall (TOGW_lb : R) (V_stall_kts BFL_ft LFL_ft : pyval R)
         (CLmax_clean CLmax_TO CLmax_land : R) (CD0 : pyval R) (K1 : R)
         (cruise_speed_kts cruise_alt_ft prop_efficiency : pyval R)
         (config : ConfigLoader R) (augmentation lfl : R)
         (WS_blown P_blown WS_clean P_clean : R),
    perform_constraint_analysis TOGW_lb V_stall_kts BFL_ft LFL_ft
      (VNum CLmax_clean) (VNum CLmax_TO) (VNum CLmax_land) CD0 K1
      cruise_speed_kts cruise_alt_ft prop_efficiency config augmentation true
    = Ok (WS_blown, P_blown) ->
    perform_constraint_analysis TOGW_lb V_stall_kts BFL_ft LFL_ft
      (VNum CLmax_clean) (VNum CLmax_TO) (VNum CLmax_land) CD0 K1
      cruise_speed_kts cruise_alt_ft prop_efficiency config augmentation false
    = Ok (WS_clean, P_clean) ->
    num LFL_ft = Ok lfl ->
    (600 <= lfl)%R -> (0 <= CLmax_clean)%R -> (0 <= CLmax_land)%R ->
    (1 <= augmentation)%R ->
    (WS_clean <= WS_blown)%R
    /\ (augmentation = 1%R -> WS_blown = WS_clean /\ P_blown = P_clean).
Proof.
  intros W vs bfl lfl_v clean clto clland cd0 k1 speed alt prop cfg aug lfl
    wsb Pb wsc Pc Hb Hc Hlfl Hl Hclean Hland Haug.
  unfold perform_constraint_analysis in Hb, Hc.
  rewrite Hlfl in Hb, Hc. cbn [num bind] in Hb, Hc.
  inv_ok Hb. inv_ok Hc. ok_inj.
  repeat match goal with
  | H1 : ?m = Ok ?x, H2 : ?m = Ok ?y |- _ =>
      assert (x = y) by congruence; subst x; clear H2
  end.
  split.
  - apply py_min_mono; unfold sqr; arith_R.
    + apply Rmult_le_compat_l; [ | nra].
      match goal with |- (0 <= _ * _ * (?v * ?v))%R =>
        assert (0 <= v * v)%R by nra; nra end.
    + unfold Rdiv. apply Rmult_le_compat_r; [lra | ].
      apply Rmult_le_compat_r; [lra | ].
      apply Rmult_le_compat_l; [nra | nra].
  - intros ->. arith_R. rewrite !Rmult_1_r. split; reflexivity.
Qed.
End constraint_facts.

(** The conventional aircraft built from [example_config], at the first
    guess and at twice the first guess. *)
Lemma constraint_analysis_scales_witness :
  exists (a a' : HybridElectricAircraft R) (ws P : R),
    HybridElectricAircraft_init "eSTOL-19" example_config = Ok a
    /\ set_powertrain a "conventional" 0%R None = Ok a'
    /\ constraint_analysis a' 15000%R = Ok (ws, P)
    /\ constraint_analysis a' (2 * 15000)%R = Ok (ws, (2 * P)%R).
Proof.
  destruct (@conventional_setup R _ true 250%dec 80%dec 0%R)
    as (a & a' & b & Hinit & Hset & _ & Hr & _).
  destruct (@constraint_analysis_total R _ _ example_config a' 15000%R
              (Hr example_config)) as [[ws P] Hca].
  assert (Hc : (0 < 2)%R) by lra.
  exists a, a', ws, P.
  split; [exact Hinit | ]. split; [exact Hset | ]. split; [exact Hca | ].
  exact (@constraint_analysis_scales a' 15000%R 2%R ws P Hca Hc).
Defined.

(** The requirements of the example, with the lift augmentation of the
    blown wing, 1.52. *)
Lemma blown_lift_sizing_raises_wing_loading_witness :
  exists WS_blown P_blown WS_clean P_clean : R,
    perform_constraint_analysis 15000%R (VNum 60%R) (VNum 1500%R) (VNum 1500%R)
      (VNum 1.6%R) (VNum 2%R) (VNum 2.4%R) (VNum 0.025%R) 0.04%R
      (VNum 150%R) (VNum 8000%R) (VNum 0.85%R) example_config 1.52%R true
    = Ok (WS_blown, P_blown)
    /\ perform_constraint_analysis 15000%R (VNum 60%R) (VNum 1500%R)
         (VNum 1500%R) (VNum 1.6%R) (VNum 2%R) (VNum 2.4%R) (VNum 0.025%R)
         0.04%R (VNum 150%R) (VNum 8000%R) (VNum 0.85%R) example_config
         1.52%R false
       = Ok (WS_clean, P_clean)
    /\ (WS_clean <= WS_blown)%R.
Proof.
  eassert (Hb : perform_constraint_analysis 15000%R (VNum 60%R) (VNum 1500%R)
                  (VNum 1500%R) (VNum 1.6%R) (VNum 2%R) (VNum 2.4%R)
                  (VNum 0.025%R) 0.04%R (VNum 150%R) (VNum 8000%R)
                  (VNum 0.85%R) example_config 1.52%R true = Ok (_, _))
    by reflexivity.
  eassert (Hc : perform_constraint_analysis 15000%R (VNum 60%R) (VNum 1500%R)
                  (VNum 1500%R) (VNum 1.6%R) (VNum 2%R) (VNum 2.4%R)
                  (VNum 0.025%R) 0.04%R (VNum 150%R) (VNum 8000%R)
                  (VNum 0.85%R) example_config 1.52%R false = Ok (_, _))
    by reflexivity.
  assert (H1 : (600 <= 1500)%R) by lra.
  assert (H2 : (0 <= 1.6)%R) by lra.
  assert (H3 : (0 <= 2.4)%R) by lra.
  assert (H4 : (1 <= 1.52)%R) by lra.
  do 4 eexists. split; [exact Hb | ]. split; [exact Hc | ].
  exact (proj1 (@blown_lift_sizing_raises_wing_loading _ _ _ _ _ _ _ _ _ _ _ _ _
                  _ _ _ _ _ _ Hb Hc eq_refl H1 H2 H3 H4)).
Defined.

(** ** Choosing the powertrain *)

Section set_powertrain_facts.
Context {F : Type} {AF : Arith F}.
Implicit Types (self : HybridElectricAircraft F).

Lemma unknown_architecture self (architecture : string) (Hp : F) prof :
  ~ In (lower architecture) architectures ->
  set_powertrain self architecture Hp prof
  = Raise (ValueError ("Unknown architecture: " ++ architecture)).
Proof.
  intros Hname. unfold set_powertrain.
  repeat match goal with
  | |- context [if String.eqb (lower architecture) ?s then _ else _] =>
      let E := fresh "E" in
      destruct (String.eqb (lower architecture) s) eqn:E;
      [ exfalso; apply Hname; apply String.eqb_eq in E; rewrite E;
        unfold architectures; cbn [In]; tauto | ]
  end.
  reflexivity.
Qed.

(** X18.  [set_powertrain] reads the architecture name without regard to
    case: two names with the same lower-case form give the same aircraft
    when one of them is accepted; and a name whose lower-case form is none
    of the six raises ValueError with the name as it was given, whatever
    the other arguments. *)
Theorem set_powertrain_reads_name_in_lower_case :
  forall self (architecture architecture' : string) (Hp_design : F)
         (profile : option (list (string * F))),
    (lower architecture = lower architecture' ->
     forall after,
       set_powertrain self architecture Hp_design profile = Ok after ->
       set_powertrain self architecture' Hp_design profile = Ok after)
    /\ (~ In (lower architecture) architectures ->
        set_powertrain self architecture Hp_design profile
        = Raise (ValueError ("Unknown architecture: " ++ architecture))).
Proof.
  intros self arch arch' Hp prof. split; [ | apply unknown_architecture].
  intros Hlower after H.
  destruct (in_dec string_dec (lower arch) architectures) as [Hin | Hout].
  - unfold set_powertrain in *. rewrite <- Hlower.
    unfold architectures in Hin. cbn [In] in Hin.
    destruct Hin as [E | [E | [E | [E | [E | [E | []]]]]]];
      rewrite <- E in *; exact H.
  - rewrite (unknown_architecture self arch Hp prof Hout) in H. discriminate.
Qed.

(** X19.  [set_powertrain] builds the dual-motor powertrain from the
    sections dep_system.highlift_motors, dep_system.cruise_motors and
    dep_system.power_architecture of the configuration by subscription: on
    a configuration without the key dep_system, or with a dep_system
    without the key highlift_motors, it raises KeyError with that key, where
    the constructor of the aircraft accepted the same configuration. *)
Theorem dual_motor_needs_its_sections :
  forall self (architecture : string) (Hp_design : F)
         (profile : option (list (string * F)))
         (items : list (string * pyval F)),
    lower architecture = "dual_motor_dep" ->
    config (ac_config self) = VDict items ->
    (assoc "dep_system" items = None ->
     set_powertrain self architecture Hp_design profile
     = Raise (KeyError "dep_system"))
    /\ (forall dep : list (string * pyval F),
          assoc "dep_system" items = Some (VDict dep) ->
          assoc "highlift_motors" dep = None ->
          set_powertrain self architecture Hp_design profile
          = Raise (KeyError "highlift_motors")).
Proof.
  intros self arch Hp prof items Harch Hcfg. unfold set_powertrain.
  rewrite Harch. cbn [String.eqb Ascii.eqb Bool.eqb].
  unfold DualMotorDEPPowertrain. rewrite Hcfg. cbn [subscript]. split.
  - intros ->. reflexivity.
  - intros dep -> Hhl. cbn [bind subscript]. rewrite Hhl. reflexivity.
Qed.
End set_powertrain_facts.

Section profile_facts.
Implicit Types (self : HybridElectricAircraft R).

Lemma fold_py_max (l : list R) (x : R) :
  (x <= fold_left py_max l x)%R
  /\ (forall y, In y l -> (y <= fold_left py_max l x)%R)
  /\ In (fold_left py_max l x) (x :: l).
Proof.
  revert x. induction l as [ | y l IH]; intros x; cbn [fold_left].
  - split; [lra | ]. split; [intros y [] | left; reflexivity].
  - destruct (IH (py_max x y)) as (Hge & Hall & Hin).
    assert (Hmax : (x <= py_max x y)%R /\ (y <= py_max x y)%R
                   /\ (py_max x y = x \/ py_max x y = y)).
    { unfold py_max. arith_R. destruct (Rltb_spec x y); repeat split; auto; lra. }
    destruct Hmax as (Hx & Hy & Hcase).
    split; [lra | ]. split.
    + intros z [<- | Hz]; [lra | apply Hall; exact Hz].
    + destruct Hin as [Hin | Hin]; [ | right; right; exact Hin].
      rewrite <- Hin. destruct Hcase as [-> | ->]; [left | right; left]; reflexivity.
Qed.

(** X20.  With a hybridization profile, [set_powertrain] stores the
    profile and takes for [Hp_design] the largest of its values: one of the
    values, and no value exceeds it.  With an empty profile (and a name
    other than dual_motor_dep, whose powertrain object is built first) it
    raises ValueError, from [max] on an empty sequence. *)
Theorem set_powertrain_takes_largest_ratio :
  forall self (architecture : string) (Hp_argument : R)
         (profile : list (string * R)),
    In (lower architecture)
      ["conventional"; "parallel"; "serial"; "electric"; "multi_engine"] ->
    (profile = [] ->
     exists message : string,
       set_powertrain self architecture Hp_argument (Some profile)
       = Raise (ValueError message))
    /\ (profile <> [] ->
        exists after,
          set_powertrain self architecture Hp_argument (Some profile) = Ok after
          /\ hybridization_profile after = Some profile
          /\ In (Hp_design after) (map snd profile)
          /\ forall (segment : string) (ratio : R),
               In (segment, ratio) profile ->
               (ratio <= Hp_design after)%R).
Proof.
  intros self arch Hp profile Hin. unfold set_powertrain.
  assert (Hpt : exists pt,
             (if String.eqb (lower arch) "dual_motor_dep" then
                d <- DualMotorDEPPowertrain (ac_tech self) (config (ac_config self)) ;;
                Ok (DualMotor d)
              else if String.eqb (lower arch) "multi_engine" then
                Ok (MultiEngine
                      (fst (MultiEnginePowertrain (ac_tech self)
                              (get (ac_config self)
                                 ["propulsion"; "number_of_engines"])))
                      (snd (MultiEnginePowertrain (ac_tech self)
                              (get (ac_config self)
                                 ["propulsion"; "number_of_engines"]))))
              else if String.eqb (lower arch) "conventional" then
                Ok (Conventional (ConventionalPowertrain (ac_tech self)))
              else if String.eqb (lower arch) "parallel" then
                Ok (ParallelHybrid (ParallelHybridPowertrain (ac_tech self)))
              else if String.eqb (lower arch) "serial" then
                Ok (SerialHybrid (SerialHybridPowertrain (ac_tech self)))
              else if String.eqb (lower arch) "electric" then
                Ok (FullyElectric (FullyElectricPowertrain (ac_tech self)))
              else Raise (ValueError ("Unknown architecture: " ++ arch)))
             = Ok pt).
  { cbn [In] in Hin.
    destruct Hin as [E | [E | [E | [E | [E | []]]]]]; rewrite <- E;
      cbn [String.eqb Ascii.eqb Bool.eqb]; eauto. }
  destruct Hpt as [pt ->]. cbn [bind]. split.
  - intros ->. eexists. reflexivity.
  - intros Hne. destruct profile as [ | [seg0 r0] rest]; [contradiction | ].
    cbn [map snd max_of bind]. eexists. split; [reflexivity | ].
    cbn [hybridization_profile Hp_design assign_powertrain].
    destruct (fold_py_max (map snd rest) r0) as (Hge & Hall & Hmem).
    split; [reflexivity | ]. split; [exact Hmem | ].
    intros seg r [Heq | Hrest].
    + injection Heq as _ <-. exact Hge.
    + apply Hall. apply (in_map snd) in Hrest. exact Hrest.
Qed.
End profile_facts.

(** The complete configuration: the name in capitals is accepted, the
    dual-motor powertrain is refused. *)
Lemma set_powertrain_reads_name_in_lower_case_witness :
  exists a a' : HybridElectricAircraft float,
    HybridElectricAircraft_init "eSTOL-19" example_config = Ok a
    /\ set_powertrain a "serial" #0.5 None = Ok a'
    /\ set_powertrain a "SERIAL" #0.5 None = Ok a'
    /\ set_powertrain a "turbo" #0.5 None
       = Raise (ValueError "Unknown architecture: turbo").
Proof.
  eassert (Hinit : HybridElectricAircraft_init "eSTOL-19"
                     (@example_config float _) = Ok _) by reflexivity.
  name_result Hinit a.
  eassert (Hset : set_powertrain a "serial" #0.5 None = Ok _) by reflexivity.
  name_result Hset a'.
  destruct (@set_powertrain_reads_name_in_lower_case float _ a "serial" "SERIAL"
              #0.5 None) as [Hcase _].
  destruct (@set_powertrain_reads_name_in_lower_case float _ a "turbo" "turbo"
              #0.5 None) as [_ Hunknown].
  exists a, a'. split; [exact Hinit | ]. split; [exact Hset | ].
  split; [exact (Hcase eq_refl a' Hset) | ].
  apply Hunknown. unfold architectures. cbn [In lower].
  intros [E | [E | [E | [E | [E | [E | []]]]]]]; discriminate.
Defined.

Lemma dual_motor_needs_its_sections_witness :
  exists a : HybridElectricAircraft float,
    HybridElectricAircraft_init "eSTOL-19" example_config = Ok a
    /\ set_powertrain a "dual_motor_dep" #0.5 None
       = Raise (KeyError "highlift_motors").
Proof.
  eassert (Hinit : HybridElectricAircraft_init "eSTOL-19"
                     (@example_config float _) = Ok _) by reflexivity.
  name_result Hinit a.
  exists a. split; [exact Hinit | ].
  eapply (proj2 (@dual_motor_needs_its_sections float _ a "dual_motor_dep" #0.5
                   None _ eq_refl eq_refl)); reflexivity.
Defined.

(** A profile with 0.7 for the takeoff and 0.4 for the climb. *)
Lemma set_powertrain_takes_largest_ratio_witness :
  exists a a' : HybridElectricAircraft R,
    HybridElectricAircraft_init "eSTOL-19" example_config = Ok a
    /\ set_powertrain a "parallel" 0%R
         (Some [("takeoff", 0.7%R); ("climb", 0.4%R)]) = Ok a'
    /\ (0.4 <= Hp_design a')%R.
Proof.
  eassert (Hinit : HybridElectricAircraft_init "eSTOL-19"
                     (@example_config R _) = Ok _) by reflexivity.
  name_result Hinit a.
  assert (Hin : In (lower "parallel")
                  ["conventional"; "parallel"; "serial"; "electric";
                   "multi_engine"]) by (right; left; reflexivity).
  destruct (@set_powertrain_takes_largest_ratio a "parallel" 0%R
              [("takeoff", 0.7%R); ("climb", 0.4%R)] Hin) as [_ Hsome].
  destruct Hsome as (a' & Hset & _ & _ & Hall); [discriminate | ].
  exists a, a'. split; [exact Hinit | ]. split; [exact Hset | ].
  apply (Hall "climb"). right. left. reflexivity.
Defined.

(** ** The result of a sizing run *)

Section result_facts.
Context {F : Type} {AF : Arith F} {LF : Libm F}.
Variable module_config : ConfigLoader F.
Implicit Types (self after : HybridElectricAircraft F).

(** X21.  [size_aircraft] on an aircraft without a powertrain raises
    ValueError before anything else, whatever its arguments; and with a
    powertrain and an iteration cap of 0 the loop body never runs, so that
    the assignments after the loop raise UnboundLocalError on the first
    variable they read. *)
Theorem size_aircraft_needs_powertrain_and_iteration :
  forall self (max_iterations : nat) (tolerance : F)
         (profile_argument : option (list (string * F))),
    (powertrain self = None ->
     size_aircraft module_config self max_iterations tolerance profile_argument
     = Raise (ValueError "Must set powertrain before sizing"))
    /\ (forall profile,
          size_aircraft_header self profile_argument = Ok profile ->
          size_aircraft module_config self 0 tolerance profile_argument
          = Raise (UnboundLocalError "TOGW_new_lb")).
Proof.
  intros self n tol p. split.
  - intros Hnone. unfold size_aircraft, size_aircraft_header.
    rewrite Hnone. reflexivity.
  - intros profile Hh. unfold size_aircraft. rewrite Hh. reflexivity.
Qed.

(** What an iteration leaves in the weight breakdown. *)
Lemma sizing_iteration_breakdown self prof g a1 v :
  sizing_iteration module_config self prof g = Ok (a1, v) ->
  exists pt wing fuselage,
    powertrain a1 = Some pt
    /\ weight_breakdown a1
       = [("wing", wing); ("fuselage", fuselage);
          ("empennage", #0.04 * g); ("gear", #0.02 * g);
          ("propulsion", get_total_propulsion_weight pt);
          ("systems", #0.2 * g)]
    /\ it_OEW_lb v = fold_left add (map snd (weight_breakdown a1)) #0.
Proof.
  intros H. unfold sizing_iteration in H. inv_ok H. ok_inj.
  match goal with
  | E : calculate_OEW _ _ _ = Ok _ |- _ =>
      unfold calculate_OEW in E; inv_ok E; ok_inj
  end.
  match goal with
  | E : the_powertrain (with_powertrain _ _) = Ok _ |- _ =>
      cbn [the_powertrain with_powertrain assign_powertrain powertrain] in E;
      ok_inj
  end.
  cbn [powertrain weight_breakdown assign_weight_breakdown with_powertrain
       assign_powertrain it_OEW_lb].
  do 3 eexists. split; [reflexivity | ]. split; reflexivity.
Qed.

(** X22.  When [size_aircraft] returns, the design variables of the
    aircraft are those of the result: TOGW, OEW, fuel and battery weight,
    wing area, and the wing loading TOGW / wing area; the payload is the
    one configured; and the weight breakdown left on the aircraft has the
    six entries wing, fuselage, empennage, gear, propulsion and systems,
    which add up (from 0, in that order) to the OEW of the result, the
    propulsion entry being the propulsion weight of the powertrain left on
    the aircraft. *)
Theorem size_aircraft_leaves_its_result :
  forall self after (max_iterations : nat) (tolerance : F)
         (profile_argument : option (list (string * F))) (r : SizingResult F),
    size_aircraft module_config self max_iterations tolerance profile_argument
    = Ok (after, r) ->
    TOGW_lb after = VNum (r_TOGW_lb r)
    /\ OEW_lb after = r_OEW_lb r
    /\ W_fuel_lb after = r_W_fuel_lb r
    /\ W_battery_lb after = r_W_battery_lb r
    /\ S_wing_ft2 after = r_S_wing_ft2 r
    /\ WS_psf after = r_WS_psf r
    /\ r_WS_psf r = r_TOGW_lb r / r_S_wing_ft2 r
    /\ r_W_payload_lb r = W_payload_lb self
    /\ map fst (weight_breakdown after)
       = ["wing"; "fuselage"; "empennage"; "gear"; "propulsion"; "systems"]
    /\ fold_left add (map snd (weight_breakdown after)) #0 = r_OEW_lb r
    /\ exists pt,
         powertrain after = Some pt
         /\ assoc "propulsion" (weight_breakdown after)
            = Some (get_total_propulsion_weight pt).
Proof.
  intros self after n tol p r H. apply size_aircraft_inv in H.
  destruct H as (profile & a_n & vars & Hh & Hl & Hr).
  pose proof Hl as D. apply sizing_loop_resized in D.
  destruct (resized_fields D) as (_ & Hpay & _).
  apply sizing_loop_last in Hl.
  destruct Hl as [[Hl _] | (a_k & g_k & _ & Hit)]; [discriminate | ].
  apply sizing_iteration_breakdown in Hit.
  destruct Hit as (pt & wing & fuselage & Hpt & Hbd & Hoew).
  unfold size_aircraft_results in Hr. inv_ok Hr. ok_inj.
  cbn [TOGW_lb OEW_lb W_fuel_lb W_battery_lb S_wing_ft2 WS_psf W_payload_lb
       weight_breakdown powertrain assign_design
       r_TOGW_lb r_OEW_lb r_W_fuel_lb r_W_battery_lb r_S_wing_ft2 r_WS_psf
       r_W_payload_lb].
  repeat (split; [first [reflexivity | exact Hpay] | ]).
  rewrite <- Hoew, Hbd. split; [reflexivity | ]. split; [reflexivity | ].
  exists pt. split; [exact Hpt | reflexivity].
Qed.

(** How the iteration that ends the loop closes the weights. *)
Lemma size_aircraft_closure self after n tol p (r : SizingResult F) :
  size_aircraft module_config self n tol p = Ok (after, r) ->
  exists payload,
    num (W_payload_lb self) = Ok payload
    /\ r_TOGW_lb r = r_OEW_lb r + payload + r_W_fuel_lb r + r_W_battery_lb r
    /\ fuel_fraction r = r_W_fuel_lb r / r_TOGW_lb r
    /\ battery_fraction r = r_W_battery_lb r / r_TOGW_lb r
    /\ payload_fraction r = payload / r_TOGW_lb r.
Proof.
  intros H. apply size_aircraft_inv in H.
  destruct H as (profile & a_n & vars & Hh & Hl & Hr).
  pose proof Hl as D. apply sizing_loop_resized in D.
  destruct (resized_fields D) as (_ & Hsame & _).
  apply sizing_loop_last in Hl.
  destruct Hl as [[Hl _] | (a_k & g_k & _ & Hit)]; [discriminate | ].
  apply sizing_iteration_inv in Hit.
  destruct Hit as (_ & _ & _ & _ & _ & payload & Hpay & Htogw).
  unfold size_aircraft_results in Hr. inv_ok Hr. ok_inj.
  cbn [r_TOGW_lb r_OEW_lb r_W_fuel_lb r_W_battery_lb r_W_payload_lb
       fuel_fraction battery_fraction payload_fraction W_payload_lb
       assign_design] in *.
  match goal with
  | E : num (W_payload_lb a_n) = Ok ?x |- _ =>
      assert (x = payload) by congruence; subst x
  end.
  exists payload. split; [rewrite <- Hsame; exact Hpay | ].
  split; [exact Htogw | ]. repeat split; reflexivity.
Qed.
End result_facts.

(** X23.  The weights of a result close: TOGW = OEW + payload + fuel +
    battery, as the floats of the result in any arithmetic, and so in exact
    arithmetic the four fractions OEW / TOGW, payload, fuel and battery add
    up to 1 when TOGW is not zero. *)
Theorem size_aircraft_weights_close :
  (forall (F : Type) (AF : Arith F) (LF : Libm F) (module_config : ConfigLoader F)
          (self after : HybridElectricAircraft F) (max_iterations : nat)
          (tolerance : F) (profile_argument : option (list (string * F)))
          (r : SizingResult F),
      size_aircraft module_config self max_iterations tolerance profile_argument
      = Ok (after, r) ->
      exists payload : F,
        num (W_payload_lb self) = Ok payload
        /\ r_TOGW_lb r = r_OEW_lb r + payload + r_W_fuel_lb r + r_W_battery_lb r)
  /\ (forall (module_config : ConfigLoader R)
             (self after : HybridElectricAircraft R) (max_iterations : nat)
             (tolerance : R) (profile_argument : option (list (string * R)))
             (r : SizingResult R),
        size_aircraft module_config self max_iterations tolerance
          profile_argument = Ok (after, r) ->
        r_TOGW_lb r <> 0%R ->
        (r_OEW_lb r / r_TOGW_lb r + payload_fraction r + fuel_fraction r
         + battery_fraction r)%R = 1%R).
Proof.
  split.
  - intros F AF LF m self after n tol p r H.
    apply size_aircraft_closure in H.
    destruct H as (payload & Hnum & Htogw & _).
    exists payload. split; [exact Hnum | exact Htogw].
  - intros m self after n tol p r H Hne.
    apply size_aircraft_closure in H.
    destruct H as (payload & _ & Htogw & -> & -> & ->).
    arith_R. rewrite Htogw in *. field. exact Hne.
Qed.

(** ** Blown lift and battery draw *)

Section blown_lift_facts.
Context {F : Type} {AF : Arith F} {LF : Libm F}.
Variable module_config : ConfigLoader F.
Implicit Types (self : HybridElectricAircraft F).

Lemma lift_augmentation_disabled self (blown : bool) :
  truthy (dep_enabled self) = false ->
  get_lift_augmentation_factor self blown = Ok #1.0.
Proof.
  intros Hoff. unfold get_lift_augmentation_factor. rewrite Hoff.
  rewrite orb_true_r. reflexivity.
Qed.

Lemma highlift_power_disabled self (blown : bool) :
  truthy (dep_enabled self) = false ->
  get_highlift_motor_power module_config self blown = Ok #0.0.
Proof.
  intros Hoff. unfold get_highlift_motor_power. rewrite Hoff.
  rewrite orb_true_r. reflexivity.
Qed.

(** Case analysis on the calls that two runs share. *)
Ltac shared_calls :=
  repeat (cbn [bind fst snd];
          match goal with
          | |- context [bind ?m _] =>
              lazymatch m with
              | context [bind] => fail
              | Ok _ => fail
              | Raise _ => fail
              | _ => destruct m
              end
          | |- context [let (_, _) := ?p in _] => is_var p; destruct p
          end);
  cbn [bind fst snd].

Lemma segment_without_blown_lift self (seg seg' : MissionSegment F) (W S : F) :
  truthy (dep_enabled self) = false ->
  same_leg seg seg' ->
  (x <- simulate_segment module_config self seg W S ;; Ok (snd x))
  = (x <- simulate_segment module_config self seg' W S ;; Ok (snd x)).
Proof.
  intros Hoff (Hname & Hstart & Hend & Hhp).
  unfold simulate_segment. rewrite <- Hname.
  repeat match goal with
  | |- context [if String.eqb (seg_name seg) ?s then _ else _] =>
      destruct (String.eqb (seg_name seg) s)
  end;
  [ unfold simulate_cruise_segment
  | unfold simulate_climb_segment
  | unfold simulate_descent_segment
  | unfold simulate_takeoff_segment
  | unfold simulate_loiter_segment
  | unfold simulate_landing_segment
  | reflexivity ];
  unfold consumption;
  rewrite <- ?Hstart, <- ?Hend, <- ?Hhp;
  rewrite !(lift_augmentation_disabled _ _ Hoff),
          !(highlift_power_disabled _ _ Hoff);
  shared_calls; reflexivity.
Qed.

Lemma mission_without_blown_lift self (todo todo' : list (MissionSegment F))
  (S : F) :
  truthy (dep_enabled self) = false ->
  Forall2 same_leg todo todo' ->
  forall W tf tb tt,
    (x <- mission_loop module_config self todo S W tf tb tt ;; Ok (snd x))
    = (x <- mission_loop module_config self todo' S W tf tb tt ;; Ok (snd x)).
Proof.
  intros Hoff Hlegs. induction Hlegs as [ | seg seg' rest rest' Hleg _ IH];
    intros W tf tb tt; cbn [mission_loop]; [reflexivity | ].
  pose proof (segment_without_blown_lift self W S Hoff Hleg) as Hseg.
  destruct (simulate_segment module_config self seg W S)
    as [[s1 [[t f] b]] | err];
    destruct (simulate_segment module_config self seg' W S)
      as [[s2 [[t' f'] b']] | err'];
    cbn [bind snd] in Hseg; try discriminate.
  - injection Hseg as <- <- <-. cbn [bind].
    specialize (IH (W - f) (tf + f) (tb + b) (tt + t)).
    destruct (mission_loop module_config self rest S _ _ _ _)
      as [[done final] | err];
      destruct (mission_loop module_config self rest' S _ _ _ _)
        as [[done' final'] | err'];
      cbn [bind snd] in *; congruence.
  - injection Hseg as <-. reflexivity.
Qed.

Lemma create_mission_same_legs self (profile : list (string * F))
  (blown blown' : option (list (string * bool))) :
  Forall2 same_leg (create_mission self profile blown)
    (create_mission self profile blown').
Proof.
  unfold create_mission.
  repeat (constructor; [repeat split | ]). constructor.
Qed.

(** X24.  With the distributed-propulsion system disabled the blown-lift
    profile has no effect: the mission built with any blown-lift profile
    has the totals (fuel, battery energy, time) of the mission built with
    any other, and raises when that raises. *)
Theorem blown_profile_without_effect_when_disabled :
  forall self (profile : list (string * F))
         (blown blown' : option (list (string * bool))) (TOGW_lb S_wing_ft2 : F),
    truthy (dep_enabled self) = false ->
    totals (simulate_mission module_config self
              (create_mission self profile blown) TOGW_lb S_wing_ft2)
    = totals (simulate_mission module_config self
                (create_mission self profile blown') TOGW_lb S_wing_ft2).
Proof.
  intros self profile blown blown' W S Hoff.
  pose proof (mission_without_blown_lift self S Hoff
                (create_mission_same_legs self profile blown blown')
                W #0.0 #0.0 #0.0) as Hloop.
  unfold totals, simulate_mission.
  destruct (mission_loop module_config self (create_mission self profile blown)
              S W #0.0 #0.0 #0.0) as [[done [[[W1 tf] tb] tt]] | err];
    destruct (mission_loop module_config self
                (create_mission self profile blown') S W #0.0 #0.0 #0.0)
      as [[done' [[[W1' tf'] tb'] tt']] | err'];
    cbn [bind snd] in *; try discriminate.
  - injection Hloop as <- <- <- <-. reflexivity.
  - injection Hloop as <-. reflexivity.
Qed.
End blown_lift_facts.

Section conventional_battery.
Context {F : Type} {AF : Arith F} {LF : Libm F}.
Variable module_config : ConfigLoader F.
Variable zero_like : F -> Prop.
Hypothesis laws : zero_laws zero_like.
Implicit Types (self : HybridElectricAircraft F).
Local Open Scope py_scope.

Lemma conventional_segment_no_battery self (x : PowertrainBase F)
  (seg seg' : MissionSegment F) (W S t f b : F) :
  powertrain self = Some (Conventional x) ->
  truthy (dep_enabled self) = false ->
  simulate_segment module_config self seg W S = Ok (seg', (t, f, b)) ->
  zero_like b.
Proof.
  intros Hpt Hoff H. unfold simulate_segment in H.
  repeat match type of H with
  | (if ?c then _ else _) = _ => destruct c
  end;
  [ unfold simulate_cruise_segment in H
  | unfold simulate_climb_segment in H
  | unfold simulate_descent_segment in H
  | unfold simulate_takeoff_segment in H
  | unfold simulate_loiter_segment in H
  | unfold simulate_landing_segment in H
  | discriminate ];
  unfold consumption, the_powertrain in H;
  rewrite (highlift_power_disabled module_config _ _ Hoff), Hpt in H;
  cbn [bind get_power_split] in H; unfold Conventional_get_power_split in H;
  inv_ok H; ok_inj; cbn [battery_power_W];
  apply (zero_add laws); apply (zero_div laws), (zero_mul_l laws);
  try apply (zero_mul_l laws); exact (zero_like_literal laws).
Qed.

Lemma conventional_mission_no_battery self (x : PowertrainBase F)
  (todo : list (MissionSegment F)) (S : F) :
  powertrain self = Some (Conventional x) ->
  truthy (dep_enabled self) = false ->
  forall W tf tb tt done W' tf' tb' tt',
    zero_like tb ->
    mission_loop module_config self todo S W tf tb tt
    = Ok (done, (W', tf', tb', tt')) ->
    zero_like tb' /\ Forall (fun r => zero_like (battery_Wh r)) done.
Proof.
  intros Hpt Hoff. induction todo as [ | seg rest IH];
    intros W tf tb tt done W' tf' tb' tt' Hz H; cbn [mission_loop] in H.
  - ok_inj. split; [exact Hz | constructor].
  - destruct (simulate_segment module_config self seg W S)
      as [[seg' [[t f] b]] | err] eqn:Eseg; cbn [bind] in H; [ | discriminate].
    destruct (mission_loop module_config self rest S _ _ _ _)
      as [[done' [[[W1 tf1] tb1] tt1]] | err] eqn:Erest; cbn [bind] in H;
      [ | discriminate].
    ok_inj.
    assert (Hb : zero_like b)
      by (eapply conventional_segment_no_battery; eassumption).
    eapply IH in Erest; [ | apply (zero_add laws); assumption].
    destruct Erest as [Htotal Hall]. split; [exact Htotal | ].
    constructor; [exact Hb | exact Hall].
Qed.

(** No segment of such a mission raises the peak above the 0.0 it starts
    from. *)
Lemma no_draw_peak (l : list (MissionSegment F)) :
  Forall (fun r => zero_like (battery_Wh r)) l ->
  forall name, peak_battery_power l #0.0 name = (#0.0, name).
Proof.
  intros Hall. induction Hall as [ | r l Hr _ IH]; intros name;
    cbn [peak_battery_power]; [reflexivity | ].
  destruct (time_sec r >? #0); [ | apply IH].
  rewrite (zero_ltb laws);
    [apply IH | exact (zero_like_literal laws) | apply (zero_div laws); exact Hr].
Qed.

Lemma conventional_run_no_battery self after (x : PowertrainBase F) n tol p r :
  powertrain self = Some (Conventional x) ->
  truthy (dep_enabled self) = false ->
  size_aircraft module_config self n tol p = Ok (after, r) ->
  zero_like (r_W_battery_lb r)
  /\ zero_like (battery_fraction r)
  /\ zero_like (battery_peak_power_kW r)
  /\ zero_like (battery_c_rate r)
  /\ (battery_sizing_constraint r = "energy"
      \/ battery_sizing_constraint r = "N/A").
Proof.
  intros Hpt Hoff H.
  pose proof (zero_like_literal laws) as Hlit.
  apply size_aircraft_provenance in H.
  destruct H as (a1 & prof & g & S & mr & bat & D & Hmission & Hbat & _ & _
                 & -> & -> & -> & _ & -> & -> & _).
  destruct (resized_conventional D Hpt) as (y & Hy & _ & Hdep).
  rewrite <- Hdep in Hoff.
  unfold simulate_mission in Hmission.
  destruct (mission_loop module_config a1 (create_mission a1 prof None) S g
              #0.0 #0.0 #0.0) as [[done [[[W1 tf] tb] tt]] | err] eqn:Eloop;
    cbn [bind] in Hmission; [ | discriminate].
  injection Hmission as <-.
  eapply conventional_mission_no_battery in Eloop;
    [ | exact Hy | exact Hoff | exact Hlit].
  destruct Eloop as [Htotal Hall].
  pose proof (no_draw_peak Hall) as Hpeak.
  assert (Hnone : bat = no_battery_block ->
                  zero_like (bs_W_battery_lb bat)
                  /\ zero_like (bs_W_battery_lb bat / r_TOGW_lb r)
                  /\ zero_like (bs_max_battery_power_kW bat)
                  /\ zero_like (bs_c_rate_actual bat)
                  /\ (bs_sizing_constraint bat = "energy"
                      \/ bs_sizing_constraint bat = "N/A")).
  { intros ->. unfold no_battery_block.
    cbn [bs_W_battery_lb bs_max_battery_power_kW bs_c_rate_actual
         bs_sizing_constraint].
    repeat (split; [first [exact Hlit | apply (zero_div laws); exact Hlit] | ]).
    right. reflexivity. }
  unfold battery_sizing in Hbat. cbn [total_battery_Wh segments] in Hbat.
  destruct (num (battery_specific_energy_Wh_kg (ac_tech self))) as [se | err];
    cbn [bind] in Hbat; [ | discriminate].
  destruct (se >? #0); cbn [bind] in Hbat;
    [ | ok_inj; apply Hnone; reflexivity].
  destruct (num (battery_DOD (ac_tech self))) as [dod | err];
    cbn [bind] in Hbat; [ | discriminate].
  destruct (dod >? #0); [ | ok_inj; apply Hnone; reflexivity].
  cbn [bind] in Hbat. rewrite (Hpeak "") in Hbat.
  destruct (num (battery_specific_power_kW_kg (ac_tech self))) as [sp | err];
    cbn [bind] in Hbat; [ | discriminate].
  ok_inj.
  cbn [bs_W_battery_lb bs_max_battery_power_kW bs_c_rate_actual
       bs_sizing_constraint].
  set (energy_kWh := tb / dod / #1000.0).
  set (m_energy := energy_kWh / (se / #1000.0)).
  set (m_power := if sp >? #0 then #0.0 / #1000.0 / sp else #0.0).
  assert (HkWh : zero_like energy_kWh) by (do 2 apply (zero_div laws); exact Htotal).
  assert (Henergy : zero_like m_energy) by (apply (zero_div laws); exact HkWh).
  assert (Hpower : zero_like m_power).
  { unfold m_power. destruct (sp >? #0); [ | exact Hlit].
    do 2 apply (zero_div laws). exact Hlit. }
  assert (Hmass : zero_like (py_max m_energy m_power * #2.20462)).
  { apply (zero_mul_l laws). unfold py_max.
    destruct (m_power >? m_energy); assumption. }
  split; [exact Hmass | ]. split; [apply (zero_div laws); exact Hmass | ].
  split; [apply (zero_div laws); exact Hlit | ].
  rewrite (zero_ltb laws _ _ (zero_literal laws) HkWh).
  split; [exact Hlit | ].
  rewrite (zero_ltb laws _ _ Henergy Hpower). left. reflexivity.
Qed.
End conventional_battery.

(** X25.  A conventional aircraft with the distributed-propulsion system
    disabled draws no battery energy: the battery weight, the battery
    fraction, the peak battery power and the C-rate of every sizing result
    are values of which [zero_like] holds, for every predicate with the laws
    [zero_laws] (0 in exact arithmetic; a zero or NaN in binary64, NaN when
    a segment time is not finite), and the battery label is energy or N/A,
    never POWER. *)
Theorem conventional_sizing_has_no_battery :
  forall (F : Type) (AF : Arith F) (LF : Libm F) (zero_like : F -> Prop)
         (module_config : ConfigLoader F)
         (self after : HybridElectricAircraft F) (x : PowertrainBase F)
         (max_iterations : nat) (tolerance : F)
         (profile_argument : option (list (string * F))) (r : SizingResult F),
    zero_laws zero_like ->
    powertrain self = Some (Conventional x) ->
    truthy (dep_enabled self) = false ->
    size_aircraft module_config self max_iterations tolerance profile_argument
    = Ok (after, r) ->
    zero_like (r_W_battery_lb r)
    /\ zero_like (battery_fraction r)
    /\ zero_like (battery_peak_power_kW r)
    /\ zero_like (battery_c_rate r)
    /\ (battery_sizing_constraint r = "energy"
        \/ battery_sizing_constraint r = "N/A")
    /\ battery_sizing_constraint r <> "POWER".
Proof.
  intros F AF LF zero_like m self after x n tol p r laws Hpt Hoff H.
  destruct (@conventional_run_no_battery F AF LF m zero_like laws self after x
              n tol p r Hpt Hoff H) as (Hw & Hfrac & Hpk & Hc & Hlabel).
  repeat (split; [assumption | ]).
  destruct Hlabel as [-> | ->]; discriminate.
Qed.

(** The conventional aircraft built from [example_config], on which the
    distributed-propulsion system is switched off, in exact arithmetic. *)
Lemma conventional_sizing_has_no_battery_witness :
  exists (a a' after : HybridElectricAircraft R) (r : SizingResult R),
    HybridElectricAircraft_init "eSTOL-19" example_config = Ok a
    /\ set_powertrain a "conventional" 0%R None = Ok a'
    /\ size_aircraft example_config a' 1 (1 / 100)%R None = Ok (after, r)
    /\ r_W_battery_lb r = 0%R.
Proof.
  destruct (@conventional_setup R _ true 250%dec 80%dec 0%R)
    as (a & a' & b & Hinit & Hset & Hpt & Hr & Hsp & Hbsfc & _).
  pose proof (Hr example_config) as Hready.
  assert (Husable : usable (Conventional b)).
  { apply conventional_usable; [exact Hsp | rewrite Hbsfc; reflexivity]. }
  destruct (@size_aircraft_total R _ _ example_config a' _ 0%nat (1 / 100)%R None
              Hready Hpt Husable) as (after & r & Hsize).
  assert (Hoff : truthy (dep_enabled a') = false).
  { unfold set_powertrain in Hset. cbn in Hset. injection Hset as <-.
    unfold HybridElectricAircraft_init in Hinit. cbn in Hinit.
    injection Hinit as <-. reflexivity. }
  exists a, a', after, r.
  split; [exact Hinit | ]. split; [exact Hset | ]. split; [exact Hsize | ].
  exact (proj1 (@conventional_sizing_has_no_battery R _ _ (fun x : R => x = 0%R)
                  example_config a' after b 1%nat (1 / 100)%R None r
                  exact_zero_laws Hpt Hoff Hsize)).
Defined.

(** ** The mission flown *)

Section mission_profile_facts.
Context {F : Type} {AF : Arith F}.
Implicit Types (self : HybridElectricAircraft F).

(** X26.  [create_mission] builds six segments that join in altitude: the
    first starts at 0 ft, each segment starts at the altitude at which the
    one before it ends, and the last ends at 0 ft; each takes its
    hybridization ratio from the profile under its own name, 0.0 when the
    profile has no such key; and without a blown-lift profile the blown
    lift is active in the takeoff, the climb and the landing only, while a
    profile given decides alone (inactive for a name it lacks). *)
Theorem create_mission_joins_segments :
  forall self (profile : list (string * F))
         (blown : option (list (string * bool))),
    let mission := create_mission self profile blown in
    map (@seg_name F) mission = canonical_order
    /\ map (@Hp F) mission
       = map (fun name => profile_get profile name #0.0) canonical_order
    /\ map (@altitude_start_ft F) mission
       = VNum #0 :: removelast (map (@altitude_end_ft F) mission)
    /\ last (map (@altitude_end_ft F) mission) VNone = VNum #0
    /\ map (@blown_lift_active F) mission
       = match blown with
         | None => [true; true; false; false; false; true]
         | Some given =>
             map (fun name => profile_get given name false) canonical_order
         end.
Proof.
  intros self profile blown mission. subst mission.
  unfold create_mission, canonical_order.
  cbn [map seg_name Hp altitude_start_ft altitude_end_ft blown_lift_active
       MissionSegment_new removelast last].
  repeat split. destruct blown; reflexivity.
Qed.

(** X27.  Which hybridization ratios a sizing run flies.  After
    [set_powertrain] with a profile, [size_aircraft] without a profile
    argument uses that profile; after [set_powertrain] without one, it flies
    the takeoff, the climb and the landing at [Hp_design] and the cruise,
    the descent and the loiter at 0.0; and a profile passed to
    [size_aircraft] takes precedence over both. *)
Theorem sizing_profile_precedence :
  forall self sized (architecture : string) (Hp_argument : F)
         (stored : option (list (string * F)))
         (argument : option (list (string * F))) (profile : list (string * F)),
    set_powertrain self architecture Hp_argument stored = Ok sized ->
    size_aircraft_header sized argument = Ok profile ->
    match argument, stored with
    | Some given, _ => profile = given
    | None, Some given => profile = given
    | None, None =>
        map (@Hp F) (create_mission sized profile None)
        = [Hp_argument; Hp_argument; #0.0; #0.0; #0.0; Hp_argument]
    end.
Proof.
  intros self sized arch Hp stored argument profile Hset Hh.
  unfold set_powertrain in Hset.
  match type of Hset with bind ?m _ = _ => destruct m as [pt | err] end;
    cbn [bind] in Hset; [ | discriminate].
  unfold size_aircraft_header in Hh.
  destruct stored as [given | ].
  - inv_ok Hset. ok_inj.
    cbn [powertrain hybridization_profile assign_powertrain] in Hh.
    inv_ok Hh. ok_inj. destruct argument; reflexivity.
  - ok_inj.
    cbn [powertrain hybridization_profile Hp_design assign_powertrain] in Hh.
    inv_ok Hh. ok_inj. destruct argument; reflexivity.
Qed.
End mission_profile_facts.

(** ** The battery block *)

Section battery_block_facts.

(** X28.  [peak_battery_power] returns the largest average battery power
    (energy over time, in W) among the segments that take time, or the power
    it starts from when no segment exceeds it; the name returned is that of
    a segment with that average power, or the name it starts from. *)
Theorem peak_battery_power_is_largest :
  forall (segs : list (MissionSegment R)) (start peak : R)
         (start_name peak_name : string),
    peak_battery_power segs start start_name = (peak, peak_name) ->
    (start <= peak)%R
    /\ (forall seg,
          In seg segs -> (0 < time_sec seg)%R ->
          (battery_Wh seg / (time_sec seg / 3600) <= peak)%R)
    /\ ((peak = start /\ peak_name = start_name)
        \/ exists seg,
             In seg segs /\ (0 < time_sec seg)%R
             /\ peak = (battery_Wh seg / (time_sec seg / 3600))%R
             /\ peak_name = seg_name seg
             /\ (start < peak)%R).
Proof.
  intros segs. induction segs as [ | seg rest IH];
    intros start peak start_name peak_name H; cbn [peak_battery_power] in H.
  - injection H as <- <-. split; [lra | ]. split; [intros seg [] | ].
    left. split; reflexivity.
  - arith_R.
    destruct (Rltb_spec 0 (time_sec seg)) as [Htime | Htime].
    + destruct (Rltb_spec start (battery_Wh seg / (time_sec seg / 3600)))
        as [Hmore | Hless].
      * apply IH in H. destruct H as (Hge & Hall & Hcase).
        split; [lra | ]. split.
        -- intros s [<- | Hs] Ht; [exact Hge | apply Hall; assumption].
        -- right. destruct Hcase as [[-> ->] | (s & Hs & Ht & -> & -> & Hlt)].
           ++ exists seg. repeat split; try reflexivity; try assumption.
              left. reflexivity.
           ++ exists s. repeat split; try reflexivity; try assumption.
              ** right. exact Hs.
              ** lra.
      * apply IH in H. destruct H as (Hge & Hall & Hcase).
        split; [exact Hge | ]. split.
        -- intros s [<- | Hs] Ht; [lra | apply Hall; assumption].
        -- destruct Hcase as [Hsame | (s & Hs & Ht & Hp & Hn & Hlt)];
             [left; exact Hsame | right].
           exists s. repeat split; try assumption. right. exact Hs.
    + apply IH in H. destruct H as (Hge & Hall & Hcase).
      split; [exact Hge | ]. split.
      * intros s [<- | Hs] Ht; [lra | apply Hall; assumption].
      * destruct Hcase as [Hsame | (s & Hs & Ht & Hp & Hn & Hlt)];
          [left; exact Hsame | right].
        exists s. repeat split; try assumption. right. exact Hs.
Qed.

End battery_block_facts.

(** The mission with a short burst of power: 450 kW in the takeoff. *)
Lemma peak_battery_power_is_largest_witness :
  exists (peak : R) (peak_name : string),
    peak_battery_power (segments short_burst_results) 0%R "" = (peak, peak_name)
    /\ (0 <= peak)%R.
Proof.
  destruct (peak_battery_power (segments (@short_burst_results R _)) 0%R "")
    as [peak peak_name] eqn:E.
  exists peak, peak_name. split; [reflexivity | ].
  exact (proj1 (peak_battery_power_is_largest _ _ _ E)).
Defined.



(** The aircraft built from [example_config], before any powertrain is
    set; and the conventional aircraft, with an iteration cap of 0. *)
Lemma size_aircraft_needs_powertrain_and_iteration_witness :
  exists a a' : HybridElectricAircraft R,
    HybridElectricAircraft_init "eSTOL-19" example_config = Ok a
    /\ size_aircraft example_config a 50 (1 / 100)%R None
       = Raise (ValueError "Must set powertrain before sizing")
    /\ set_powertrain a "conventional" 0%R None = Ok a'
    /\ size_aircraft example_config a' 0 (1 / 100)%R None
       = Raise (UnboundLocalError "TOGW_new_lb").
Proof.
  destruct (@conventional_setup R _ true 250%dec 80%dec 0%R)
    as (a & a' & b & Hinit & Hset & Hpt & Hr & _).
  destruct (@size_aircraft_header_total R _ example_config a' _ None
              (Hr example_config) Hpt) as [profile Hh].
  assert (Hnone : powertrain a = None).
  { unfold HybridElectricAircraft_init in Hinit. cbn in Hinit.
    injection Hinit as <-. reflexivity. }
  exists a, a'. split; [exact Hinit | ].
  split.
  - exact (proj1 (@size_aircraft_needs_powertrain_and_iteration R _ _
                    example_config a 50%nat (1 / 100)%R None) Hnone).
  - split; [exact Hset | ].
    exact (proj2 (@size_aircraft_needs_powertrain_and_iteration R _ _
                    example_config a' 0%nat (1 / 100)%R None) profile Hh).
Defined.

(** The conventional aircraft built from [example_config], sized. *)
Lemma size_aircraft_leaves_its_result_witness :
  exists (a a' after : HybridElectricAircraft R) (r : SizingResult R),
    HybridElectricAircraft_init "eSTOL-19" example_config = Ok a
    /\ set_powertrain a "conventional" 0%R None = Ok a'
    /\ size_aircraft example_config a' 1 (1 / 100)%R None = Ok (after, r)
    /\ TOGW_lb after = VNum (r_TOGW_lb r)
    /\ fold_left Rplus (map snd (weight_breakdown after)) 0%R = r_OEW_lb r.
Proof.
  destruct (@conventional_setup R _ true 250%dec 80%dec 0%R)
    as (a & a' & b & Hinit & Hset & Hpt & Hr & Hsp & Hbsfc & _).
  pose proof (Hr example_config) as Hready.
  assert (Husable : usable (Conventional b)).
  { apply conventional_usable; [exact Hsp | rewrite Hbsfc; reflexivity]. }
  destruct (@size_aircraft_total R _ _ example_config a' _ 0%nat (1 / 100)%R None
              Hready Hpt Husable) as (after & r & Hsize).
  destruct (@size_aircraft_leaves_its_result R _ _ example_config a' after
              1%nat (1 / 100)%R None r Hsize)
    as (Htogw & _ & _ & _ & _ & _ & _ & _ & _ & Hsum & _).
  exists a, a', after, r.
  split; [exact Hinit | ]. split; [exact Hset | ]. split; [exact Hsize | ].
  split; [exact Htogw | exact Hsum].
Defined.

Lemma size_aircraft_weights_close_witness :
  exists (a a' after : HybridElectricAircraft R) (r : SizingResult R),
    HybridElectricAircraft_init "eSTOL-19" example_config = Ok a
    /\ set_powertrain a "conventional" 0%R None = Ok a'
    /\ size_aircraft example_config a' 1 (1 / 100)%R None = Ok (after, r)
    /\ r_TOGW_lb r
       = (r_OEW_lb r + 1200 + r_W_fuel_lb r + r_W_battery_lb r)%R.
Proof.
  destruct (@conventional_setup R _ true 250%dec 80%dec 0%R)
    as (a & a' & b & Hinit & Hset & Hpt & Hr & Hsp & Hbsfc & _).
  pose proof (Hr example_config) as Hready.
  assert (Husable : usable (Conventional b)).
  { apply conventional_usable; [exact Hsp | rewrite Hbsfc; reflexivity]. }
  destruct (@size_aircraft_total R _ _ example_config a' _ 0%nat (1 / 100)%R None
              Hready Hpt Husable) as (after & r & Hsize).
  destruct (proj1 size_aircraft_weights_close R _ _ example_config a' after
              1%nat (1 / 100)%R None r Hsize) as (payload & Hpay & Htogw).
  assert (Hpayload : num (W_payload_lb a') = Ok 1200%R).
  { unfold set_powertrain in Hset. cbn in Hset. injection Hset as <-.
    unfold HybridElectricAircraft_init in Hinit. cbn in Hinit.
    injection Hinit as <-. reflexivity. }
  rewrite Hpayload in Hpay. injection Hpay as <-.
  exists a, a', after, r.
  split; [exact Hinit | ]. split; [exact Hset | ]. split; [exact Hsize | ].
  exact Htogw.
Defined.

(** The conventional aircraft built from [example_config]: the cruise
    flown with the blown-lift flag set, and the default flags. *)
Lemma blown_profile_without_effect_when_disabled_witness :
  exists a a' : HybridElectricAircraft R,
    HybridElectricAircraft_init "eSTOL-19" example_config = Ok a
    /\ set_powertrain a "conventional" 0%R None = Ok a'
    /\ totals (simulate_mission example_config a'
                 (create_mission a' [] (Some [("cruise", true)]))
                 15000%R 700%R)
       = totals (simulate_mission example_config a'
                   (create_mission a' [] None) 15000%R 700%R).
Proof.
  eassert (Hinit : HybridElectricAircraft_init "eSTOL-19"
                     (@example_config R _) = Ok _) by reflexivity.
  name_result Hinit a.
  eassert (Hset : set_powertrain a "conventional" 0%R None = Ok _)
    by reflexivity.
  name_result Hset a'.
  exists a, a'. split; [exact Hinit | ]. split; [exact Hset | ].
  exact (@blown_profile_without_effect_when_disabled R _ _ example_config a' []
           (Some [("cruise", true)]) None 15000%R 700%R eq_refl).
Defined.

(** A parallel hybrid set up with the ratio 0.3 and no profile. *)
Lemma sizing_profile_precedence_witness :
  exists (a a' : HybridElectricAircraft float) (profile : list (string * float)),
    HybridElectricAircraft_init "eSTOL-19" example_config = Ok a
    /\ set_powertrain a "parallel" #0.3 None = Ok a'
    /\ size_aircraft_header a' None = Ok profile
    /\ map (@Hp float) (create_mission a' profile None)
       = [#0.3; #0.3; #0.0; #0.0; #0.0; #0.3].
Proof.
  eassert (Hinit : HybridElectricAircraft_init "eSTOL-19"
                     (@example_config float _) = Ok _) by reflexivity.
  name_result Hinit a.
  eassert (Hset : set_powertrain a "parallel" #0.3 None = Ok _) by reflexivity.
  name_result Hset a'.
  eassert (Hh : size_aircraft_header a' None = Ok _) by reflexivity.
  name_result Hh profile.
  exists a, a', profile.
  split; [exact Hinit | ]. split; [exact Hset | ]. split; [exact Hh | ].
  exact (@sizing_profile_precedence float _ a a' "parallel" #0.3 None None
           profile Hset Hh).
Defined.

(** ** The iteration cap *)

Section cap_facts.
Context {F : Type} {AF : Arith F} {LF : Libm F}.
Variable module_config : ConfigLoader F.
Implicit Types (self : HybridElectricAircraft F).

Lemma sizing_loop_converged_stable (n : nat) (tol : F)
  (prof : list (string * F)) :
  forall self (g : F) (last : option (IterationVars F)) a_n v,
    (forall v0, last = Some v0 -> (it_error v0 <? tol) = false) ->
    sizing_loop module_config n tol prof self g last = Ok (a_n, Some v) ->
    (it_error v <? tol) = true ->
    forall last',
      sizing_loop module_config (S n) tol prof self g last' = Ok (a_n, Some v).
Proof.
  induction n as [ | n IH]; intros self g last a_n v Hlast H Hconv last'.
  - cbn [sizing_loop] in H. injection H as _ Hv.
    rewrite (Hlast v Hv) in Hconv. discriminate.
  - change (sizing_loop module_config (S (S n)) tol prof self g last')
      with ('(self', vars) <- sizing_iteration module_config self prof g ;;
            if it_error vars <? tol then Ok (self', Some vars)
            else sizing_loop module_config (S n) tol prof self'
                   (#0.7 * g + #0.3 * it_TOGW_new_lb vars) (Some vars)).
    cbn [sizing_loop] in H.
    destruct (sizing_iteration module_config self prof g) as [[a1 v1] | err];
      cbn [bind] in *; [ | discriminate].
    destruct (it_error v1 <? tol) eqn:E; [exact H | ].
    eapply IH; [ | exact H | exact Hconv].
    intros v0 Hv0. injection Hv0 as <-. exact E.
Qed.

(** X30.  A result that converged does not depend on the iteration cap
    beyond the one it was found with: with any larger cap [size_aircraft]
    returns the same aircraft and the same result. *)
Theorem size_aircraft_converged_is_stable :
  forall self after (max_iterations more : nat) (tolerance : F)
         (profile_argument : option (list (string * F))) (r : SizingResult F),
    size_aircraft module_config self max_iterations tolerance profile_argument
    = Ok (after, r) ->
    converged r = true ->
    size_aircraft module_config self (more + max_iterations) tolerance
      profile_argument = Ok (after, r).
Proof.
  intros self after n more tol p r H Hconv.
  induction more as [ | more IH]; [exact H | ].
  cbn [Nat.add]. clear H.
  apply size_aircraft_inv in IH.
  destruct IH as (profile & a_n & vars & Hh & Hl & Hr).
  assert (Hv : (it_error vars <? tol) = true).
  { unfold size_aircraft_results in Hr. inv_ok Hr. ok_inj.
    exact Hconv. }
  unfold size_aircraft. rewrite Hh. cbn [bind].
  rewrite (@sizing_loop_converged_stable (more + n) tol profile self #15000 None
             a_n vars); [exact Hr | discriminate | exact Hl | exact Hv].
Qed.
End cap_facts.

(** The conventional aircraft built from [example_config], with a
    tolerance that the first iteration meets. *)
Lemma size_aircraft_converged_is_stable_witness :
  exists (a a' after : HybridElectricAircraft R) (r : SizingResult R) (tol : R),
    HybridElectricAircraft_init "eSTOL-19" example_config = Ok a
    /\ set_powertrain a "conventional" 0%R None = Ok a'
    /\ size_aircraft example_config a' 1 tol None = Ok (after, r)
    /\ size_aircraft example_config a' 50 tol None = Ok (after, r).
Proof.
  destruct (@conventional_setup R _ true 250%dec 80%dec 0%R)
    as (a & a' & b & Hinit & Hset & Hpt & Hr & Hsp & Hbsfc & _).
  pose proof (Hr example_config) as Hready.
  assert (Husable : usable (Conventional b)).
  { apply conventional_usable; [exact Hsp | rewrite Hbsfc; reflexivity]. }
  destruct (@size_aircraft_header_total R _ example_config a' _ None Hready Hpt)
    as [profile Hh].
  destruct (@sizing_iteration_total R _ _ example_config a' _ profile #15000
              Hready Hpt Husable) as (a0 & v0 & Hit0).
  set (tol := (it_error v0 + 1)%R).
  destruct (@size_aircraft_total R _ _ example_config a' _ 0%nat tol None
              Hready Hpt Husable) as (after & r & Hsize).
  assert (Hconv : converged r = true).
  { pose proof Hsize as H. apply size_aircraft_inv in H.
    destruct H as (profile' & a_n & vars & Hh' & Hl & Hres).
    assert (profile' = profile) by congruence. subst profile'.
    cbn [sizing_loop] in Hl. rewrite Hit0 in Hl. cbn [bind] in Hl.
    assert (Hlt : (it_error v0 <? tol) = true).
    { arith_R. apply Rltb_true. unfold tol. lra. }
    rewrite Hlt in Hl. ok_inj.
    unfold size_aircraft_results in Hres. inv_ok Hres. ok_inj.
    cbn [converged]. exact Hlt. }
  exists a, a', after, r, tol.
  split; [exact Hinit | ]. split; [exact Hset | ]. split; [exact Hsize | ].
  exact (@size_aircraft_converged_is_stable R _ _ example_config a' after
           1%nat 49%nat tol None r Hsize Hconv).
Defined.


(** ** The label of a power-limited battery (C3) *)

(** The first iteration of the sizing loop, step by step. *)

Section first_iteration.
Context {F : Type} {AF : Arith F} {LF : Libm F}.
Variable module_config : ConfigLoader F.
Implicit Types a self : HybridElectricAircraft F.



End first_iteration.

(** What each segment function computes for a fully electric aircraft
    without distributed propulsion. *)

Section electric_segments.
Context {F : Type} {AF : Arith F} {LF : Libm F}.
Variable module_config : ConfigLoader F.
Variable self : HybridElectricAircraft F.
Variable y : PowertrainBase F.
Variable eff : F.
Hypothesis Hoff : truthy (dep_enabled self) = false.
Hypothesis Hy : powertrain self = Some (FullyElectric y).
Hypothesis Heff : num (EM_efficiency (tech y)) = Ok eff.







End electric_segments.

(** Bounds on the flight times. *)

Section flight_times.



End flight_times.


Section power_limited.


End power_limited.

